(** * Teleport auth: certificate authority bootstrap, identities and OIDC

    A shallow embedding of [lib/auth/init.go] and [lib/auth/oidc.go].
    Go values are embedded as follows:
    - [(T, error)] results as [result T]; a function that mutates the
      auth server and may fail lives in the monad [M];
    - [map[string]interface{}] as [option (gmap string Value)], where
      [None] is the nil map;
    - [[]byte] as [string];
    - [time.Time] and [time.Duration] as [Z] (nanoseconds), the zero time
      being [0];
    - interfaces as records of methods or type classes. *)

From stdpp Require Import gmap strings list fin_maps.
From Stdlib Require Import ZArith Lia Ascii.

Set Warnings "-register-all".

Open Scope Z_scope.

(* ===================================================================== *)
(** * Errors of the [trace] package *)
(* ===================================================================== *)

(** The error classes the code tests for with [trace.IsNotFound] and
    [trace.IsAlreadyExists], the OAuth2-shaped errors of [trace.OAuth2], and
    a Go run-time panic (which aborts the call). *)
Inductive error :=
| NotFound (msg : string)
| AlreadyExists (msg : string)
| BadParameter (msg : string)
| AccessDenied (msg : string)
| OAuth2 (code msg : string)
| OtherError (msg : string)
| RuntimePanic (msg : string).

Definition IsNotFound (e : error) : bool :=
  match e with NotFound _ => true | _ => false end.

Definition IsAlreadyExists (e : error) : bool :=
  match e with AlreadyExists _ => true | _ => false end.

Definition IsAccessDenied (e : error) : bool :=
  match e with AccessDenied _ => true | _ => false end.

Inductive result (A : Type) :=
| Ok (a : A)
| Err (e : error).
Arguments Ok {A} a.
Arguments Err {A} e.

Definition isOk {A} (r : result A) : bool :=
  match r with Ok _ => true | Err _ => false end.

Definition isErr {A} (r : result A) : bool :=
  match r with Ok _ => false | Err _ => true end.

#[global] Instance result_ret : MRet result := @Ok.
#[global] Instance result_bind : MBind result := fun A B f r =>
  match r with Ok a => f a | Err e => Err e end.

(** [trace.Wrap(err)]: keeps the class of the error; [trace.Wrap(nil)] is
    [nil]. *)
Definition Wrap (e : option error) : option error := e.

(* ===================================================================== *)
(** * Claims ([jose.Claims]) *)
(* ===================================================================== *)

(** A decoded JSON value, the dynamic type behind [interface{}]. *)
Inductive Value :=
| VNull
| VBool (b : bool)
| VNumber (n : Z)
| VString (s : string)
| VStrings (l : list string)
| VArray (l : list Value)
| VObject (m : gmap string Value).

(** [jose.Claims] is [map[string]interface{}]; [None] is the nil map. *)
Definition Claims : Type := option (gmap string Value).

(** Reading a Go map: a nil map reads as empty. *)
Definition entries (c : Claims) : gmap string Value := default ∅ c.

Definition claim (c : Claims) (name : string) : option Value := entries c !! name.

(** [a[k] = v]: assignment to an entry of a nil map panics. *)
Definition assign (a : Claims) (k : string) (v : Value) : result Claims :=
  match a with
  | Some m => Ok (Some (<[k:=v]> m))
  | None => Err (RuntimePanic "assignment to entry in nil map")
  end.

(** [Claims.StringClaim] of go-oidc: [(value, ok, err)]; an absent claim is
    [("", false, nil)], a claim of another type is an error. *)
Definition StringClaim (c : Claims) (name : string) : string * bool * option error :=
  match claim c name with
  | None => ("", false, None)
  | Some (VString v) => (v, true, None)
  | Some _ => ("", false, Some (OtherError "unable to parse claim as string"))
  end.

Fixpoint stringsOfArray (l : list Value) : option (list string) :=
  match l with
  | [] => Some []
  | VString s :: l' => cons s <$> stringsOfArray l'
  | _ :: _ => None
  end.

(** [Claims.StringsClaim] of go-oidc. *)
Definition StringsClaim (c : Claims) (name : string) : list string * bool * option error :=
  match claim c name with
  | None => ([], false, None)
  | Some (VStrings v) => (v, true, None)
  | Some (VArray l) =>
      match stringsOfArray l with
      | Some v => (v, true, None)
      | None => ([], false, Some (OtherError "unable to parse claim as string array"))
      end
  | Some _ => ([], false, Some (OtherError "unable to parse claim as string array"))
  end.

(** [mergeClaims] (oidc.go:619): for every entry of [b] whose key is not in
    [a], add it to [a]; returns [a]. *)
Definition mergeClaims (a b : Claims) : result Claims :=
  map_fold (fun k v (acc : result Claims) =>
              a' ← acc;
              match claim a' k with
              | Some _ => Ok a'
              | None => assign a' k v
              end)
           (Ok a) (entries b).

(* ===================================================================== *)
(** * Resources of the [services] package *)
(* ===================================================================== *)

Inductive CertAuthType := HostCA | UserCA.

#[global] Instance CertAuthType_eq_dec : EqDecision CertAuthType.
Proof. solve_decision. Defined.

#[global] Instance CertAuthType_countable : Countable CertAuthType :=
  inj_countable'
    (fun t => match t with HostCA => true | UserCA => false end)
    (fun b => if b then HostCA else UserCA)
    (fun t => match t with HostCA => eq_refl | UserCA => eq_refl end).

(** [services.CertAuthID]: authorities are keyed by type and cluster name. *)
Abbreviation CertAuthID := (CertAuthType * string)%type.

Record TLSKeyPair := {
  Cert : string;
  Key : string
}.

(** [services.CertAuthorityV2], metadata name and spec. *)
Record CertAuthority := {
  caName : string;
  caClusterName : string;
  caType : CertAuthType;
  SigningKeys : list string;
  CheckingKeys : list string;
  TLSKeyPairs : list TLSKeyPair
}.

Definition GetID (ca : CertAuthority) : CertAuthID := (caType ca, caClusterName ca).

(** What the backend keeps of an authority under the key of its id
    ([authorities/<type>/<cluster name>]): the id itself is the key. *)
Record StoredAuthority := {
  stName : string;
  stSigningKeys : list string;
  stCheckingKeys : list string;
  stTLSKeyPairs : list TLSKeyPair
}.

Definition stored (ca : CertAuthority) : StoredAuthority :=
  {| stName := caName ca; stSigningKeys := SigningKeys ca;
     stCheckingKeys := CheckingKeys ca; stTLSKeyPairs := TLSKeyPairs ca |}.

Definition loaded (id : CertAuthID) (st : StoredAuthority) : CertAuthority :=
  {| caName := stName st; caClusterName := id.2; caType := id.1;
     SigningKeys := stSigningKeys st; CheckingKeys := stCheckingKeys st;
     TLSKeyPairs := stTLSKeyPairs st |}.

Definition SetTLSKeyPairs (ca : CertAuthority) (pairs : list TLSKeyPair) : CertAuthority :=
  {| caName := caName ca; caClusterName := caClusterName ca; caType := caType ca;
     SigningKeys := SigningKeys ca; CheckingKeys := CheckingKeys ca;
     TLSKeyPairs := pairs |}.

(** [services.Role]: the parts the code reads or writes. *)
Record Role := {
  roleName : string;
  MaxSessionTTL : Z;
  Logins : list string;
  KubeGroups : list string
}.

Record ExternalIdentity := {
  ConnectorID : string;
  Username : string
}.

#[global] Instance ExternalIdentity_eq_dec : EqDecision ExternalIdentity.
Proof. solve_decision. Defined.

Record ConnectorRef := {
  crType : string;
  crID : string;
  crIdentity : string
}.

Record CreatedBy := {
  cbUser : string;
  cbTime : Z;
  Connector : option ConnectorRef
}.

(** [services.UserV2]; [RawV1] is the legacy object of [GetRawObject] with its
    allowed logins, when the user was stored in the V1 format. *)
Record User := {
  userName : string;
  userRoles : list string;
  Traits : gmap string (list string);
  Expires : Z;
  OIDCIdentities : list ExternalIdentity;
  GetCreatedBy : CreatedBy;
  RawV1 : option (list string)
}.

Record ClaimMapping := {
  cmClaim : string;
  cmValue : string;
  cmRoles : list string
}.

(** [services.OIDCConnector] is an interface: a record of its methods. *)
Record OIDCConnector := {
  GetName : string;
  GetIssuerURL : string;
  GetClientID : string;
  GetClientSecret : string;
  GetRedirectURL : string;
  GetScope : list string;
  GetACR : string;
  GetProvider : string;
  GetClaimsToRoles : list ClaimMapping;
  MapClaims : Claims -> list string
}.

Record OIDCAuthRequest := {
  reqConnectorID : string;
  StateToken : string;
  RedirectURL : string;
  CheckUser : bool;
  CreateWebSession : bool;
  CertTTL : Z;
  PublicKey : string;
  Compatibility : string
}.

Record WebSession := {
  wsUser : string;
  wsID : string;
  ExpiryTime : Z;
  BearerTokenExpiryTime : Z
}.

Definition SetExpiryTime (sess : WebSession) (t : Z) : WebSession :=
  {| wsUser := wsUser sess; wsID := wsID sess; ExpiryTime := t;
     BearerTokenExpiryTime := BearerTokenExpiryTime sess |}.

Definition SetBearerTokenExpiryTime (sess : WebSession) (t : Z) : WebSession :=
  {| wsUser := wsUser sess; wsID := wsID sess; ExpiryTime := ExpiryTime sess;
     BearerTokenExpiryTime := t |}.

(** [services.ClusterConfig]: the cluster id and the rest of the settings. *)
Record ClusterConfig := {
  ClusterID : string;
  ccSettings : string
}.

Definition SetClusterID (c : ClusterConfig) (id : string) : ClusterConfig :=
  {| ClusterID := id; ccSettings := ccSettings c |}.

(** An audit event: its type and fields. *)
Record AuditEvent := {
  evType : string;
  evFields : list (string * string)
}.

(* ===================================================================== *)
(** * Identities ([init.go]) and the SSH and TLS values they hold *)
(* ===================================================================== *)

(** [ssh.Certificate]: the certified public key (marshalled), the valid
    principals and the extensions ([None] is the nil map). *)
Record Certificate := {
  certKey : string;
  ValidPrincipals : list string;
  Extensions : option (gmap string string)
}.

(** What [ssh.ParseAuthorizedKey] yields: a certificate or a bare key. *)
Inductive SSHPublicKey :=
| PubCertificate (cert : Certificate)
| PubBareKey (key : string).

(** The signer [ssh.ParsePrivateKey] builds from a private key, with the
    marshalled public key [PublicKey().Marshal()] of that key. *)
Record PrivateKeySigner := {
  signerPublicKey : string
}.

(** [ssh.Signer]: the signer of a bare key, or the certificate-bound signer
    of [ssh.NewCertSigner]. *)
Inductive Signer :=
| BareKeySigner (s : PrivateKeySigner)
| CertSigner (cert : Certificate) (s : PrivateKeySigner).

Record IdentityID := {
  idRole : string;
  HostUUID : string;
  NodeName : string
}.

Record Identity := {
  ID : IdentityID;
  KeyBytes : string;
  CertBytes : string;
  TLSCertBytes : string;
  TLSCACertsBytes : list string;
  KeySigner : option Signer;
  idCert : option Certificate;
  ClusterName : string
}.

(** [pkix.Name] and [x509.Certificate]: the fields the code reads. *)
Record PkixName := {
  CommonName : string;
  Organization : list string
}.

Record X509Certificate := {
  Subject : PkixName;
  Issuer : PkixName;
  DNSNames : list string
}.

(** [tlsca.Identity] *)
Record TLSIdentity := {
  tlsUsername : string;
  Groups : list string
}.

(** [tls.Certificate] and [tls.Config] *)
Record TLSCertificate := {
  tlsCertPEM : string;
  tlsKeyPEM : string
}.

Record TLSConfig_ := {
  tcCipherSuites : list Z;
  Certificates : list TLSCertificate;
  RootCAs : list X509Certificate;
  ClientCAs : list X509Certificate;
  ServerName : string
}.

(* ===================================================================== *)
(** * The auth server *)
(* ===================================================================== *)

(** [oidc.ClientConfig] and the cached client of [getOIDCClient]. *)
Record ClientConfig := {
  ccRedirectURL : string;
  ccID : string;
  ccSecret : string;
  ccScope : list string
}.

#[global] Instance ClientConfig_eq_dec : EqDecision ClientConfig.
Proof. solve_decision. Defined.

Record oidcClient := {
  client : ClientConfig;
  config : ClientConfig
}.

(** The state behind [*AuthServer]: the backend services it embeds (Trust,
    Presence, Identity, Access, ClusterConfiguration), the audit log, the
    local disk, and the clock, random source and network counters that make
    the run deterministic. *)
Record AuthServer := {
  clock : Z;
  entropy : list N;
  httpCalls : nat;
  locks : gset string;
  clusterName : option string;
  clusterConfig : option ClusterConfig;
  staticTokens : option string;
  authPreference : option string;
  namespaces : gset string;
  reverseTunnels : gmap string string;
  remoteClusters : gset string;
  trustedClusters : gset string;
  authorities : gmap CertAuthID StoredAuthority;
  roles : gmap string Role;
  users : gmap string User;
  oidcConnectors : gmap string OIDCConnector;
  oidcAuthRequests : gmap string OIDCAuthRequest;
  webSessions : gmap string WebSession;
  oidcClients : gmap string oidcClient;
  auditLog : list AuditEvent;
  files : gmap string string;
  processStorage : gmap string Identity;
  cipherSuites : list Z;
  periodicOperations : bool
}.

Definition set_clock (f : Z -> Z) (s : AuthServer) : AuthServer :=
  Build_AuthServer (f (clock s)) (entropy s) (httpCalls s) (locks s) (clusterName s)
    (clusterConfig s) (staticTokens s) (authPreference s) (namespaces s)
    (reverseTunnels s) (remoteClusters s) (trustedClusters s) (authorities s) (roles s)
    (users s) (oidcConnectors s) (oidcAuthRequests s) (webSessions s) (oidcClients s)
    (auditLog s) (files s) (processStorage s) (cipherSuites s) (periodicOperations s).

Definition set_entropy (f : list N -> list N) (s : AuthServer) : AuthServer :=
  Build_AuthServer (clock s) (f (entropy s)) (httpCalls s) (locks s) (clusterName s)
    (clusterConfig s) (staticTokens s) (authPreference s) (namespaces s)
    (reverseTunnels s) (remoteClusters s) (trustedClusters s) (authorities s) (roles s)
    (users s) (oidcConnectors s) (oidcAuthRequests s) (webSessions s) (oidcClients s)
    (auditLog s) (files s) (processStorage s) (cipherSuites s) (periodicOperations s).

Definition set_httpCalls (f : nat -> nat) (s : AuthServer) : AuthServer :=
  Build_AuthServer (clock s) (entropy s) (f (httpCalls s)) (locks s) (clusterName s)
    (clusterConfig s) (staticTokens s) (authPreference s) (namespaces s)
    (reverseTunnels s) (remoteClusters s) (trustedClusters s) (authorities s) (roles s)
    (users s) (oidcConnectors s) (oidcAuthRequests s) (webSessions s) (oidcClients s)
    (auditLog s) (files s) (processStorage s) (cipherSuites s) (periodicOperations s).

Definition set_locks (f : gset string -> gset string) (s : AuthServer) : AuthServer :=
  Build_AuthServer (clock s) (entropy s) (httpCalls s) (f (locks s)) (clusterName s)
    (clusterConfig s) (staticTokens s) (authPreference s) (namespaces s)
    (reverseTunnels s) (remoteClusters s) (trustedClusters s) (authorities s) (roles s)
    (users s) (oidcConnectors s) (oidcAuthRequests s) (webSessions s) (oidcClients s)
    (auditLog s) (files s) (processStorage s) (cipherSuites s) (periodicOperations s).

Definition set_clusterName (f : option string -> option string) (s : AuthServer) : AuthServer :=
  Build_AuthServer (clock s) (entropy s) (httpCalls s) (locks s) (f (clusterName s))
    (clusterConfig s) (staticTokens s) (authPreference s) (namespaces s)
    (reverseTunnels s) (remoteClusters s) (trustedClusters s) (authorities s) (roles s)
    (users s) (oidcConnectors s) (oidcAuthRequests s) (webSessions s) (oidcClients s)
    (auditLog s) (files s) (processStorage s) (cipherSuites s) (periodicOperations s).

Definition set_clusterConfig (f : option ClusterConfig -> option ClusterConfig) (s : AuthServer) : AuthServer :=
  Build_AuthServer (clock s) (entropy s) (httpCalls s) (locks s) (clusterName s) (f
    (clusterConfig s)) (staticTokens s) (authPreference s) (namespaces s)
    (reverseTunnels s) (remoteClusters s) (trustedClusters s) (authorities s) (roles s)
    (users s) (oidcConnectors s) (oidcAuthRequests s) (webSessions s) (oidcClients s)
    (auditLog s) (files s) (processStorage s) (cipherSuites s) (periodicOperations s).

Definition set_staticTokens (f : option string -> option string) (s : AuthServer) : AuthServer :=
  Build_AuthServer (clock s) (entropy s) (httpCalls s) (locks s) (clusterName s)
    (clusterConfig s) (f (staticTokens s)) (authPreference s) (namespaces s)
    (reverseTunnels s) (remoteClusters s) (trustedClusters s) (authorities s) (roles s)
    (users s) (oidcConnectors s) (oidcAuthRequests s) (webSessions s) (oidcClients s)
    (auditLog s) (files s) (processStorage s) (cipherSuites s) (periodicOperations s).

Definition set_authPreference (f : option string -> option string) (s : AuthServer) : AuthServer :=
  Build_AuthServer (clock s) (entropy s) (httpCalls s) (locks s) (clusterName s)
    (clusterConfig s) (staticTokens s) (f (authPreference s)) (namespaces s)
    (reverseTunnels s) (remoteClusters s) (trustedClusters s) (authorities s) (roles s)
    (users s) (oidcConnectors s) (oidcAuthRequests s) (webSessions s) (oidcClients s)
    (auditLog s) (files s) (processStorage s) (cipherSuites s) (periodicOperations s).

Definition set_namespaces (f : gset string -> gset string) (s : AuthServer) : AuthServer :=
  Build_AuthServer (clock s) (entropy s) (httpCalls s) (locks s) (clusterName s)
    (clusterConfig s) (staticTokens s) (authPreference s) (f (namespaces s))
    (reverseTunnels s) (remoteClusters s) (trustedClusters s) (authorities s) (roles s)
    (users s) (oidcConnectors s) (oidcAuthRequests s) (webSessions s) (oidcClients s)
    (auditLog s) (files s) (processStorage s) (cipherSuites s) (periodicOperations s).

Definition set_reverseTunnels (f : gmap string string -> gmap string string) (s : AuthServer) : AuthServer :=
  Build_AuthServer (clock s) (entropy s) (httpCalls s) (locks s) (clusterName s)
    (clusterConfig s) (staticTokens s) (authPreference s) (namespaces s) (f
    (reverseTunnels s)) (remoteClusters s) (trustedClusters s) (authorities s) (roles s)
    (users s) (oidcConnectors s) (oidcAuthRequests s) (webSessions s) (oidcClients s)
    (auditLog s) (files s) (processStorage s) (cipherSuites s) (periodicOperations s).

Definition set_remoteClusters (f : gset string -> gset string) (s : AuthServer) : AuthServer :=
  Build_AuthServer (clock s) (entropy s) (httpCalls s) (locks s) (clusterName s)
    (clusterConfig s) (staticTokens s) (authPreference s) (namespaces s)
    (reverseTunnels s) (f (remoteClusters s)) (trustedClusters s) (authorities s)
    (roles s) (users s) (oidcConnectors s) (oidcAuthRequests s) (webSessions s)
    (oidcClients s) (auditLog s) (files s) (processStorage s) (cipherSuites s)
    (periodicOperations s).

Definition set_trustedClusters (f : gset string -> gset string) (s : AuthServer) : AuthServer :=
  Build_AuthServer (clock s) (entropy s) (httpCalls s) (locks s) (clusterName s)
    (clusterConfig s) (staticTokens s) (authPreference s) (namespaces s)
    (reverseTunnels s) (remoteClusters s) (f (trustedClusters s)) (authorities s)
    (roles s) (users s) (oidcConnectors s) (oidcAuthRequests s) (webSessions s)
    (oidcClients s) (auditLog s) (files s) (processStorage s) (cipherSuites s)
    (periodicOperations s).

Definition set_authorities (f : gmap CertAuthID StoredAuthority -> gmap CertAuthID StoredAuthority) (s : AuthServer) : AuthServer :=
  Build_AuthServer (clock s) (entropy s) (httpCalls s) (locks s) (clusterName s)
    (clusterConfig s) (staticTokens s) (authPreference s) (namespaces s)
    (reverseTunnels s) (remoteClusters s) (trustedClusters s) (f (authorities s))
    (roles s) (users s) (oidcConnectors s) (oidcAuthRequests s) (webSessions s)
    (oidcClients s) (auditLog s) (files s) (processStorage s) (cipherSuites s)
    (periodicOperations s).

Definition set_roles (f : gmap string Role -> gmap string Role) (s : AuthServer) : AuthServer :=
  Build_AuthServer (clock s) (entropy s) (httpCalls s) (locks s) (clusterName s)
    (clusterConfig s) (staticTokens s) (authPreference s) (namespaces s)
    (reverseTunnels s) (remoteClusters s) (trustedClusters s) (authorities s) (f
    (roles s)) (users s) (oidcConnectors s) (oidcAuthRequests s) (webSessions s)
    (oidcClients s) (auditLog s) (files s) (processStorage s) (cipherSuites s)
    (periodicOperations s).

Definition set_users (f : gmap string User -> gmap string User) (s : AuthServer) : AuthServer :=
  Build_AuthServer (clock s) (entropy s) (httpCalls s) (locks s) (clusterName s)
    (clusterConfig s) (staticTokens s) (authPreference s) (namespaces s)
    (reverseTunnels s) (remoteClusters s) (trustedClusters s) (authorities s) (roles s)
    (f (users s)) (oidcConnectors s) (oidcAuthRequests s) (webSessions s)
    (oidcClients s) (auditLog s) (files s) (processStorage s) (cipherSuites s)
    (periodicOperations s).

Definition set_oidcConnectors (f : gmap string OIDCConnector -> gmap string OIDCConnector) (s : AuthServer) : AuthServer :=
  Build_AuthServer (clock s) (entropy s) (httpCalls s) (locks s) (clusterName s)
    (clusterConfig s) (staticTokens s) (authPreference s) (namespaces s)
    (reverseTunnels s) (remoteClusters s) (trustedClusters s) (authorities s) (roles s)
    (users s) (f (oidcConnectors s)) (oidcAuthRequests s) (webSessions s)
    (oidcClients s) (auditLog s) (files s) (processStorage s) (cipherSuites s)
    (periodicOperations s).

Definition set_oidcAuthRequests (f : gmap string OIDCAuthRequest -> gmap string OIDCAuthRequest) (s : AuthServer) : AuthServer :=
  Build_AuthServer (clock s) (entropy s) (httpCalls s) (locks s) (clusterName s)
    (clusterConfig s) (staticTokens s) (authPreference s) (namespaces s)
    (reverseTunnels s) (remoteClusters s) (trustedClusters s) (authorities s) (roles s)
    (users s) (oidcConnectors s) (f (oidcAuthRequests s)) (webSessions s)
    (oidcClients s) (auditLog s) (files s) (processStorage s) (cipherSuites s)
    (periodicOperations s).

Definition set_webSessions (f : gmap string WebSession -> gmap string WebSession) (s : AuthServer) : AuthServer :=
  Build_AuthServer (clock s) (entropy s) (httpCalls s) (locks s) (clusterName s)
    (clusterConfig s) (staticTokens s) (authPreference s) (namespaces s)
    (reverseTunnels s) (remoteClusters s) (trustedClusters s) (authorities s) (roles s)
    (users s) (oidcConnectors s) (oidcAuthRequests s) (f (webSessions s))
    (oidcClients s) (auditLog s) (files s) (processStorage s) (cipherSuites s)
    (periodicOperations s).

Definition set_oidcClients (f : gmap string oidcClient -> gmap string oidcClient) (s : AuthServer) : AuthServer :=
  Build_AuthServer (clock s) (entropy s) (httpCalls s) (locks s) (clusterName s)
    (clusterConfig s) (staticTokens s) (authPreference s) (namespaces s)
    (reverseTunnels s) (remoteClusters s) (trustedClusters s) (authorities s) (roles s)
    (users s) (oidcConnectors s) (oidcAuthRequests s) (webSessions s) (f
    (oidcClients s)) (auditLog s) (files s) (processStorage s) (cipherSuites s)
    (periodicOperations s).

Definition set_auditLog (f : list AuditEvent -> list AuditEvent) (s : AuthServer) : AuthServer :=
  Build_AuthServer (clock s) (entropy s) (httpCalls s) (locks s) (clusterName s)
    (clusterConfig s) (staticTokens s) (authPreference s) (namespaces s)
    (reverseTunnels s) (remoteClusters s) (trustedClusters s) (authorities s) (roles s)
    (users s) (oidcConnectors s) (oidcAuthRequests s) (webSessions s) (oidcClients s) (f
    (auditLog s)) (files s) (processStorage s) (cipherSuites s) (periodicOperations s).

Definition set_files (f : gmap string string -> gmap string string) (s : AuthServer) : AuthServer :=
  Build_AuthServer (clock s) (entropy s) (httpCalls s) (locks s) (clusterName s)
    (clusterConfig s) (staticTokens s) (authPreference s) (namespaces s)
    (reverseTunnels s) (remoteClusters s) (trustedClusters s) (authorities s) (roles s)
    (users s) (oidcConnectors s) (oidcAuthRequests s) (webSessions s) (oidcClients s)
    (auditLog s) (f (files s)) (processStorage s) (cipherSuites s)
    (periodicOperations s).

Definition set_processStorage (f : gmap string Identity -> gmap string Identity) (s : AuthServer) : AuthServer :=
  Build_AuthServer (clock s) (entropy s) (httpCalls s) (locks s) (clusterName s)
    (clusterConfig s) (staticTokens s) (authPreference s) (namespaces s)
    (reverseTunnels s) (remoteClusters s) (trustedClusters s) (authorities s) (roles s)
    (users s) (oidcConnectors s) (oidcAuthRequests s) (webSessions s) (oidcClients s)
    (auditLog s) (files s) (f (processStorage s)) (cipherSuites s)
    (periodicOperations s).

Definition set_cipherSuites (f : list Z -> list Z) (s : AuthServer) : AuthServer :=
  Build_AuthServer (clock s) (entropy s) (httpCalls s) (locks s) (clusterName s)
    (clusterConfig s) (staticTokens s) (authPreference s) (namespaces s)
    (reverseTunnels s) (remoteClusters s) (trustedClusters s) (authorities s) (roles s)
    (users s) (oidcConnectors s) (oidcAuthRequests s) (webSessions s) (oidcClients s)
    (auditLog s) (files s) (processStorage s) (f (cipherSuites s))
    (periodicOperations s).

Definition set_periodicOperations (f : bool -> bool) (s : AuthServer) : AuthServer :=
  Build_AuthServer (clock s) (entropy s) (httpCalls s) (locks s) (clusterName s)
    (clusterConfig s) (staticTokens s) (authPreference s) (namespaces s)
    (reverseTunnels s) (remoteClusters s) (trustedClusters s) (authorities s) (roles s)
    (users s) (oidcConnectors s) (oidcAuthRequests s) (webSessions s) (oidcClients s)
    (auditLog s) (files s) (processStorage s) (cipherSuites s) (f
    (periodicOperations s)).

(** The state and error monad of the auth server: the state is kept when a
    call fails, as the writes made before the failure stay in the backend. *)
Definition M (A : Type) : Type := AuthServer -> result A * AuthServer.

#[global] Instance M_ret : MRet M := fun A a s => (Ok a, s).
#[global] Instance M_bind : MBind M := fun A B f m s =>
  match m s with
  | (Ok a, s') => f a s'
  | (Err e, s') => (Err e, s')
  end.

Definition fail {A} (e : error) : M A := fun s => (Err e, s).
Definition get {A} (f : AuthServer -> A) : M A := fun s => (Ok (f s), s).
Definition modify (f : AuthServer -> AuthServer) : M unit := fun s => (Ok (), f s).
Definition lift {A} (r : result A) : M A := fun s => (r, s).

(** [try m]: run [m] and hand its error, if any, to the caller
    ([x, err := m(); if err != nil { ... }] with a handler). *)
Definition try {A} (m : M A) : M (result A) := fun s =>
  let '(r, s') := m s in (Ok r, s').

Definition EmitAuditEvent (ty : string) (fields : list (string * string)) : M unit :=
  modify (set_auditLog (fun l => l ++ [{| evType := ty; evFields := fields |}])).

(* ===================================================================== *)
(** * What the code takes from outside [src/] *)
(* ===================================================================== *)

(** Named constants of the [teleport], [defaults], [utils] and [auth]
    packages; their values are not part of these two files. *)
Class Constants := {
  MaxPages : Z;
  BearerTokenTTL : Z;
  CATTL : Z;
  GSuiteIssuerURL : string;
  GSuiteGroupsScope : string;
  GSuiteGroupsEndpoint : string;
  NetIQ : string;
  ConnectorOIDC : string;
  Namespace : string;
  CertExtensionRole : string;
  CertExtensionAuthority : string;
  ComponentProcess : string
}.

Record Request := {
  Method : string;
  URL : string;
  Query : gmap string string;
  Authorization : string
}.

Record Response := {
  StatusCode : Z;
  Body : string
}.

Record TokenResponse := {
  IDToken : string;
  AccessToken : string
}.

Record ProviderConfig := {
  UserInfoEndpoint : option string
}.

(** [oidc.Identity] *)
Record OIDCIdentity := {
  oiID : string;
  oiName : string;
  Email : string;
  ExpiresAt : Z
}.

Record gsuiteGroup := {
  gEmail : string
}.

Record gsuiteGroups := {
  NextPageToken : string;
  gGroups : list gsuiteGroup
}.

Record certRequest := {
  crUser : User;
  crRoles : list Role;
  ttl : Z;
  publicKey : string;
  compatibility : string
}.

Record certs := {
  ssh : string;
  tls : string
}.

(** The OIDC provider, the HTTP transport and the libraries behind them
    (go-oidc, [net/http], [encoding/json]), and the methods of [AuthServer]
    defined in other files. [Do n req] is the answer to the request [req]
    when it is the [n]-th request sent. *)
Class External := {
  JWT : Type;
  NewClient : ClientConfig -> option error;
  OAuthClient : ClientConfig -> option error;
  RequestToken : ClientConfig -> string -> result TokenResponse;
  ParseJWT : string -> result JWT;
  VerifyJWT : ClientConfig -> JWT -> option error;
  JWTClaims : JWT -> result Claims;
  isHTTPS : string -> option error;
  FetchProviderConfig : string -> result ProviderConfig;
  urlParse : string -> option error;
  Do : nat -> Request -> result Response;
  decodeClaims : string -> result Claims;
  decodeGroups : string -> result gsuiteGroups;
  IdentityFromClaims : Claims -> result OIDCIdentity;
  GenerateUser : User -> result User;
  NewWebSession : AuthServer -> string -> result WebSession;
  generateUserCert : AuthServer -> certRequest -> result certs
}.

(** [if err != nil { return trace.Wrap(err) }] for a call that only
    reports an error. *)
Definition check (e : option error) : M unit :=
  match Wrap e with
  | Some err => fail err
  | None => mret ()
  end.

(** Names of the [events] package. *)
Definition UserLoginEvent : string := "user.login".
Definition LoginMethod : string := "method".
Definition LoginMethodOIDC : string := "oidc".
Definition AuthAttemptSuccess : string := "success".
Definition AuthAttemptErr : string := "error".
Definition AuthAttemptMessage : string := "message".
Definition EventUser : string := "user".

Definition errorText (e : error) : string :=
  match e with
  | NotFound m | AlreadyExists m | BadParameter m | AccessDenied m
  | OtherError m | RuntimePanic m => m
  | OAuth2 _ m => m
  end.

(* ===================================================================== *)
(** * Persistence, as the services expose it *)
(* ===================================================================== *)

(** Modelled from the spec: the persistence layer is not under [src/]; each
    resource is keyed by name, a get returns NotFound when the resource is
    absent, a create returns AlreadyExists on conflict, and a user
    provisioned with an expiry is gone once the expiry has passed (as the
    test of [createOIDCUser] checks). *)
Definition expired (now : Z) (u : User) : bool :=
  negb (Expires u =? 0) && (Expires u <=? now).

Definition GetUser (name : string) : M User := fun s =>
  match users s !! name with
  | Some u => if expired (clock s) u then (Err (NotFound "user not found"), s)
              else (Ok u, s)
  | None => (Err (NotFound "user not found"), s)
  end.

(** What the backend stores is the marshalled V2 object: the legacy raw
    object is not kept. *)
Definition storedUser (u : User) : User :=
  {| userName := userName u; userRoles := userRoles u; Traits := Traits u;
     Expires := Expires u; OIDCIdentities := OIDCIdentities u;
     GetCreatedBy := GetCreatedBy u; RawV1 := None |}.

Definition UpsertUser (u : User) : M unit :=
  modify (set_users (fun m => <[userName u := storedUser u]> m)).

Definition GetClusterName : M string := fun s =>
  match clusterName s with
  | Some n => (Ok n, s)
  | None => (Err (NotFound "cluster name not found"), s)
  end.

Definition GetOIDCAuthRequest (stateToken : string) : M OIDCAuthRequest := fun s =>
  match oidcAuthRequests s !! stateToken with
  | Some r => (Ok r, s)
  | None => (Err (NotFound "OIDC auth request not found"), s)
  end.

Definition GetOIDCConnector (id : string) (withSecrets : bool) : M OIDCConnector := fun s =>
  match oidcConnectors s !! id with
  | Some c => (Ok c, s)
  | None => (Err (NotFound "OIDC connector not found"), s)
  end.

Definition GetUserByOIDCIdentity (id : ExternalIdentity) : M User := fun s =>
  match filter (fun u => negb (expired (clock s) u) && bool_decide (id ∈ OIDCIdentities u))
               ((map_to_list (users s)).*2) with
  | u :: _ => (Ok u, s)
  | [] => (Err (NotFound "user with identity not found"), s)
  end.

Definition UpsertWebSession (user : string) (sess : WebSession) : M unit :=
  modify (set_webSessions (fun m => <[wsID sess := sess]> m)).

(** With [loadSigningKeys = false] the private parts are left out of the
    returned authority. *)
Definition withoutSigningKeys (ca : CertAuthority) : CertAuthority :=
  {| caName := caName ca; caClusterName := caClusterName ca; caType := caType ca;
     SigningKeys := []; CheckingKeys := CheckingKeys ca;
     TLSKeyPairs := map (fun p => {| Cert := Cert p; Key := "" |}) (TLSKeyPairs ca) |}.

Definition GetCertAuthority (id : CertAuthID) (loadSigningKeys : bool) : M CertAuthority := fun s =>
  match authorities s !! id with
  | Some st => (Ok (if loadSigningKeys then loaded id st
                    else withoutSigningKeys (loaded id st)), s)
  | None => (Err (NotFound "certificate authority not found"), s)
  end.

Definition UpsertCertAuthority (ca : CertAuthority) : M unit :=
  modify (set_authorities (fun m => <[GetID ca := stored ca]> m)).

Definition CreateCertAuthority (ca : CertAuthority) : M unit := fun s =>
  match authorities s !! GetID ca with
  | Some _ => (Err (AlreadyExists "certificate authority already exists"), s)
  | None => (Ok (), set_authorities (fun m => <[GetID ca := stored ca]> m) s)
  end.

Fixpoint FetchRoles (names : list string) (access : gmap string Role) : result (list Role) :=
  match names with
  | [] => Ok []
  | n :: names' =>
      match access !! n with
      | Some r => rs ← FetchRoles names' access; Ok (r :: rs)
      | None => Err (NotFound "role not found")
      end
  end.

(** Modelled from the spec: [utils.ToTTL], [utils.MinTTL] and
    [RoleSet.AdjustSessionTTL] are not under [src/]. The spec words them as
    the remaining identity lifetime, the minimum of two durations, and the
    role-set-adjusted minimum of the lifetime and the role policy. *)
Definition ToTTL (now : Z) (tm : Z) : Z := tm - now.

(** [time.Minute] and [time.Hour], in nanoseconds. *)
Definition Minute : Z := 60000000000.
Definition Hour : Z := 60 * Minute.

Definition MinTTL (a b : Z) : Z := Z.min a b.

Definition AdjustSessionTTL (roles : list Role) (ttl : Z) : Z :=
  foldr (fun r acc => Z.min (MaxSessionTTL r) acc) ttl roles.

(* ===================================================================== *)
(** * OIDC ([oidc.go]) *)
(* ===================================================================== *)

Section OIDC.
Context `{!Constants} `{!External}.

(** [utils.Deduplicate]: the first occurrence of every element is kept. *)
Fixpoint Deduplicate (l : list string) : list string :=
  match l with
  | [] => []
  | x :: l' => x :: filter (fun y => negb (y =? x)%string) (Deduplicate l')
  end.

(** [getOIDCClient] (oidc.go:40): the cached client of the connector, rebuilt
    when the derived configuration changed. A client is represented by the
    configuration it was built from; [oidcConfigsEqual] compares the
    configurations field by field. The provider configuration that
    [SyncProviderConfig] fetches in the background is behind the oracles of
    [External]. *)
Definition getOIDCClient (conn : OIDCConnector) : M ClientConfig := fun s =>
  let cfg := {| ccRedirectURL := GetRedirectURL conn;
                ccID := GetClientID conn;
                ccSecret := GetClientSecret conn;
                (* open id notifies provider that we are using OIDC scopes *)
                ccScope := Deduplicate ("openid" :: "email" :: GetScope conn) |} in
  let cached := match oidcClients s !! GetName conn with
                | Some clientPack =>
                    if bool_decide (config clientPack = cfg)
                    then Some (client clientPack) else None
                | None => None
                end in
  match cached with
  | Some c => (Ok c, s)
  | None =>
      let s1 := set_oidcClients (delete (GetName conn)) s in
      match NewClient cfg with
      | Some err => (Err err, s1)
      | None =>
          (Ok cfg,
           set_oidcClients (<[GetName conn := {| client := cfg; config := cfg |}]>) s1)
      end
  end.

(** [buildOIDCRoles] (oidc.go:305) *)
Definition buildOIDCRoles (connector : OIDCConnector) (claims : Claims) : result (list string) :=
  let roles := MapClaims connector claims in
  if (length roles =? 0)%nat
  then Err (AccessDenied "unable to map claims to role for connector")
  else Ok roles.

(** [claimsToTraitMap] (oidc.go:316): every claim that reads as a string
    becomes a one-element trait, every claim that reads as a list of strings
    a trait with these values; the second assignment wins. *)
Definition claimsToTraitMap (claims : Claims) : gmap string (list string) :=
  omap id
    (map_imap (fun claimName (_ : Value) =>
       let '(claimValue, ok1, _) := StringClaim claims claimName in
       let '(claimValues, ok2, _) := StringsClaim claims claimName in
       Some (if ok2 then Some claimValues
             else if ok1 then Some [claimValue] else None))
     (entries claims)).

(** The user record [createOIDCUser] builds (oidc.go:342-369): named after
    the federated email, with the mapped roles and traits, the expiry of the
    identity, and the connector that created it. *)
Definition oidcUser (connector : OIDCConnector) (ident : OIDCIdentity)
    (roles : list string) (traits : gmap string (list string)) (now : Z) : User :=
  {| userName := Email ident;
     userRoles := roles;
     Traits := traits;
     Expires := ExpiresAt ident;
     OIDCIdentities := [{| ConnectorID := GetName connector; Username := Email ident |}];
     GetCreatedBy := {| cbUser := "system"; cbTime := now;
                        Connector := Some {| crType := ConnectorOIDC;
                                             crID := GetName connector;
                                             crIdentity := Email ident |} |};
     RawV1 := None |}.

(** [createOIDCUser] (oidc.go:333) *)
Definition createOIDCUser (connector : OIDCConnector) (ident : OIDCIdentity)
    (claims : Claims) : M unit :=
  roles ← lift (buildOIDCRoles connector claims);
  let traits := claimsToTraitMap claims in
  now ← get clock;
  user ← lift (GenerateUser (oidcUser connector ident roles traits now));
  (* Get the user to check if it already exists or not. *)
  r ← try (GetUser (Email ident));
  existingUser ← match r with
                 | Ok u => mret (Some u)
                 | Err err => if negb (IsNotFound err) then fail err else mret None
                 end;
  (* Overwrite the existing user if it was created from an external
     identity provider; a local user makes the call fail. *)
  _ ← match existingUser with
      | Some u =>
          match Connector (GetCreatedBy u) with
          | None => fail (AlreadyExists "local user already exists")
          | Some connectorRef => mret ()
          end
      | None => mret ()
      end;
  UpsertUser user.

(** [claimsFromIDToken] (oidc.go:406) *)
Definition claimsFromIDToken (oidcClient : ClientConfig) (idToken : string) : result Claims :=
  jwt ← ParseJWT idToken;
  match VerifyJWT oidcClient jwt with
  | Some err => Err err
  | None => JWTClaims jwt
  end.

(** Sending a request with the HTTP client: the request counter goes up. *)
Definition httpDo (req : Request) : M Response := fun s =>
  (Do (httpCalls s) req, set_httpCalls S s).

(** [claimsFromUserInfo] (oidc.go:432) *)
Definition claimsFromUserInfo (oidcClient : ClientConfig) (issuerURL accessToken : string)
    : M Claims :=
  _ ← check (isHTTPS issuerURL);
  _ ← check (OAuthClient oidcClient);
  pc ← lift (FetchProviderConfig issuerURL);
  match UserInfoEndpoint pc with
  | None => fail (NotFound "UserInfo endpoint not found")
  | Some endpoint =>
      _ ← check (isHTTPS endpoint);
      _ ← check (urlParse endpoint);
      resp ← httpDo {| Method := "GET"; URL := endpoint; Query := ∅;
                       Authorization := "Bearer " +:+ accessToken |};
      if (StatusCode resp <? 200) || (StatusCode resp >? 299)
      then fail (AccessDenied "bad status code")
      else lift (decodeClaims (Body resp))
  end.

(** [gsuiteClient] (oidc.go:519); the HTTP client and the audit log are
    those of the auth server. *)
Record gsuiteClient := {
  url : string;
  userEmail : string;
  accessToken : string
}.

(** [newGsuiteClient] (oidc.go:494) *)
Definition newGsuiteClient (oidcClient : ClientConfig) (issuerURL userEmail accessToken : string)
    : M gsuiteClient :=
  _ ← check (isHTTPS issuerURL);
  _ ← check (OAuthClient oidcClient);
  _ ← check (urlParse GSuiteGroupsEndpoint);
  mret {| url := GSuiteGroupsEndpoint; userEmail := userEmail; accessToken := accessToken |}.

(** [gsuiteGroups.groups] (oidc.go:606) *)
Definition groups (g : gsuiteGroups) : list string := map gEmail (gGroups g).

(** [fetchGroupsPage] (oidc.go:561) *)
Definition fetchGroupsPage (g : gsuiteClient) (pageToken : string) : M gsuiteGroups :=
  let q := <["userKey" := userEmail g]> (∅ : gmap string string) in
  let q := if (pageToken =? "")%string then q else <["pageToken" := pageToken]> q in
  _ ← check (urlParse (url g));
  resp ← httpDo {| Method := "GET"; URL := url g; Query := q;
                   Authorization := "Bearer " +:+ accessToken g |};
  if (StatusCode resp <? 200) || (StatusCode resp >? 299)
  then fail (AccessDenied "bad status code")
  else match decodeGroups (Body resp) with
       | Ok response => mret response
       | Err _ => fail (BadParameter "failed to parse response")
       end.

Definition truncationWarning : string :=
  "Truncating list of teams used to populate claims: hit maximum number pages that can be fetched from GSuite.".

(** The [collect] loop of [fetchGroups] (oidc.go:534). The Go loop has no
    bound of its own; [fuel] bounds the iterations of the model, and [None]
    is returned when it runs out. *)
Fixpoint collect (fuel : nat) (g : gsuiteClient) (count : Z) (groups_ : list string)
    (nextPageToken : string) : M (option (list string)) :=
  match fuel with
  | O => mret None
  | S fuel' =>
      if count >? MaxPages then
        _ ← EmitAuditEvent UserLoginEvent
              [(LoginMethod, LoginMethodOIDC); (AuthAttemptMessage, truncationWarning)];
        mret (Some groups_)
      else
        response ← fetchGroupsPage g nextPageToken;
        let groups_ := groups_ ++ groups response in
        if (NextPageToken response =? "")%string then mret (Some groups_)
        else collect fuel' g (count + 1) groups_ (NextPageToken response)
  end.

Definition groupsClaims (groups_ : list string) : Claims :=
  Some {["groups" := VStrings groups_]}.

(** [fetchGroups] (oidc.go:529) with the iterations bounded by [fuel]. *)
Definition fetchGroupsFuel (fuel : nat) (g : gsuiteClient) : M (option Claims) :=
  r ← collect fuel g 0 [] "";
  mret (groupsClaims <$> r).

(** Fuel that is enough for every run: the loop body runs at most
    [MaxPages + 2] times. *)
Definition enoughFuel : nat := S (Z.to_nat (MaxPages + 1)).

(** [fetchGroups] (oidc.go:529) *)
Definition fetchGroups (g : gsuiteClient) : M Claims :=
  r ← fetchGroupsFuel enoughFuel g;
  match r with
  | Some c => mret c
  | None => fail (RuntimePanic "fetchGroups: out of fuel")
  end.

(** [claimsFromGSuite] (oidc.go:486) *)
Definition claimsFromGSuite (oidcClient : ClientConfig) (issuerURL userEmail accessToken : string)
    : M Claims :=
  g ← newGsuiteClient oidcClient issuerURL userEmail accessToken;
  fetchGroups g.

(** [return nil, trace.Wrap(err)]: with a nil [err] this returns the nil
    claims and no error. *)
Definition returnNilWrap (err : option error) : M Claims :=
  match Wrap err with
  | Some e => fail e
  | None => mret None
  end.

(** [getClaims], lines 662-711: the subject of UserInfo is compared with the
    subject of the ID token, then the UserInfo claims and, for GSuite, the
    group claims are merged into the ID token claims. *)
Definition confirmSubject (oidcClient : ClientConfig) (issuerURL : string)
    (scope : list string) (t : TokenResponse) (idTokenClaims userInfoClaims : Claims)
    : M Claims :=
  (* the subject of UserInfo must be the subject of the ID token *)
  let '(idsub, exists_, err) := StringClaim idTokenClaims "sub" in
  if bool_decide (err ≠ None) || negb exists_ then returnNilWrap err else
  let '(uisub, exists_, err) := StringClaim userInfoClaims "sub" in
  if bool_decide (err ≠ None) || negb exists_ then returnNilWrap err else
  if negb (idsub =? uisub)%string
  then fail (BadParameter "invalid subject in UserInfo") else
  claims ← lift (mergeClaims idTokenClaims userInfoClaims);
  (* for GSuite users, fetch the groups from the Google API *)
  if (issuerURL =? GSuiteIssuerURL)%string && bool_decide (GSuiteGroupsScope ∈ scope) then
    let '(email, _, err) := StringClaim claims "email" in
    match Wrap err with
    | Some e => fail e
    | None =>
        r ← try (claimsFromGSuite oidcClient issuerURL email (AccessToken t));
        match r with
        | Err err => if negb (IsNotFound err) then fail err else mret claims
        | Ok gsuiteClaims => lift (mergeClaims claims gsuiteClaims)
        end
    end
  else mret claims.

(** [getClaims] (oidc.go:631): the claims of the ID token, with those of
    UserInfo and of the GSuite groups API merged into them. *)
Definition getClaims (oidcClient : ClientConfig) (issuerURL : string) (scope : list string)
    (code : string) : M Claims :=
  _ ← check (OAuthClient oidcClient);
  t ← lift (RequestToken oidcClient code);
  idTokenClaims ← lift (claimsFromIDToken oidcClient (IDToken t));
  r ← try (claimsFromUserInfo oidcClient issuerURL (AccessToken t));
  match r with
  | Err err =>
      if IsNotFound err then mret idTokenClaims (* no UserInfo endpoint *)
      else fail err
  | Ok userInfoClaims =>
      confirmSubject oidcClient issuerURL scope t idTokenClaims userInfoClaims
  end.

(** [validateACRValues] (oidc.go:717) *)
Definition validateACRValues (acrValue identityProvider : string) (claims : Claims)
    : result unit :=
  if (identityProvider =? NetIQ)%string then
    match claim claims "acr" with
    | None => Err (BadParameter "acr not found in claims")
    | Some (VObject tokenAcrMap) =>
        match tokenAcrMap !! "values" with
        | None => Err (BadParameter "acr.values not found in claims")
        | Some (VArray tokenAcrValuesSlice) =>
            let acrValueMatched :=
              existsb (fun v => match v with
                                | VString vv => (acrValue =? vv)%string
                                | _ => false
                                end) tokenAcrValuesSlice in
            if negb acrValueMatched then Err (BadParameter "acr claim does not match")
            else Ok ()
        | Some _ => Err (BadParameter "acr.values unexpected type")
        end
    | Some _ => Err (BadParameter "acr unexpected type")
    end
  else
    let '(claimValue, exists_, err) := StringClaim claims "acr" in
    if negb exists_ then Err (BadParameter "acr claim does not exist") else
    match Wrap err with
    | Some e => Err e
    | None =>
        if negb (claimValue =? acrValue)%string
        then Err (BadParameter "acr claim does not match")
        else Ok ()
    end.

(** [url.Values] and its [Get]: the first value of the key, or [""]. *)
Definition urlGet (q : gmap string (list string)) (key : string) : string :=
  match q !! key with
  | Some (v :: _) => v
  | _ => ""
  end.

(** [OIDCAuthResponse] (oidc.go:286) *)
Record OIDCAuthResponse := {
  respUsername : string;
  respIdentity : ExternalIdentity;
  Session : option WebSession;
  respCert : string;
  respTLSCert : string;
  Req : OIDCAuthRequest;
  HostSigners : list CertAuthority
}.

(** The three TTLs of [validateOIDCAuthCallback] (oidc.go:238, 239, 257). *)
Definition sessionTTL (now : Z) (roles : list Role) (ident : OIDCIdentity) : Z :=
  AdjustSessionTTL roles (ToTTL now (ExpiresAt ident)).

Definition bearerTokenTTL (now : Z) (roles : list Role) (ident : OIDCIdentity) : Z :=
  MinTTL BearerTokenTTL (sessionTTL now roles ident).

Definition certTTL (now : Z) (ident : OIDCIdentity) (req : OIDCAuthRequest) : Z :=
  MinTTL (ToTTL now (ExpiresAt ident)) (CertTTL req).

(** [validateOIDCAuthCallback], lines 193-281: what the callback does with
    the claims once [getClaims] has returned them. *)
Definition validateClaims (clusterName : string) (req : OIDCAuthRequest)
    (connector : OIDCConnector) (claims : Claims) : M OIDCAuthResponse :=
  (* if we are sending acr values, make sure we also validate them *)
  _ ← (if negb (GetACR connector =? "")%string
       then lift (validateACRValues (GetACR connector) (GetProvider connector) claims)
       else mret ());
  match IdentityFromClaims claims with
  | Err _ => fail (OAuth2 "unsupported_response_type" "unable to convert claims to identity")
  | Ok ident =>
  let response := {| respUsername := "";
                     respIdentity := {| ConnectorID := GetName connector;
                                        Username := Email ident |};
                     Session := None; respCert := ""; respTLSCert := "";
                     Req := req; HostSigners := [] |} in
  _ ← (if negb (length (GetClaimsToRoles connector) =? 0)%nat
       then createOIDCUser connector ident claims
       else mret ());
  if negb (CheckUser req) then mret response else
  user ← GetUserByOIDCIdentity {| ConnectorID := reqConnectorID req; Username := Email ident |};
  access ← get roles;
  roleSet ← lift (FetchRoles (userRoles user) access);
  now ← get clock;
  let sessionTTL_ := sessionTTL now roleSet ident in
  let bearerTokenTTL_ := bearerTokenTTL now roleSet ident in
  session ← (if CreateWebSession req then
               s ← get id;
               sess ← lift (NewWebSession s (userName user));
               (* the session expires on identity TTL and allowed session TTL *)
               let sess := SetExpiryTime sess (now + sessionTTL_) in
               (* the bearer token expires on the expected session renewal *)
               let sess := SetBearerTokenExpiryTime sess (now + bearerTokenTTL_) in
               _ ← UpsertWebSession (userName user) sess;
               mret (Some sess)
             else mret None);
  if negb (String.length (PublicKey req) =? 0)%nat then
    let certTTL_ := certTTL now ident req in
    s ← get id;
    certs_ ← lift (generateUserCert s
                {| crUser := user; crRoles := roleSet; ttl := certTTL_;
                   publicKey := PublicKey req; compatibility := Compatibility req |});
    (* return the host CA for this cluster only *)
    authority ← GetCertAuthority (HostCA, clusterName) false;
    mret {| respUsername := userName user; respIdentity := respIdentity response;
            Session := session; respCert := ssh certs_; respTLSCert := tls certs_;
            Req := req; HostSigners := [authority] |}
  else
    mret {| respUsername := userName user; respIdentity := respIdentity response;
            Session := session; respCert := ""; respTLSCert := "";
            Req := req; HostSigners := [] |}
  end.

(** [validateOIDCAuthCallback] (oidc.go:147) *)
Definition validateOIDCAuthCallback (q : gmap string (list string)) : M OIDCAuthResponse :=
  if negb (urlGet q "error" =? "")%string
  then fail (OAuth2 "invalid_request" (urlGet q "error")) else
  let code := urlGet q "code" in
  if (code =? "")%string
  then fail (OAuth2 "invalid_request" "code query param must be set") else
  let stateToken := urlGet q "state" in
  if (stateToken =? "")%string
  then fail (OAuth2 "invalid_request" "missing state query param") else
  clusterName ← GetClusterName;
  req ← GetOIDCAuthRequest stateToken;
  connector ← GetOIDCConnector (reqConnectorID req) true;
  oidcClient ← getOIDCClient connector;
  (* extract claims from both the id token and the userinfo endpoint *)
  r ← try (getClaims oidcClient (GetIssuerURL connector) (GetScope connector) code);
  match r with
  | Err _ => fail (OAuth2 "unsupported_response_type" "unable to construct claims")
  | Ok claims => validateClaims clusterName req connector claims
  end.

(** [ValidateOIDCAuthCallback] (oidc.go:129): the outcome of the validation,
    with the audit event of the login attempt emitted. *)
Definition ValidateOIDCAuthCallback (q : gmap string (list string)) : M OIDCAuthResponse :=
  r ← try (validateOIDCAuthCallback q);
  match r with
  | Err err =>
      _ ← EmitAuditEvent UserLoginEvent
            [(LoginMethod, LoginMethodOIDC); (AuthAttemptSuccess, "false");
             (AuthAttemptErr, errorText err)];
      fail err
  | Ok re =>
      _ ← EmitAuditEvent UserLoginEvent
            [(EventUser, respUsername re); (AuthAttemptSuccess, "true");
             (LoginMethod, LoginMethodOIDC)];
      mret re
  end.

End OIDC.

(* ===================================================================== *)
(** * Reading identities ([init.go]) *)
(* ===================================================================== *)

(** What [ssh.ParseRawPrivateKey] yields: an RSA key, with its key material,
    or a key of another type. *)
Inductive PrivateKey :=
| RSAPrivateKey (k : N)
| OtherPrivateKey (kind : string).

(** The parsers and generators of [golang.org/x/crypto/ssh], [crypto/tls],
    [lib/tlsca], [lib/sshca], [teleport.ParseRoles] and [uuid]. A generator
    gets the random number it draws as its first argument.
    [ParsePrivateKeyPEM] reads the private key of a TLS key pair back. *)
Class Crypto := {
  ParseAuthorizedKey : string -> result SSHPublicKey;
  ParsePrivateKey : string -> result PrivateKeySigner;
  ParseRawPrivateKey : string -> result PrivateKey;
  ParseRoles : string -> result (list string);
  ParseCertificatePEM : string -> result X509Certificate;
  FromSubject : PkixName -> result TLSIdentity;
  X509KeyPair : string -> string -> result TLSCertificate;
  DefaultCipherSuites : list Z;
  EncodeClusterName : string -> string;
  GenerateKeyPair : N -> string -> result (string * string);
  GenerateSelfSignedCA : N -> PkixName -> list string -> Z -> result (string * string);
  GenerateSelfSignedCAWithPrivateKey :
    N -> PkixName -> list string -> Z -> result (string * string);
  ParsePrivateKeyPEM : string -> result N;
  uuidNew : N -> string
}.

(** Constructors and marshalers of the [services] package. *)
Class Services := {
  GenerateCertAuthority : CertAuthority -> result CertAuthority;
  RoleForUser : User -> Role;
  NewAdminRole : Role
}.

Section Identities.
Context `{!Constants} `{!Crypto}.

(** [ssh.NewCertSigner]: the certificate must certify the key of the
    signer. *)
Definition NewCertSigner (cert : Certificate) (signer : PrivateKeySigner) : result Signer :=
  if (certKey cert =? signerPublicKey signer)%string
  then Ok (CertSigner cert signer)
  else Err (OtherError "ssh: signer and cert have different public key").

(** Reading [m[key]] of a [map[string]string]: [""] when absent. *)
Definition extension (m : option (gmap string string)) (key : string) : string :=
  default "" (default ∅ m !! key).

(** [utils.TLSConfig] *)
Definition utilsTLSConfig (cipherSuites : list Z) : TLSConfig_ :=
  {| tcCipherSuites := cipherSuites; Certificates := []; RootCAs := [];
     ClientCAs := []; ServerName := "" |}.

(** [Identity.HasTLSConfig] (init.go:588) *)
Definition HasTLSConfig (i : Identity) : bool :=
  negb (length (TLSCACertsBytes i) =? 0)%nat && negb (String.length (TLSCertBytes i) =? 0)%nat.

(** The loop of [TLSConfig] that fills the certificate pool. *)
Fixpoint parseCACerts (l : list string) : result (list X509Certificate) :=
  match l with
  | [] => Ok []
  | b :: l' =>
      parsedCert ← ParseCertificatePEM b;
      pool ← parseCACerts l';
      Ok (parsedCert :: pool)
  end.

(** [Identity.TLSConfig] (init.go:620) *)
Definition TLSConfig (i : Identity) (cipherSuites : list Z) : result TLSConfig_ :=
  let tlsConfig := utilsTLSConfig cipherSuites in
  if negb (HasTLSConfig i)
  then Err (NotFound "no TLS credentials setup for this identity") else
  match X509KeyPair (TLSCertBytes i) (KeyBytes i) with
  | Err _ => Err (BadParameter "failed to parse private key")
  | Ok tlsCert =>
      certPool ← parseCACerts (TLSCACertsBytes i);
      Ok {| tcCipherSuites := tcCipherSuites tlsConfig;
            Certificates := [tlsCert];
            RootCAs := certPool;
            ClientCAs := certPool;
            ServerName := EncodeClusterName (ClusterName i) |}
  end.

(** [ReadTLSIdentityFromKeyPair] (init.go:689) *)
Definition ReadTLSIdentityFromKeyPair (keyBytes certBytes : string)
    (caCertsBytes : list string) : result Identity :=
  if (String.length keyBytes =? 0)%nat then Err (BadParameter "missing private key") else
  if (String.length certBytes =? 0)%nat then Err (BadParameter "missing certificate") else
  cert ← ParseCertificatePEM certBytes;
  id ← FromSubject (Subject cert);
  match Organization (Issuer cert) with
  | [] => Err (BadParameter "missing CA organization")
  | clusterName :: _ =>
      if (clusterName =? "")%string then Err (BadParameter "misssing cluster name") else
      match Groups id with
      | [] => Err (RuntimePanic "index out of range")
      | group :: _ =>
          let identity :=
            {| ID := {| idRole := group; HostUUID := tlsUsername id; NodeName := "" |};
               KeyBytes := keyBytes;
               CertBytes := "";
               TLSCertBytes := certBytes;
               TLSCACertsBytes := caCertsBytes;
               KeySigner := None;
               idCert := None;
               ClusterName := clusterName |} in
          _ ← TLSConfig identity DefaultCipherSuites;
          Ok identity
      end
  end.

(** [ReadSSHIdentityFromKeyPair] (init.go:733) *)
Definition ReadSSHIdentityFromKeyPair (keyBytes certBytes : string) : result Identity :=
  if (String.length keyBytes =? 0)%nat
  then Err (BadParameter "PrivateKey: missing private key") else
  if (String.length certBytes =? 0)%nat
  then Err (BadParameter "Cert: missing parameter") else
  match ParseAuthorizedKey certBytes with
  | Err _ => Err (BadParameter "failed to parse server certificate")
  | Ok (PubBareKey _) => Err (BadParameter "expected ssh.Certificate")
  | Ok (PubCertificate cert) =>
  match ParsePrivateKey keyBytes with
  | Err _ => Err (BadParameter "failed to parse private key")
  | Ok signer =>
  (* this signer authenticates using the certificate signed by the cert
     authority, not only by the public key *)
  match NewCertSigner cert signer with
  | Err _ => Err (BadParameter "unsupported private key")
  | Ok certSigner =>
  (* check principals on certificate *)
  match ValidPrincipals cert with
  | [] => Err (BadParameter "valid principals: at least one valid principal is required")
  | principal :: _ =>
  if existsb (fun validPrincipal => (validPrincipal =? "")%string) (ValidPrincipals cert)
  then Err (BadParameter "valid principal can not be empty") else
  (* check permissions on certificate *)
  if (size (default ∅ (Extensions cert)) =? 0)%nat
  then Err (BadParameter "extensions: misssing needed extensions for host roles") else
  let roleString := extension (Extensions cert) CertExtensionRole in
  if (roleString =? "")%string then Err (BadParameter "misssing cert extension role") else
  roles ← ParseRoles roleString;
  match roles with
  | [role] =>
      let clusterName := extension (Extensions cert) CertExtensionAuthority in
      if (clusterName =? "")%string
      then Err (BadParameter "missing cert extension authority") else
      Ok {| ID := {| idRole := role; HostUUID := principal; NodeName := "" |};
            KeyBytes := keyBytes;
            CertBytes := certBytes;
            TLSCertBytes := "";
            TLSCACertsBytes := [];
            KeySigner := Some certSigner;
            idCert := Some cert;
            ClusterName := clusterName |}
  | _ => Err (OtherError "expected one role per certificate")
  end
  end end end end.

(** When [ReadSSHIdentityFromKeyPair] fails, in the words of the
    specification: either buffer is empty, the certificate bytes do not parse
    as an SSH certificate (a bare public key is rejected), the certificate
    has zero valid principals or an empty principal, the role or authority
    extension is absent, or the role extension encodes a number of roles
    other than one. *)
Definition specSSHFailure (keyBytes certBytes : string) : bool :=
  (String.length keyBytes =? 0)%nat || (String.length certBytes =? 0)%nat ||
  match ParseAuthorizedKey certBytes with
  | Ok (PubCertificate cert) =>
      (length (ValidPrincipals cert) =? 0)%nat
      || existsb (fun validPrincipal => (validPrincipal =? "")%string) (ValidPrincipals cert)
      || bool_decide (default ∅ (Extensions cert) !! CertExtensionRole = None)
      || bool_decide (default ∅ (Extensions cert) !! CertExtensionAuthority = None)
      || match ParseRoles (extension (Extensions cert) CertExtensionRole) with
         | Ok roles => negb (length roles =? 1)%nat
         | Err _ => false
         end
  | _ => true
  end.

(** When it fails, as the code has it: besides the above, the key bytes do
    not parse as a private key, the key is not the one the certificate
    certifies, an extension is there but empty, or the role extension does
    not parse as roles. *)
Definition codeSSHFailure (keyBytes certBytes : string) : bool :=
  (String.length keyBytes =? 0)%nat || (String.length certBytes =? 0)%nat ||
  match ParseAuthorizedKey certBytes with
  | Ok (PubCertificate cert) =>
      match ParsePrivateKey keyBytes with
      | Ok signer => negb (certKey cert =? signerPublicKey signer)%string
      | Err _ => true
      end
      || (length (ValidPrincipals cert) =? 0)%nat
      || existsb (fun validPrincipal => (validPrincipal =? "")%string) (ValidPrincipals cert)
      || (extension (Extensions cert) CertExtensionRole =? "")%string
      || (extension (Extensions cert) CertExtensionAuthority =? "")%string
      || match ParseRoles (extension (Extensions cert) CertExtensionRole) with
         | Ok roles => negb (length roles =? 1)%nat
         | Err _ => true
         end
  | _ => true
  end.

(** [Identity]'s TLS fields set by [ReadIdentityFromKeyPair]. *)
Definition withTLS (i : Identity) (tlsCertBytes : string) (tlsCACertsBytes : list string)
    : Identity :=
  {| ID := ID i; KeyBytes := KeyBytes i; CertBytes := CertBytes i;
     TLSCertBytes := tlsCertBytes; TLSCACertsBytes := tlsCACertsBytes;
     KeySigner := KeySigner i; idCert := idCert i; ClusterName := ClusterName i |}.

(** [ReadIdentityFromKeyPair] (init.go:671) *)
Definition ReadIdentityFromKeyPair (keyBytes sshCertBytes tlsCertBytes : string)
    (tlsCACertsBytes : list string) : result Identity :=
  identity ← ReadSSHIdentityFromKeyPair keyBytes sshCertBytes;
  if negb (String.length tlsCertBytes =? 0)%nat then
    (* just to verify that identity parses properly for future use *)
    _ ← ReadTLSIdentityFromKeyPair keyBytes tlsCertBytes tlsCACertsBytes;
    Ok (withTLS identity tlsCertBytes tlsCACertsBytes)
  else Ok identity.

(** [Identity.HasPrincipals] (init.go:593); the identity must hold an SSH
    certificate, whose principals are read. *)
Definition HasPrincipals (i : Identity) (additionalPrincipals : list string) : result bool :=
  match idCert i with
  | None => Err (RuntimePanic "invalid memory address or nil pointer dereference")
  | Some cert =>
      Ok (forallb (fun principal => bool_decide (principal ∈ ValidPrincipals cert))
            additionalPrincipals)
  end.

(** [Identity.HasDNSNames] (init.go:604) *)
Definition HasDNSNames (i : Identity) (dnsNames : list string) : result bool :=
  cert ← ParseCertificatePEM (TLSCertBytes i);
  Ok (forallb (fun dnsName => bool_decide (dnsName ∈ DNSNames cert)) dnsNames).

(** [strings.Split(s, ".")]: the parts of [s] between the dots; a string
    without a dot is its only part. *)
Fixpoint splitDot (s : string) : list string :=
  match s with
  | EmptyString => [EmptyString]
  | String c s' =>
      if Ascii.eqb c "." then EmptyString :: splitDot s'
      else match splitDot s' with
           | part :: parts => String c part :: parts
           | [] => [String c EmptyString]
           end
  end.

(** [IdentityID.HostID] (init.go:652) *)
Definition HostID (id : IdentityID) : result string :=
  let parts := splitDot (HostUUID id) in
  if (length parts <? 2)%nat then Err (BadParameter "expected 2 parts in host UUID")
  else match parts with
       | part :: _ => Ok part
       | [] => Err (RuntimePanic "index out of range")
       end.

End Identities.

(* ===================================================================== *)
(** * Bootstrap ([Init], init.go:139) *)
(* ===================================================================== *)

(** [InitConfig] (init.go:52): the fields [Init] reads. The cluster name is
    the value of [cfg.ClusterName.GetClusterName()]. *)
Record InitConfig := {
  cfgHostUUID : string;
  cfgNodeName : string;
  cfgClusterName : string;
  Authorities : list CertAuthority;
  DataDir : string;
  ReverseTunnels : list (string * string);
  cfgRoles : list Role;
  StaticTokens : string;
  AuthPreference : string;
  cfgClusterConfig : ClusterConfig;
  SkipPeriodicOperations : bool;
  CipherSuites : list Z
}.

(** [for _, x := range l { if err := f(x); err != nil { return err } }] *)
Fixpoint forM_ {A} (l : list A) (f : A -> M unit) : M unit :=
  match l with
  | [] => mret ()
  | x :: l' => _ ← f x; forM_ l' f
  end.

(** Drawing a number from the random source. *)
Definition draw : M N := fun s =>
  match entropy s with
  | n :: l => (Ok n, set_entropy (fun _ => l) s)
  | [] => (Err (OtherError "random source failed"), s)
  end.

(** Modelled from the spec: the locking primitive and the services for
    roles, tunnels, namespaces and cluster configuration are not under
    [src/]; a named exclusive lock is acquired and released, an upsert
    writes the resource under its name, and the first set of the cluster
    name wins, a later one returns AlreadyExists. *)
Definition AcquireLock (name : string) : M unit := fun s =>
  if bool_decide (name ∈ locks s)
  then (Err (OtherError "timeout waiting for lock"), s)
  else (Ok (), set_locks (fun l => {[name]} ∪ l) s).

Definition ReleaseLock (name : string) : M unit :=
  modify (set_locks (fun l => l ∖ {[name]})).

Definition UpsertRole (role : Role) : M unit :=
  modify (set_roles (fun m => <[roleName role := role]> m)).

Definition CreateRole (role : Role) : M unit := fun s =>
  match roles s !! roleName role with
  | Some _ => (Err (AlreadyExists "role already exists"), s)
  | None => (Ok (), set_roles (fun m => <[roleName role := role]> m) s)
  end.

Definition GetRole (name : string) : M Role := fun s =>
  match roles s !! name with
  | Some r => (Ok r, s)
  | None => (Err (NotFound "role not found"), s)
  end.

Definition UpsertReverseTunnel (tunnel : string * string) : M unit :=
  modify (set_reverseTunnels (fun m => <[tunnel.1 := tunnel.2]> m)).

Definition GetClusterConfig : M ClusterConfig := fun s =>
  match clusterConfig s with
  | Some c => (Ok c, s)
  | None => (Err (NotFound "cluster config not found"), s)
  end.

Definition SetClusterConfig (c : ClusterConfig) : M unit :=
  modify (set_clusterConfig (fun _ => Some c)).

Definition SetClusterName (name : string) : M unit := fun s =>
  match clusterName s with
  | Some _ => (Err (AlreadyExists "cluster name already exists"), s)
  | None => (Ok (), set_clusterName (fun _ => Some name) s)
  end.

Definition SetStaticTokens (t : string) : M unit :=
  modify (set_staticTokens (fun _ => Some t)).

Definition SetAuthPreference (p : string) : M unit :=
  modify (set_authPreference (fun _ => Some p)).

Definition UpsertNamespace (n : string) : M unit :=
  modify (set_namespaces (fun m => {[n]} ∪ m)).

Definition GetUsers : M (list User) := fun s =>
  (Ok (filter (fun u => negb (expired (clock s) u)) ((map_to_list (users s)).*2)), s).

Definition GetCertAuthorities (caType_ : CertAuthType) (loadSigningKeys : bool)
    : M (list CertAuthority) := fun s =>
  (Ok (map (fun ca => if loadSigningKeys then ca else withoutSigningKeys ca)
         (filter (fun ca => bool_decide (caType ca = caType_))
            (map (fun kv => loaded kv.1 kv.2) (map_to_list (authorities s))))), s).

Definition GetRemoteCluster (name : string) : M unit := fun s =>
  if bool_decide (name ∈ remoteClusters s) then (Ok (), s)
  else (Err (NotFound "remote cluster not found"), s).

Definition GetTrustedCluster (name : string) : M unit := fun s =>
  if bool_decide (name ∈ trustedClusters s) then (Ok (), s)
  else (Err (NotFound "trusted cluster not found"), s).

Definition CreateRemoteCluster (name : string) : M unit := fun s =>
  if bool_decide (name ∈ remoteClusters s)
  then (Err (AlreadyExists "remote cluster already exists"), s)
  else (Ok (), set_remoteClusters (fun m => {[name]} ∪ m) s).

(** [utils.ReadPath]: NotFound when the file is absent. *)
Definition ReadPath (path : string) : M string := fun s =>
  match files s !! path with
  | Some b => (Ok b, s)
  | None => (Err (NotFound "file not found"), s)
  end.

(** The operating system under the data directory. [removeError path] is
    the error, as [trace.ConvertSystemError] converts it, with which
    [os.Remove] refuses to remove the file [path] that is there (a
    permission that is missing, a read-only file system); [None] when the
    file can be removed. *)
Class FileSystem := {
  removeError : string -> option error
}.

(** [os.Remove] through [trace.ConvertSystemError]: NotFound when the file
    is absent; a file that is there is removed, or stays and the error of
    the operating system is returned. *)
Definition Remove `{!FileSystem} (path : string) : M unit := fun s =>
  match files s !! path with
  | Some _ =>
      match removeError path with
      | Some err => (Err err, s)
      | None => (Ok (), set_files (delete path) s)
      end
  | None => (Err (NotFound "file not found"), s)
  end.

Definition WriteIdentity (id : Identity) : M unit :=
  modify (set_processStorage (fun m => <[idRole (ID id) := id]> m)).

Section Bootstrap.
Context `{!Constants} `{!Crypto} `{!Services} `{!FileSystem}.

(** [strings.ToLower] on ASCII letters. *)
Definition lowerAscii (c : ascii) : ascii :=
  let n := nat_of_ascii c in
  if (65 <=? n)%nat && (n <=? 90)%nat then ascii_of_nat (n + 32) else c.

Fixpoint ToLower (s : string) : string :=
  match s with
  | EmptyString => EmptyString
  | String c s' => String (lowerAscii c) (ToLower s')
  end.

(** [paths] and [keysPath] (init.go:933, 943) *)
Record paths := {
  key : string;
  sshCert : string;
  tlsCert : string;
  tlsCACert : string
}.

Definition keysPath (dataDir : string) (id : IdentityID) : paths :=
  {| key := dataDir +:+ "/" +:+ ToLower (idRole id) +:+ ".key";
     sshCert := dataDir +:+ "/" +:+ ToLower (idRole id) +:+ ".cert";
     tlsCert := dataDir +:+ "/" +:+ ToLower (idRole id) +:+ ".tlscert";
     tlsCACert := dataDir +:+ "/" +:+ ToLower (idRole id) +:+ ".tlscacert" |}.

(** Reading a file whose absence is ignored: the bytes stay empty. *)
Definition readOptional (path : string) : M string :=
  r ← try (ReadPath path);
  match r with
  | Ok b => mret b
  | Err err => if negb (IsNotFound err) then fail err else mret ""
  end.

(** [readIdentityCompat] (init.go:893) *)
Definition readIdentityCompat (dataDir : string) (id : IdentityID) : M Identity :=
  let path := keysPath dataDir id in
  keyBytes ← ReadPath (key path);
  sshCertBytes ← ReadPath (sshCert path);
  (* initially ignore absence of TLS identity for read purposes *)
  tlsCertBytes ← readOptional (tlsCert path);
  tlsCACertBytes ← readOptional (tlsCACert path);
  identity ← lift (ReadIdentityFromKeyPair keyBytes sshCertBytes tlsCertBytes [tlsCACertBytes]);
  (* inject nodename back into identity read from disk *)
  mret {| ID := {| idRole := idRole (ID identity); HostUUID := HostUUID (ID identity);
                   NodeName := NodeName id |};
          KeyBytes := KeyBytes identity; CertBytes := CertBytes identity;
          TLSCertBytes := TLSCertBytes identity;
          TLSCACertsBytes := TLSCACertsBytes identity;
          KeySigner := KeySigner identity; idCert := idCert identity;
          ClusterName := ClusterName identity |}.

(** [removeIdentityCompat] (init.go:819) *)
Definition removeIdentityCompat (dataDir : string) (id : IdentityID) : M unit :=
  let path := keysPath dataDir id in
  forM_ [key path; sshCert path; tlsCert path; tlsCACert path] (fun filePath =>
    r ← try (Remove filePath);
    match r with
    | Ok _ => mret ()
    | Err err => if negb (IsNotFound err) then fail err else mret ()
    end).

(** [migrateIdentity] (init.go:445) *)
Definition migrateIdentity (role : string) (dataDir : string) : M unit :=
  let id := {| idRole := role; HostUUID := ""; NodeName := "" |} in
  r ← try (readIdentityCompat dataDir id);
  match r with
  | Err err => if negb (IsNotFound err) then fail err else mret ()
  | Ok identity =>
      _ ← WriteIdentity identity;
      r ← try (removeIdentityCompat dataDir id);
      match r with
      | Err err => if negb (IsNotFound err) then fail err else mret ()
      | Ok _ => mret ()
      end
  end.

(** [migrateIdentities] (init.go:431), over [teleport.RoleAdmin],
    [teleport.RoleProxy] and [teleport.RoleNode]. *)
Definition migrateIdentities (dataDir : string) : M unit :=
  forM_ ["Admin"; "Proxy"; "Node"] (fun role => migrateIdentity role dataDir).

(** [user.AddRole] *)
Definition AddRole (u : User) (name : string) : User :=
  {| userName := userName u;
     userRoles := if bool_decide (name ∈ userRoles u) then userRoles u
                  else userRoles u ++ [name];
     Traits := Traits u; Expires := Expires u; OIDCIdentities := OIDCIdentities u;
     GetCreatedBy := GetCreatedBy u; RawV1 := RawV1 u |}.

Definition SetLogins (r : Role) (logins : list string) : Role :=
  {| roleName := roleName r; MaxSessionTTL := MaxSessionTTL r; Logins := logins;
     KubeGroups := KubeGroups r |}.

Definition SetKubeGroups (r : Role) (groups_ : list string) : Role :=
  {| roleName := roleName r; MaxSessionTTL := MaxSessionTTL r; Logins := Logins r;
     KubeGroups := groups_ |}.

(** [migrateUsers] (init.go:467) *)
Definition migrateUsers : M unit :=
  users_ ← GetUsers;
  forM_ users_ (fun user =>
    match RawV1 user with
    | None => mret ()
    | Some AllowedLogins =>
        (* create role for user and upsert to backend *)
        let role := SetLogins (RoleForUser user) AllowedLogins in
        _ ← UpsertRole role;
        (* upsert new user to backend *)
        UpsertUser (AddRole user (roleName role))
    end).

(** [migrateAdminRole] (init.go:499) *)
Definition migrateAdminRole : M unit :=
  let defaultRole := NewAdminRole in
  role ← GetRole (roleName defaultRole);
  if negb (length (KubeGroups role) =? 0)%nat then mret () else
  UpsertRole (SetKubeGroups role (KubeGroups defaultRole)).

(** [migrateRemoteClusters] (init.go:840) *)
Definition migrateRemoteClusters : M unit :=
  clusterName_ ← GetClusterName;
  certAuthorities ← GetCertAuthorities HostCA false;
  forM_ certAuthorities (fun certAuthority =>
    if (caName certAuthority =? clusterName_)%string then mret () else
    (* remote cluster already exists *)
    r ← try (GetRemoteCluster (caName certAuthority));
    match r with
    | Ok _ => mret ()
    | Err err =>
        if negb (IsNotFound err) then fail err else
        (* the cert authority is associated with trusted cluster *)
        r ← try (GetTrustedCluster (caName certAuthority));
        match r with
        | Ok _ => mret ()
        | Err err =>
            if negb (IsNotFound err) then fail err else
            r ← try (CreateRemoteCluster (caName certAuthority));
            match r with
            | Ok _ => mret ()
            | Err err => if negb (IsAlreadyExists err) then fail err else mret ()
            end
        end
    end).

(** [migrateLegacyResources] (init.go:411) *)
Definition migrateLegacyResources (cfg : InitConfig) : M unit :=
  _ ← migrateUsers;
  _ ← migrateRemoteClusters;
  _ ← migrateIdentities (DataDir cfg);
  migrateAdminRole.

(** [Init], lines 172-188: the body of the loop over the authorities of the
    configuration. *)
Definition createAuthority (ca : CertAuthority) : M unit :=
  ca ← lift (GenerateCertAuthority ca);
  (* don't re-create CA if it already exists *)
  r ← try (CreateCertAuthority ca);
  match r with
  | Ok _ => mret ()
  | Err err => if negb (IsAlreadyExists err) then fail err else mret ()
  end.

(** [Init], lines 166-194: the roles, authorities and reverse tunnels of the
    configuration. *)
Definition initResources (cfg : InitConfig) : M unit :=
  _ ← forM_ (cfgRoles cfg) UpsertRole;
  _ ← forM_ (Authorities cfg) createAuthority;
  forM_ (ReverseTunnels cfg) UpsertReverseTunnel.

(** [Init], lines 197-211: the cluster config; the cluster id is set once
    only, during the first start, and reused when it is already there. *)
Definition initClusterConfig (cfg : InitConfig) : M unit :=
  r ← try GetClusterConfig;
  clusterConfig_ ← match r with
                   | Ok c => mret (Some c)
                   | Err err => if negb (IsNotFound err) then fail err else mret None
                   end;
  id ← match clusterConfig_ with
       | Some c =>
           if negb (ClusterID c =? "")%string then mret (ClusterID c)
           else n ← draw; mret (uuidNew n)
       | None => n ← draw; mret (uuidNew n)
       end;
  SetClusterConfig (SetClusterID (cfgClusterConfig cfg) id).

(** [Init], lines 214-241: the first auth server that starts sets the name
    of the cluster; the result is the name [cfg.ClusterName] holds
    afterwards. *)
Definition initClusterName (cfg : InitConfig) : M string :=
  r ← try (SetClusterName (cfgClusterName cfg));
  match r with
  | Ok _ => mret (cfgClusterName cfg)
  | Err err =>
      if negb (IsAlreadyExists err) then fail err else
      (* get current name of cluster from the backend *)
      cn ← GetClusterName;
      if negb (cn =? cfgClusterName cfg)%string
      then mret cn (* override user passed in cluster name *)
      else mret (cfgClusterName cfg)
  end.

(** [Init], lines 243-270: static tokens, auth preference, the default
    namespace and the default admin role. *)
Definition initDefaults (cfg : InitConfig) : M unit :=
  _ ← SetStaticTokens (StaticTokens cfg);
  _ ← SetAuthPreference (AuthPreference cfg);
  _ ← UpsertNamespace Namespace;
  r ← try (CreateRole NewAdminRole);
  match r with
  | Ok _ => mret ()
  | Err err => if negb (IsAlreadyExists err) then fail err else mret ()
  end.

Definition caSubject (name : string) : PkixName :=
  {| CommonName := name; Organization := [name] |}.

(** [Init], lines 272-325: the user certificate authority. *)
Definition initUserCA (name : string) : M unit :=
  r ← try (GetCertAuthority (UserCA, name) true);
  match r with
  | Err err =>
      if negb (IsNotFound err) then fail err else
      (* first start: generating user certificate authority *)
      n ← draw;
      '(priv, pub) ← lift (GenerateKeyPair n "");
      n ← draw;
      '(keyPEM, certPEM) ← lift (GenerateSelfSignedCA n (caSubject name) [] CATTL);
      UpsertCertAuthority
        {| caName := name; caClusterName := name; caType := UserCA;
           SigningKeys := [priv]; CheckingKeys := [pub];
           TLSKeyPairs := [{| Cert := certPEM; Key := keyPEM |}] |}
  | Ok userCA =>
      if (length (TLSKeyPairs userCA) =? 0)%nat then
        (* migrate: generating TLS CA for existing user CA *)
        n ← draw;
        '(keyPEM, certPEM) ← lift (GenerateSelfSignedCA n (caSubject name) [] CATTL);
        UpsertCertAuthority (SetTLSKeyPairs userCA [{| Cert := certPEM; Key := keyPEM |}])
      else mret ()
  end.

(** [Init], lines 327-386: the host certificate authority. *)
Definition initHostCA (name : string) : M unit :=
  r ← try (GetCertAuthority (HostCA, name) true);
  match r with
  | Err err =>
      if negb (IsNotFound err) then fail err else
      (* first start: generating host certificate authority *)
      n ← draw;
      '(priv, pub) ← lift (GenerateKeyPair n "");
      n ← draw;
      '(keyPEM, certPEM) ← lift (GenerateSelfSignedCA n (caSubject name) [] CATTL);
      UpsertCertAuthority
        {| caName := name; caClusterName := name; caType := HostCA;
           SigningKeys := [priv]; CheckingKeys := [pub];
           TLSKeyPairs := [{| Cert := certPEM; Key := keyPEM |}] |}
  | Ok hostCA =>
      if (length (TLSKeyPairs hostCA) =? 0)%nat then
        (* migrate: generating TLS CA for existing host CA *)
        match SigningKeys hostCA with
        | [] => fail (RuntimePanic "index out of range")
        | signingKey :: _ =>
            privateKey ← lift (ParseRawPrivateKey signingKey);
            match privateKey with
            | OtherPrivateKey _ => fail (BadParameter "expected RSA private key")
            | RSAPrivateKey privateKeyRSA =>
                '(keyPEM, certPEM) ← lift (GenerateSelfSignedCAWithPrivateKey
                                            privateKeyRSA (caSubject name) [] CATTL);
                UpsertCertAuthority
                  (SetTLSKeyPairs hostCA [{| Cert := certPEM; Key := keyPEM |}])
            end
        end
      else mret ()
  end.

(** The body of [Init] that runs with the lock held (init.go:155-408). *)
Definition initLocked (cfg : InitConfig) : M unit :=
  _ ← modify (set_cipherSuites (fun _ => CipherSuites cfg));
  _ ← initResources cfg;
  _ ← initClusterConfig cfg;
  name ← initClusterName cfg;
  _ ← initDefaults cfg;
  _ ← initUserCA name;
  _ ← initHostCA name;
  (* migrate any legacy resources to new format *)
  _ ← migrateLegacyResources cfg;
  if negb (SkipPeriodicOperations cfg)
  then modify (set_periodicOperations (fun _ => true))
  else mret ().

(** [Init] (init.go:139) *)
Definition Init (cfg : InitConfig) : M unit :=
  if (DataDir cfg =? "")%string
  then fail (BadParameter "DataDir: data dir can not be empty") else
  if (cfgHostUUID cfg =? "")%string
  then fail (BadParameter "HostUUID: host UUID can not be empty") else
  let domainName := cfgClusterName cfg in
  _ ← AcquireLock domainName;
  r ← try (initLocked cfg);
  _ ← ReleaseLock domainName;
  lift r.

(** [isFirstStart] (init.go:515) *)
Definition isFirstStart (cfg : InitConfig) : M bool :=
  (* check if the CA exists? *)
  r ← try (GetCertAuthority (HostCA, cfgClusterName cfg) false);
  match r with
  | Err err =>
      if negb (IsNotFound err) then fail err
      else mret true (* CA not found? --> first start! *)
  | Ok _ => mret false
  end.

End Bootstrap.

(* ===================================================================== *)
(** * Authentication requests ([CreateOIDCAuthRequest], oidc.go:80) *)
(* ===================================================================== *)

(** What [CreateOIDCAuthRequest] takes from outside [src/]:
    [utils.CryptoRandomHex] (the hex encoding of the random bytes drawn),
    [oauth2.Client.AuthCodeURL], and the [net/url] calls that parse a URL,
    set one query value and print the URL again. *)
Class AuthRequestLib := {
  CryptoRandomHex : N -> string;
  AuthCodeURL : ClientConfig -> string -> string -> string -> string;
  urlSetQuery : string -> string -> string -> result string
}.

(** Modelled from the spec: [Identity.CreateOIDCAuthRequest] is not under
    [src/]; the request is persisted keyed by its state token. *)
Definition StoreOIDCAuthRequest (req : OIDCAuthRequest) : M unit :=
  modify (set_oidcAuthRequests (fun m => <[StateToken req := req]> m)).

Section AuthRequests.
Context `{!Constants} `{!External} `{!AuthRequestLib}.

(** [CreateOIDCAuthRequest] (oidc.go:80) *)
Definition CreateOIDCAuthRequest (req : OIDCAuthRequest) : M OIDCAuthRequest :=
  connector ← GetOIDCConnector (reqConnectorID req) true;
  oidcClient ← getOIDCClient connector;
  _ ← check (OAuthClient oidcClient);
  n ← draw;
  let stateToken := CryptoRandomHex n in
  (* online is OIDC online scope, "select_account" forces user to always
     select account *)
  let redirectURL := AuthCodeURL oidcClient stateToken "online" "select_account" in
  (* if the connector has an Authentication Context Class Reference (ACR)
     value set, update redirect url and add it as a query value. *)
  let acrValue := GetACR connector in
  redirectURL ← (if negb (acrValue =? "")%string
                 then lift (urlSetQuery redirectURL "acr_values" acrValue)
                 else mret redirectURL);
  let req := {| reqConnectorID := reqConnectorID req; StateToken := stateToken;
                RedirectURL := redirectURL; CheckUser := CheckUser req;
                CreateWebSession := CreateWebSession req; CertTTL := CertTTL req;
                PublicKey := PublicKey req; Compatibility := Compatibility req |} in
  _ ← StoreOIDCAuthRequest req;
  mret req.

End AuthRequests.

(* ===================================================================== *)
(** * A concrete cluster, provider and key format *)
(* ===================================================================== *)

(** A small world in which the code can be run: constants with the values
    the packages give them, a provider that answers every request, and a
    key format in which key material [n] is written as [n] letters. It
    instantiates the classes above in the examples that follow the
    theorems. *)
Module Scenario.

Definition constants : Constants := {|
  MaxPages := 99;
  BearerTokenTTL := 600000000000;
  CATTL := 315360000000000000;
  GSuiteIssuerURL := "https://accounts.google.com";
  GSuiteGroupsScope := "https://www.googleapis.com/auth/admin.directory.group.readonly";
  GSuiteGroupsEndpoint := "https://www.googleapis.com/admin/directory/v1/groups";
  NetIQ := "netiq";
  ConnectorOIDC := "oidc";
  Namespace := "default";
  CertExtensionRole := "x-teleport-role";
  CertExtensionAuthority := "x-teleport-authority";
  ComponentProcess := "proc"
|}.

Definition minute : Z := Minute.
Definition hour : Z := Hour.

Fixpoint stripPrefix (p s : string) : option string :=
  match p, s with
  | EmptyString, _ => Some s
  | String a p', String b s' => if Ascii.eqb a b then stripPrefix p' s' else None
  | String _ _, EmptyString => None
  end.

Fixpoint letters (n : nat) : string :=
  match n with
  | O => EmptyString
  | S n' => String "k" (letters n')
  end.

Definition writeKey (n : N) : string := letters (N.to_nat n).
Definition readKey (s : string) : N := N.of_nat (String.length s).

Definition nodeCertificate : Certificate := {|
  certKey := "ssh-rsa " +:+ writeKey 7;
  ValidPrincipals := ["00000000-0000-0000-0000-000000000000.example.com"];
  Extensions := Some {[ "x-teleport-role" := "Node";
                        "x-teleport-authority" := "example.com" ]}
|}.

Definition nodeX509 : X509Certificate := {|
  Subject := {| CommonName := "00000000-0000-0000-0000-000000000000.example.com";
                Organization := ["Node"] |};
  Issuer := {| CommonName := "example.com"; Organization := ["example.com"] |};
  DNSNames := []
|}.

Definition caX509 : X509Certificate := {|
  Subject := {| CommonName := "example.com"; Organization := ["example.com"] |};
  Issuer := {| CommonName := "example.com"; Organization := ["example.com"] |};
  DNSNames := []
|}.

Definition crypto : Crypto := {|
  ParseAuthorizedKey := fun b =>
    if (b =? "node-cert")%string then Ok (PubCertificate nodeCertificate)
    else match stripPrefix "ssh-rsa " b with
         | Some _ => Ok (PubBareKey b)
         | None => Err (OtherError "ssh: no key found")
         end;
  ParsePrivateKey := fun b =>
    match stripPrefix "RSA PRIVATE KEY " b with
    | Some k => Ok {| signerPublicKey := "ssh-rsa " +:+ k |}
    | None => Err (OtherError "ssh: no key found")
    end;
  ParseRawPrivateKey := fun b =>
    match stripPrefix "RSA PRIVATE KEY " b with
    | Some k => Ok (RSAPrivateKey (readKey k))
    | None =>
        match stripPrefix "EC PRIVATE KEY " b with
        | Some _ => Ok (OtherPrivateKey "ecdsa")
        | None => Err (OtherError "ssh: no key found")
        end
    end;
  ParseRoles := fun str =>
    if bool_decide (str ∈ ["Auth"; "Web"; "Node"; "Proxy"; "Admin"]) then Ok [str]
    else if (str =? "Node,Proxy")%string then Ok ["Node"; "Proxy"]
    else Err (BadParameter "role is not registered");
  ParseCertificatePEM := fun b =>
    if (b =? "node-tls-cert")%string then Ok nodeX509
    else if (b =? "ca-tls-cert")%string then Ok caX509
    else Err (BadParameter "expected PEM-encoded block");
  FromSubject := fun subject =>
    if (CommonName subject =? "")%string then Err (BadParameter "missing identity username")
    else match Organization subject with
         | [] => Err (BadParameter "missing identity groups")
         | _ => Ok {| tlsUsername := CommonName subject; Groups := Organization subject |}
         end;
  X509KeyPair := fun certPEM keyPEM =>
    match stripPrefix "RSA PRIVATE KEY " keyPEM with
    | Some _ => Ok {| tlsCertPEM := certPEM; tlsKeyPEM := keyPEM |}
    | None => Err (OtherError "tls: failed to find any PEM data in key input")
    end;
  DefaultCipherSuites := [49199; 49200];
  EncodeClusterName := fun name => name +:+ ".teleport.cluster.local";
  GenerateKeyPair := fun n _ =>
    Ok ("RSA PRIVATE KEY " +:+ writeKey n, "ssh-rsa " +:+ writeKey n);
  GenerateSelfSignedCA := fun n entity _ _ =>
    Ok ("RSA PRIVATE KEY " +:+ writeKey n, "CERTIFICATE " +:+ CommonName entity);
  GenerateSelfSignedCAWithPrivateKey := fun k entity _ _ =>
    Ok ("RSA PRIVATE KEY " +:+ writeKey k, "CERTIFICATE " +:+ CommonName entity);
  ParsePrivateKeyPEM := fun b =>
    match stripPrefix "RSA PRIVATE KEY " b with
    | Some k => Ok (readKey k)
    | None => Err (BadParameter "expected PEM-encoded block")
    end;
  uuidNew := fun n => "uuid-" +:+ writeKey n
|}.

Definition adminRole : Role := {|
  roleName := "admin";
  MaxSessionTTL := 30 * hour;
  Logins := ["root"];
  KubeGroups := ["system:masters"]
|}.

Definition services : Services := {|
  GenerateCertAuthority := fun ca => Ok ca;
  RoleForUser := fun u =>
    {| roleName := "user:" +:+ userName u; MaxSessionTTL := 30 * hour;
       Logins := []; KubeGroups := [] |};
  NewAdminRole := adminRole
|}.

(** The provider: the ID token carries [idTokenClaims]; the UserInfo
    endpoint, when the provider has one, answers with [userInfoClaims]; the
    groups API answers the [n]-th request with [pages n]. A body of the
    groups API is read as the next page token, the page holding one group
    named after it. *)
Definition external (idTokenClaims : Claims) (userInfoClaims : option Claims)
    (pages : nat -> Response) : External := {|
  JWT := string;
  NewClient := fun _ => None;
  OAuthClient := fun _ => None;
  RequestToken := fun _ code =>
    if (code =? "code-1")%string
    then Ok {| IDToken := "id-token"; AccessToken := "access-token" |}
    else Err (OtherError "invalid_grant");
  ParseJWT := fun t => Ok t;
  VerifyJWT := fun _ _ => None;
  JWTClaims := fun _ => Ok idTokenClaims;
  isHTTPS := fun u =>
    match stripPrefix "https://" u with
    | Some _ => None
    | None => Some (BadParameter "expected scheme https")
    end;
  FetchProviderConfig := fun issuer =>
    Ok {| UserInfoEndpoint := match userInfoClaims with
                              | Some _ => Some (issuer +:+ "/userinfo")
                              | None => None
                              end |};
  urlParse := fun _ => None;
  Do := fun n req =>
    if (URL req =? "https://www.googleapis.com/admin/directory/v1/groups")%string
    then Ok (pages n)
    else Ok {| StatusCode := 200; Body := "userinfo" |};
  decodeClaims := fun _ => Ok (default None userInfoClaims);
  decodeGroups := fun body =>
    if (body =? "not json")%string then Err (OtherError "invalid character")
    else Ok {| NextPageToken := body;
               gGroups := [{| gEmail := "group-" +:+ body +:+ "@example.com" |}] |};
  IdentityFromClaims := fun claims =>
    match claims with
    | None => Err (OtherError "nil claim set")
    | Some _ =>
        match StringClaim claims "email", claim claims "exp" with
        | (email, true, None), Some (VNumber exp) =>
            Ok {| oiID := (StringClaim claims "sub").1.1; oiName := "";
                  Email := email; ExpiresAt := exp |}
        | _, _ => Err (OtherError "malformed claim")
        end
    end;
  GenerateUser := fun u => Ok u;
  NewWebSession := fun _ user =>
    Ok {| wsUser := user; wsID := "session-1"; ExpiryTime := 0;
          BearerTokenExpiryTime := 0 |};
  generateUserCert := fun _ req =>
    Ok {| ssh := "ssh-cert " +:+ publicKey req; tls := "tls-cert " +:+ publicKey req |}
|}.

(** The connector of the test of [createOIDCUser]: the claim
    [email = foo@example.com] maps to the role [admin]. *)
Definition mapClaims (mappings : list ClaimMapping) (claims : Claims) : list string :=
  concat (map (fun m =>
                 match claim claims (cmClaim m) with
                 | Some (VString v) => if (v =? cmValue m)%string then cmRoles m else []
                 | _ => []
                 end) mappings).

Definition connector (mappings : list ClaimMapping) : OIDCConnector := {|
  GetName := "oidcService";
  GetIssuerURL := "https://www.example.com";
  GetClientID := "fakeClientID";
  GetClientSecret := "fakeClientSecret";
  GetRedirectURL := "https://www.example.com/redirect";
  GetScope := ["profile"; "email"];
  GetACR := "";
  GetProvider := "";
  GetClaimsToRoles := mappings;
  MapClaims := mapClaims mappings
|}.

Definition fooMapping : list ClaimMapping :=
  [{| cmClaim := "email"; cmValue := "foo@example.com"; cmRoles := ["admin"] |}].

Definition request : OIDCAuthRequest := {|
  reqConnectorID := "oidcService";
  StateToken := "state-1";
  RedirectURL := "https://www.example.com/auth";
  CheckUser := true;
  CreateWebSession := true;
  CertTTL := hour;
  PublicKey := "ssh-rsa AAAA";
  Compatibility := ""
|}.

Definition query : gmap string (list string) :=
  {[ "code" := ["code-1"]; "state" := ["state-1"] ]}.

Definition now : Z := 1000 * hour.

Definition hostAuthority : CertAuthority := {|
  caName := "example.com"; caClusterName := "example.com"; caType := HostCA;
  SigningKeys := ["RSA PRIVATE KEY kkk"]; CheckingKeys := ["ssh-rsa kkk"];
  TLSKeyPairs := [{| Cert := "CERTIFICATE example.com"; Key := "RSA PRIVATE KEY kkk" |}]
|}.

(** A running auth server of the cluster [example.com], with no user. *)
Definition server : AuthServer := {|
  clock := now;
  entropy := [11; 12; 13; 14]%N;
  httpCalls := 0;
  locks := ∅;
  clusterName := Some "example.com";
  clusterConfig := Some {| ClusterID := "uuid-k"; ccSettings := "" |};
  staticTokens := None;
  authPreference := None;
  namespaces := {[ "default" ]};
  reverseTunnels := ∅;
  remoteClusters := ∅;
  trustedClusters := ∅;
  authorities := {[ (HostCA, "example.com") := stored hostAuthority ]};
  roles := {[ "admin" := adminRole ]};
  users := ∅;
  oidcConnectors := {[ "oidcService" := connector fooMapping ]};
  oidcAuthRequests := {[ "state-1" := request ]};
  webSessions := ∅;
  oidcClients := ∅;
  auditLog := [];
  files := ∅;
  processStorage := ∅;
  cipherSuites := [];
  periodicOperations := false
|}.

(** Claims of a federated user whose identity expires in one minute. *)
Definition fooClaims (sub : string) : Claims :=
  Some {[ "sub" := VString sub; "email" := VString "foo@example.com";
          "exp" := VNumber (now + minute) ]}.

(** A local user and a user provisioned by a connector. *)
Definition localUser : User := {|
  userName := "foo@example.com"; userRoles := ["admin"]; Traits := ∅; Expires := 0;
  OIDCIdentities := [];
  GetCreatedBy := {| cbUser := "admin"; cbTime := 0; Connector := None |};
  RawV1 := None
|}.

Definition federatedUser : User := {|
  userName := "foo@example.com"; userRoles := []; Traits := ∅; Expires := 0;
  OIDCIdentities := [{| ConnectorID := "oidcService"; Username := "foo@example.com" |}];
  GetCreatedBy := {| cbUser := "system"; cbTime := 0;
                     Connector := Some {| crType := "oidc"; crID := "oidcService";
                                          crIdentity := "foo@example.com" |} |};
  RawV1 := None
|}.

Definition fooIdentity : OIDCIdentity := {|
  oiID := "A"; oiName := ""; Email := "foo@example.com"; ExpiresAt := now + minute
|}.

Definition noPages (n : nat) : Response := {| StatusCode := 200; Body := "" |}.

(** A groups API that hands out a next page token forever. *)
Definition endlessPages (n : nat) : Response := {| StatusCode := 200; Body := "next" |}.

(** The configuration of the auth server of [example.com]. *)
Definition initConfig : InitConfig := {|
  cfgHostUUID := "00000000-0000-0000-0000-000000000000";
  cfgNodeName := "auth";
  cfgClusterName := "example.com";
  Authorities := [];
  DataDir := "/var/lib/teleport";
  ReverseTunnels := [];
  cfgRoles := [];
  StaticTokens := "";
  AuthPreference := "local";
  cfgClusterConfig := {| ClusterID := ""; ccSettings := "session_recording: node" |};
  SkipPeriodicOperations := true;
  CipherSuites := [49199; 49200]
|}.

(** A backend that was never used. *)
Definition freshServer : AuthServer := {|
  clock := now;
  entropy := [11; 12; 13; 14; 15; 16]%N;
  httpCalls := 0;
  locks := ∅;
  clusterName := None;
  clusterConfig := None;
  staticTokens := None;
  authPreference := None;
  namespaces := ∅;
  reverseTunnels := ∅;
  remoteClusters := ∅;
  trustedClusters := ∅;
  authorities := ∅;
  roles := ∅;
  users := ∅;
  oidcConnectors := ∅;
  oidcAuthRequests := ∅;
  webSessions := ∅;
  oidcClients := ∅;
  auditLog := [];
  files := ∅;
  processStorage := ∅;
  cipherSuites := [];
  periodicOperations := false
|}.

(** Authorities in the format that predates TLS: an SSH signing key (key
    material 5 for the user authority, 3 for the host authority) and no
    TLS key pair. *)
Definition legacyUserAuthority : CertAuthority := {|
  caName := "example.com"; caClusterName := "example.com"; caType := UserCA;
  SigningKeys := ["RSA PRIVATE KEY kkkkk"]; CheckingKeys := ["ssh-rsa kkkkk"];
  TLSKeyPairs := []
|}.

Definition legacyHostAuthority : CertAuthority := {|
  caName := "example.com"; caClusterName := "example.com"; caType := HostCA;
  SigningKeys := ["RSA PRIVATE KEY kkk"]; CheckingKeys := ["ssh-rsa kkk"];
  TLSKeyPairs := []
|}.

(** The backend of a cluster that was set up before TLS was introduced. *)
Definition legacyServer : AuthServer :=
  set_authorities (fun _ => {[ (UserCA, "example.com") := stored legacyUserAuthority;
                               (HostCA, "example.com") := stored legacyHostAuthority ]})
    (set_clusterName (fun _ => Some "example.com")
       (set_roles (fun _ => {[ "admin" := adminRole ]}) freshServer)).

(** A groups API with two pages: the first one names the next, the second
    one is the last. *)
Definition twoPages (n : nat) : Response :=
  match n with
  | O => {| StatusCode := 200; Body := "next" |}
  | S _ => {| StatusCode := 200; Body := "" |}
  end.

(** The provider of the scenario with a certificate issuer that is down. *)
Definition withoutIssuer (E : External) : External := {|
  JWT := @JWT E;
  NewClient := @NewClient E;
  OAuthClient := @OAuthClient E;
  RequestToken := @RequestToken E;
  ParseJWT := @ParseJWT E;
  VerifyJWT := @VerifyJWT E;
  JWTClaims := @JWTClaims E;
  isHTTPS := @isHTTPS E;
  FetchProviderConfig := @FetchProviderConfig E;
  urlParse := @urlParse E;
  Do := @Do E;
  decodeClaims := @decodeClaims E;
  decodeGroups := @decodeGroups E;
  IdentityFromClaims := @IdentityFromClaims E;
  GenerateUser := @GenerateUser E;
  NewWebSession := @NewWebSession E;
  generateUserCert := fun _ _ => Err (OtherError "certificate authority is not available")
|}.

(** A request of the command line client that only asks who the user is. *)
Definition identityRequest : OIDCAuthRequest := {|
  reqConnectorID := "oidcService";
  StateToken := "state-2";
  RedirectURL := "https://www.example.com/auth";
  CheckUser := false;
  CreateWebSession := false;
  CertTTL := hour;
  PublicKey := "";
  Compatibility := ""
|}.

(** The libraries behind [CreateOIDCAuthRequest], with tokens and URLs that
    can be read. *)
Definition authRequestLib : AuthRequestLib := {|
  CryptoRandomHex := fun n => "token-" +:+ writeKey n;
  AuthCodeURL := fun c stateToken accessType prompt =>
    "https://www.example.com/auth?client_id=" +:+ ccID c +:+ "&state=" +:+ stateToken;
  urlSetQuery := fun u k v => Ok (u +:+ "&" +:+ k +:+ "=" +:+ v)
|}.

(** The server of the scenario with the federated user in its store. *)
Definition serverWithUser : AuthServer :=
  set_users (fun _ => {[ "foo@example.com" := federatedUser ]}) server.

(** A configuration that asks for another cluster name. *)
Definition renamedConfig : InitConfig := {|
  cfgHostUUID := "00000000-0000-0000-0000-000000000000";
  cfgNodeName := "auth";
  cfgClusterName := "other.example.com";
  Authorities := [];
  DataDir := "/var/lib/teleport";
  ReverseTunnels := [];
  cfgRoles := [];
  StaticTokens := "";
  AuthPreference := "local";
  cfgClusterConfig := {| ClusterID := ""; ccSettings := "session_recording: node" |};
  SkipPeriodicOperations := true;
  CipherSuites := [49199; 49200]
|}.

(** An admin role from before Kubernetes groups. *)
Definition bareAdminRole : Role := {|
  roleName := "admin"; MaxSessionTTL := 30 * hour; Logins := ["root"];
  KubeGroups := []
|}.

(** The server of the scenario with that admin role. *)
Definition bareAdminServer : AuthServer :=
  set_roles (fun _ => {[ "admin" := bareAdminRole ]}) server.

(** The host authority of another cluster, as a trusted cluster leaves it. *)
Definition remoteAuthority : CertAuthority := {|
  caName := "remote.example.com"; caClusterName := "remote.example.com"; caType := HostCA;
  SigningKeys := []; CheckingKeys := ["ssh-rsa kk"]; TLSKeyPairs := []
|}.

(** The server of the scenario with that authority in its backend. *)
Definition federatedServer : AuthServer :=
  set_authorities (fun m => <[(HostCA, "remote.example.com") := stored remoteAuthority]> m)
    server.

(** The legacy identity files of the node on disk. *)
Definition legacyDisk : AuthServer :=
  set_files (fun _ => {[ "/var/lib/teleport/node.key" := "RSA PRIVATE KEY kkkkkkk";
                         "/var/lib/teleport/node.cert" := "node-cert";
                         "/var/lib/teleport/other" := "kept" ]})
    server.

(** A file system that removes every file it is asked to. *)
Definition fileSystem : FileSystem := {| removeError := fun _ => None |}.

(** A file system on which the legacy certificate of the node cannot be
    removed. *)
Definition protectedCert : FileSystem := {|
  removeError := fun path =>
    if String.eqb path "/var/lib/teleport/node.cert"
    then Some (AccessDenied "permission denied") else None
|}.

(** A user stored in the legacy format, with its allowed logins. *)
Definition legacyUser : User := {|
  userName := "bob"; userRoles := []; Traits := ∅; Expires := 0; OIDCIdentities := [];
  GetCreatedBy := {| cbUser := "admin"; cbTime := 0; Connector := None |};
  RawV1 := Some ["root"; "bob"]
|}.

(** The server of the scenario with that user in its store. *)
Definition legacyUsersServer : AuthServer :=
  set_users (fun _ => {[ "bob" := legacyUser ]}) server.

End Scenario.

(* ===================================================================== *)
(** * Vocabulary of the statements *)
(* ===================================================================== *)

(** [preserves f m]: whatever [m] returns, the component [f] of the state is
    what it was before. *)
Definition preserves {A B} (f : AuthServer -> B) (m : M A) : Prop :=
  forall s, f (m s).2 = f s.

(** A computation that only reads the state. *)
Definition readonly {A} (m : M A) : Prop := forall s, (m s).2 = s.

(** The audit event [fetchGroups] emits when it truncates the list. *)
Definition truncationEvent : AuditEvent :=
  {| evType := UserLoginEvent;
     evFields := [(LoginMethod, LoginMethodOIDC); (AuthAttemptMessage, truncationWarning)] |}.

Section CallbackVocabulary.
Context `{!External}.

(** A callback that reaches the claims: its parameters are well formed, the
    pending request and its connector are found, and the client is there. *)
Record reachesClaims (q : gmap string (list string)) (s : AuthServer) (cn : string)
    (req : OIDCAuthRequest) (conn : OIDCConnector) (c : ClientConfig) (s0 : AuthServer)
    : Prop := {
  rc_error : urlGet q "error" = "";
  rc_code : urlGet q "code" ≠ "";
  rc_state : urlGet q "state" ≠ "";
  rc_cluster : clusterName s = Some cn;
  rc_request : oidcAuthRequests s !! urlGet q "state" = Some req;
  rc_connector : oidcConnectors s !! reqConnectorID req = Some conn;
  rc_client : getOIDCClient conn s = (Ok c, s0)
}.

End CallbackVocabulary.

(** The three parts of the backend the idempotence of [Init] is about. *)
Definition trustCore (s : AuthServer)
    : gmap CertAuthID StoredAuthority * option ClusterConfig * option string :=
  (authorities s, clusterConfig s, clusterName s).

(** An authority with TLS material. *)
Definition hasTLS (s : AuthServer) (id : CertAuthID) : Prop :=
  exists st, authorities s !! id = Some st /\ stTLSKeyPairs st ≠ [].

(** The stored authority with its TLS key pairs replaced. *)
Definition withTLSKeyPairs (st : StoredAuthority) (pairs : list TLSKeyPair) : StoredAuthority :=
  {| stName := stName st; stSigningKeys := stSigningKeys st;
     stCheckingKeys := stCheckingKeys st; stTLSKeyPairs := pairs |}.

Section BootstrapVocabulary.
Context `{!Services}.

(** The authority of the configuration is in the backend. *)
Definition known (s : AuthServer) (ca : CertAuthority) : Prop :=
  forall ca', GenerateCertAuthority ca = Ok ca' -> is_Some (authorities s !! GetID ca').

(** The backend as a successful [Init] leaves it: the cluster has a name,
    its user and host authorities have TLS material, the cluster config is
    that of the configuration with a cluster id that is not empty, and the
    authorities of the configuration are there. *)
Definition bootstrapped (cfg : InitConfig) (s : AuthServer) : Prop :=
  (exists name, clusterName s = Some name /\
                hasTLS s (UserCA, name) /\ hasTLS s (HostCA, name)) /\
  (exists id, id ≠ "" /\
              clusterConfig s = Some (SetClusterID (cfgClusterConfig cfg) id)) /\
  Forall (known s) (Authorities cfg).

End BootstrapVocabulary.

Section PagingVocabulary.
Context `{!External}.

(** The groups API serves the pages [ps] to [g], one after the other, from
    the state [s] on: the fetch with the page token [token] returns the first
    page, the fetch with the token of that page the next one, and so on. *)
Fixpoint servesPages (g : gsuiteClient) (token : string) (s : AuthServer)
    (ps : list gsuiteGroups) : Prop :=
  match ps with
  | [] => True
  | p :: ps' =>
      fetchGroupsPage g token s = (Ok p, set_httpCalls S s) /\
      servesPages g (NextPageToken p) (set_httpCalls S s) ps'
  end.

End PagingVocabulary.

(** The audit event of a failed login attempt (oidc.go:132). *)
Definition loginFailed (err : error) : AuditEvent :=
  {| evType := UserLoginEvent;
     evFields := [(LoginMethod, LoginMethodOIDC); (AuthAttemptSuccess, "false");
                  (AuthAttemptErr, errorText err)] |}.

(** An authority as [Init] may leave it: the name and the SSH keys are
    those it had, and TLS key pairs that were there are kept. *)
Definition keepsKeys (st st' : StoredAuthority) : Prop :=
  stName st' = stName st /\
  stSigningKeys st' = stSigningKeys st /\
  stCheckingKeys st' = stCheckingKeys st /\
  (stTLSKeyPairs st ≠ [] -> st' = st).

Section MigrationVocabulary.
Context `{!Services}.

(** The four legacy files of the identity of a role. *)
Definition legacyFiles (dataDir role : string) : list string :=
  let path := keysPath dataDir {| idRole := role; HostUUID := ""; NodeName := "" |} in
  [key path; sshCert path; tlsCert path; tlsCACert path].

(** A user as [migrateUsers] leaves it at the time [now]: a legacy user that
    has not expired is stored in the new format with the role made for it. *)
Definition migratedUser (now : Z) (u : User) : User :=
  if expired now u then u else
  match RawV1 u with
  | Some _ => storedUser (AddRole u (roleName (RoleForUser u)))
  | None => u
  end.

End MigrationVocabulary.

(** A string without a dot. *)
Fixpoint noDot (s : string) : bool :=
  match s with
  | EmptyString => true
  | String c s' => negb (Ascii.eqb c ".") && noDot s'
  end.

(* ===================================================================== *)
(** * Running the monad *)
(* ===================================================================== *)

Lemma bind_Ok {A B} (m : M A) (k : A -> M B) s a s' :
  m s = (Ok a, s') -> (m ≫= k) s = k a s'.
Proof. intros Hm. unfold mbind, M_bind. by rewrite Hm. Qed.

Lemma bind_Err {A B} (m : M A) (k : A -> M B) s e s' :
  m s = (Err e, s') -> (m ≫= k) s = (Err e, s').
Proof. intros Hm. unfold mbind, M_bind. by rewrite Hm. Qed.

Lemma bind_inv {A B} (m : M A) (k : A -> M B) s r s' :
  (m ≫= k) s = (r, s') ->
  (exists a s1, m s = (Ok a, s1) /\ k a s1 = (r, s')) \/
  (exists e, m s = (Err e, s') /\ r = Err e).
Proof.
  unfold mbind, M_bind. destruct (m s) as [[a|e] s1]; intros Hk.
  - left. by exists a, s1.
  - right. exists e. by inversion Hk.
Qed.

(* ===================================================================== *)
(** * Merging claims *)
(* ===================================================================== *)

Lemma mergeClaims_union (a : gmap string Value) (b : Claims) :
  mergeClaims (Some a) b = Ok (Some (a ∪ entries b)).
Proof.
  unfold mergeClaims.
  apply (map_fold_weak_ind (fun r m => r = Ok (Some (a ∪ m)))).
  - by rewrite (right_id_L ∅ (∪)).
  - intros k v m r Hk ->. cbn. unfold claim, entries. cbn.
    destruct ((a ∪ m) !! k) as [w|] eqn:Hl; cbn.
    + do 2 f_equal. apply map_eq. intros j.
      destruct (decide (j = k)) as [->|Hne].
      * assert (Ha : a !! k = Some w).
        { apply lookup_union_Some_raw in Hl as [Ha|[_ Hm]]; [done|congruence]. }
        rewrite (lookup_union_Some_l _ _ _ _ Ha). symmetry.
        by apply lookup_union_Some_l.
      * rewrite !lookup_union, lookup_insert_ne by done. done.
    + apply lookup_union_None in Hl as [Ha _].
      by rewrite insert_union_r.
Qed.

(* ===================================================================== *)
(** * Parts of the state a computation leaves alone *)
(* ===================================================================== *)

Lemma preserves_ret {A B} (f : AuthServer -> B) (a : A) : preserves f (mret a).
Proof. by intros s. Qed.

Lemma preserves_fail {A B} (f : AuthServer -> B) (e : error) : preserves f (@fail A e).
Proof. by intros s. Qed.

Lemma preserves_lift {A B} (f : AuthServer -> B) (r : result A) : preserves f (lift r).
Proof. by intros s. Qed.

Lemma preserves_get {A B} (f : AuthServer -> B) (g : AuthServer -> A) : preserves f (get g).
Proof. by intros s. Qed.

Lemma preserves_check {B} (f : AuthServer -> B) (e : option error) : preserves f (check e).
Proof. intros s. unfold check, Wrap. by destruct e. Qed.

Lemma preserves_bind {A B C} (f : AuthServer -> C) (m : M A) (k : A -> M B) :
  preserves f m -> (forall a, preserves f (k a)) -> preserves f (m ≫= k).
Proof.
  intros Hm Hk s. unfold mbind, M_bind. specialize (Hm s).
  destruct (m s) as [[a|e] s1]; cbn in *; [|done].
  by rewrite Hk.
Qed.

Lemma preserves_try {A B} (f : AuthServer -> B) (m : M A) :
  preserves f m -> preserves f (try m).
Proof. intros Hm s. specialize (Hm s). unfold try. by destruct (m s). Qed.

Lemma preserves_forM {A B} (f : AuthServer -> B) (l : list A) (k : A -> M unit) :
  (forall a, preserves f (k a)) -> preserves f (forM_ l k).
Proof.
  intros Hk. induction l as [|x l IH]; cbn.
  - apply preserves_ret.
  - apply preserves_bind; auto.
Qed.

Lemma preserves_modify {B} (f : AuthServer -> B) (g : AuthServer -> AuthServer) :
  (forall s, f (g s) = f s) -> preserves f (modify g).
Proof. intros Hg s. apply Hg. Qed.

Lemma preserves_eq {A B} (f : AuthServer -> B) (m : M A) s r s' :
  preserves f m -> m s = (r, s') -> f s' = f s.
Proof. intros Hm Hs. specialize (Hm s). by rewrite Hs in Hm. Qed.

Lemma readonly_preserves {A B} (f : AuthServer -> B) (m : M A) :
  readonly m -> preserves f m.
Proof. intros Hm s. by rewrite Hm. Qed.

Ltac readonly_tac :=
  let s := fresh "s" in
  intros s; cbv beta delta [GetUser GetClusterName GetOIDCAuthRequest GetOIDCConnector
    GetUserByOIDCIdentity GetCertAuthority GetRole GetClusterConfig GetUsers
    GetCertAuthorities GetRemoteCluster GetTrustedCluster ReadPath];
  repeat case_match; reflexivity.

Lemma readonly_GetUser name : readonly (GetUser name).
Proof. readonly_tac. Qed.
Lemma readonly_GetClusterName : readonly GetClusterName.
Proof. readonly_tac. Qed.
Lemma readonly_GetOIDCAuthRequest t : readonly (GetOIDCAuthRequest t).
Proof. readonly_tac. Qed.
Lemma readonly_GetOIDCConnector i b : readonly (GetOIDCConnector i b).
Proof. readonly_tac. Qed.
Lemma readonly_GetUserByOIDCIdentity i : readonly (GetUserByOIDCIdentity i).
Proof. readonly_tac. Qed.
Lemma readonly_GetCertAuthority i b : readonly (GetCertAuthority i b).
Proof. readonly_tac. Qed.
Lemma readonly_GetRole n : readonly (GetRole n).
Proof. readonly_tac. Qed.
Lemma readonly_GetClusterConfig : readonly GetClusterConfig.
Proof. readonly_tac. Qed.
Lemma readonly_GetUsers : readonly GetUsers.
Proof. readonly_tac. Qed.
Lemma readonly_GetCertAuthorities t b : readonly (GetCertAuthorities t b).
Proof. readonly_tac. Qed.
Lemma readonly_GetRemoteCluster n : readonly (GetRemoteCluster n).
Proof. readonly_tac. Qed.
Lemma readonly_GetTrustedCluster n : readonly (GetTrustedCluster n).
Proof. readonly_tac. Qed.
Lemma readonly_ReadPath p : readonly (ReadPath p).
Proof. readonly_tac. Qed.

Create HintDb pres discriminated.

#[global] Hint Resolve readonly_GetUser readonly_GetClusterName readonly_GetOIDCAuthRequest
  readonly_GetOIDCConnector readonly_GetUserByOIDCIdentity readonly_GetCertAuthority
  readonly_GetRole readonly_GetClusterConfig readonly_GetUsers readonly_GetCertAuthorities
  readonly_GetRemoteCluster readonly_GetTrustedCluster readonly_ReadPath : pres.

(** Decompose a goal [preserves f m] along the structure of [m]. *)
Ltac pres_step :=
  first
    [ apply preserves_ret | apply preserves_fail | apply preserves_lift
    | apply preserves_get | apply preserves_check
    | apply preserves_bind | apply preserves_try | apply preserves_forM
    | apply readonly_preserves; solve [eauto with pres]
    | apply preserves_modify; intros ?; reflexivity
    | match goal with
      | |- preserves _ (match ?x with _ => _ end) => destruct x
      end
    | solve [eauto with pres] ].

Ltac pres := repeat (intros; pres_step).

(* ===================================================================== *)
(** * OIDC: claims and the subject check *)
(* ===================================================================== *)

Section OIDCFacts.
Context `{!Constants} `{!External}.

Lemma getOIDCClient_users conn : preserves users (getOIDCClient conn).
Proof. intros s. unfold getOIDCClient. repeat case_match; reflexivity. Qed.

Lemma httpDo_users req : preserves users (httpDo req).
Proof. by intros s. Qed.

Lemma EmitAuditEvent_users ty fields : preserves users (EmitAuditEvent ty fields).
Proof. by intros s. Qed.

#[local] Hint Resolve getOIDCClient_users httpDo_users EmitAuditEvent_users : pres.

Lemma claimsFromUserInfo_users c issuer token :
  preserves users (claimsFromUserInfo c issuer token).
Proof. unfold claimsFromUserInfo. pres. Qed.

Lemma fetchGroupsPage_users g token : preserves users (fetchGroupsPage g token).
Proof. unfold fetchGroupsPage. pres. Qed.

#[local] Hint Resolve claimsFromUserInfo_users fetchGroupsPage_users : pres.

Lemma collect_users fuel g count gs token : preserves users (collect fuel g count gs token).
Proof.
  revert count gs token. induction fuel as [|fuel IH]; intros; cbn [collect]; pres.
Qed.

#[local] Hint Resolve collect_users : pres.

Lemma claimsFromGSuite_users c issuer email token :
  preserves users (claimsFromGSuite c issuer email token).
Proof. unfold claimsFromGSuite, newGsuiteClient, fetchGroups, fetchGroupsFuel. pres. Qed.

#[local] Hint Resolve claimsFromGSuite_users : pres.

Lemma confirmSubject_users c issuer scope t idc uic :
  preserves users (confirmSubject c issuer scope t idc uic).
Proof. unfold confirmSubject, returnNilWrap. pres. Qed.

#[local] Hint Resolve confirmSubject_users : pres.

Lemma getClaims_users c issuer scope code : preserves users (getClaims c issuer scope code).
Proof. unfold getClaims. pres. Qed.

(** When both sources answer, [getClaims] is the subject confirmation run on
    their claims. *)
Lemma getClaims_both c issuer scope code s t idc uic s1 :
  OAuthClient c = None ->
  RequestToken c code = Ok t ->
  claimsFromIDToken c (IDToken t) = Ok idc ->
  claimsFromUserInfo c issuer (AccessToken t) s = (Ok uic, s1) ->
  getClaims c issuer scope code s = confirmSubject c issuer scope t idc uic s1.
Proof.
  intros Hoa Ht Hid Hui. unfold getClaims.
  unfold mbind at 1, M_bind at 1. unfold check. rewrite Hoa. cbn.
  unfold mbind at 1, M_bind at 1. rewrite Ht. cbn.
  unfold mbind at 1, M_bind at 1. rewrite Hid. cbn.
  unfold mbind at 1, M_bind at 1. unfold try. by rewrite Hui.
Qed.

Lemma confirmSubject_no_id_sub c issuer scope t idc uic s :
  StringClaim idc "sub" = ("", false, None) ->
  confirmSubject c issuer scope t idc uic s = (Ok None, s).
Proof. intros Hid. unfold confirmSubject. by rewrite Hid. Qed.

Lemma confirmSubject_no_userinfo_sub c issuer scope t idc uic s idsub :
  StringClaim idc "sub" = (idsub, true, None) ->
  StringClaim uic "sub" = ("", false, None) ->
  confirmSubject c issuer scope t idc uic s = (Ok None, s).
Proof. intros Hid Hui. unfold confirmSubject. rewrite Hid. cbn. by rewrite Hui. Qed.

Lemma confirmSubject_mismatch c issuer scope t idc uic s idsub uisub :
  StringClaim idc "sub" = (idsub, true, None) ->
  StringClaim uic "sub" = (uisub, true, None) ->
  idsub ≠ uisub ->
  confirmSubject c issuer scope t idc uic s =
    (Err (BadParameter "invalid subject in UserInfo"), s).
Proof.
  intros Hid Hui Hne. unfold confirmSubject. rewrite Hid. cbn. rewrite Hui. cbn.
  apply String.eqb_neq in Hne. by rewrite Hne.
Qed.

(** An absent claim reads as [("", false, nil)], and only an absent claim
    does. *)
Lemma StringClaim_absent (c : Claims) name :
  StringClaim c name = ("", false, None) <-> claim c name = None.
Proof.
  unfold StringClaim. destruct (claim c name) as [[]|]; split; intros; congruence.
Qed.

Lemma StringClaim_string (c : Claims) name v :
  StringClaim c name = (v, true, None) <-> claim c name = Some (VString v).
Proof.
  unfold StringClaim. destruct (claim c name) as [[]|]; split; intros; congruence.
Qed.

End OIDCFacts.

Section CallbackFacts.
Context `{!Constants} `{!External}.

Lemma validateOIDCAuthCallback_claims q s cn req conn c s0 :
  reachesClaims q s cn req conn c s0 ->
  validateOIDCAuthCallback q s =
    match getClaims c (GetIssuerURL conn) (GetScope conn) (urlGet q "code") s0 with
    | (Ok claims, s1) => validateClaims cn req conn claims s1
    | (Err _, s1) =>
        (Err (OAuth2 "unsupported_response_type" "unable to construct claims"), s1)
    end.
Proof.
  intros [He Hc Hst Hcn Hreq Hconn Hcl]. unfold validateOIDCAuthCallback.
  rewrite He. cbn [String.eqb negb].
  apply String.eqb_neq in Hc, Hst. rewrite Hc, Hst.
  unfold mbind at 1, M_bind at 1, GetClusterName. rewrite Hcn.
  unfold mbind at 1, M_bind at 1, GetOIDCAuthRequest. rewrite Hreq.
  unfold mbind at 1, M_bind at 1, GetOIDCConnector. rewrite Hconn.
  unfold mbind at 1, M_bind at 1. rewrite Hcl.
  unfold mbind at 1, M_bind at 1, try.
  destruct (getClaims _ _ _ _ s0) as [[claims|e] s1]; reflexivity.
Qed.

(** C10. When the UserInfo endpoint answers but the ID token claims, or the
    UserInfo claims, hold no [sub] claim at all (so that the lookup reports
    no type error), [getClaims] returns the nil claims together with a nil
    error, and [validateOIDCAuthCallback] goes on with the nil claims
    instead of reporting that the claims could not be constructed. *)
Theorem getClaims_missing_subject_returns_nil q s cn req conn c s0 t idc uic s1 :
  reachesClaims q s cn req conn c s0 ->
  OAuthClient c = None ->
  RequestToken c (urlGet q "code") = Ok t ->
  claimsFromIDToken c (IDToken t) = Ok idc ->
  claimsFromUserInfo c (GetIssuerURL conn) (AccessToken t) s0 = (Ok uic, s1) ->
  claim idc "sub" = None \/
    ((exists v, claim idc "sub" = Some (VString v)) /\ claim uic "sub" = None) ->
  getClaims c (GetIssuerURL conn) (GetScope conn) (urlGet q "code") s0 = (Ok None, s1) /\
  validateOIDCAuthCallback q s = validateClaims cn req conn None s1.
Proof.
  intros Hreach Hoa Ht Hid Hui Hsub.
  assert (Hget : getClaims c (GetIssuerURL conn) (GetScope conn) (urlGet q "code") s0
                 = (Ok None, s1)).
  { rewrite (getClaims_both _ _ _ _ _ _ _ _ _ Hoa Ht Hid Hui).
    destruct Hsub as [Hno|[[v Hv] Hno]].
    - apply confirmSubject_no_id_sub. by apply StringClaim_absent.
    - apply confirmSubject_no_userinfo_sub with (idsub := v).
      + by apply StringClaim_string.
      + by apply StringClaim_absent. }
  split; [done|].
  rewrite (validateOIDCAuthCallback_claims _ _ _ _ _ _ _ Hreach). by rewrite Hget.
Qed.

(** C2. In a callback where claims are extracted from both the ID token and
    the UserInfo endpoint, if the string [sub] claims of the two differ,
    [ValidateOIDCAuthCallback] returns an error and the user store is what
    it was before the call. *)
Theorem subject_mismatch_fails_without_user q s cn req conn c s0 t idc uic s1 idsub uisub :
  reachesClaims q s cn req conn c s0 ->
  OAuthClient c = None ->
  RequestToken c (urlGet q "code") = Ok t ->
  claimsFromIDToken c (IDToken t) = Ok idc ->
  claimsFromUserInfo c (GetIssuerURL conn) (AccessToken t) s0 = (Ok uic, s1) ->
  claim idc "sub" = Some (VString idsub) ->
  claim uic "sub" = Some (VString uisub) ->
  idsub ≠ uisub ->
  exists e s', ValidateOIDCAuthCallback q s = (Err e, s') /\ users s' = users s.
Proof.
  intros Hreach Hoa Ht Hid Hui Hidsub Huisub Hne.
  assert (Hv : validateOIDCAuthCallback q s =
    (Err (OAuth2 "unsupported_response_type" "unable to construct claims"), s1)).
  { rewrite (validateOIDCAuthCallback_claims _ _ _ _ _ _ _ Hreach).
    rewrite (getClaims_both _ _ _ _ _ _ _ _ _ Hoa Ht Hid Hui).
    rewrite (confirmSubject_mismatch _ _ _ _ _ _ _ idsub uisub); try done.
    - by apply StringClaim_string.
    - by apply StringClaim_string. }
  eexists _, _. split.
  - unfold ValidateOIDCAuthCallback. unfold mbind at 1, M_bind at 1, try.
    rewrite Hv. reflexivity.
  - cbn. rewrite (preserves_eq users _ _ _ _ (claimsFromUserInfo_users _ _ _) Hui).
    apply (preserves_eq users _ _ _ _ (getOIDCClient_users conn) (rc_client _ _ _ _ _ _ _ Hreach)).
Qed.

End CallbackFacts.

Section CallbackExamples.
#[local] Existing Instance Scenario.constants.

(** The callback of the scenario reaches the claims. *)
Lemma scenario_reachesClaims idc uic pages :
  let E : External := Scenario.external idc uic pages in
  exists c s0,
    reachesClaims Scenario.query Scenario.server "example.com"
      Scenario.request (Scenario.connector Scenario.fooMapping) c s0 /\
    OAuthClient c = None /\
    RequestToken c (urlGet Scenario.query "code")
      = Ok {| IDToken := "id-token"; AccessToken := "access-token" |} /\
    users s0 = ∅ /\ httpCalls s0 = 0%nat.
Proof.
  intros E. eexists _, _. split; [|split; [|split; [|split]]].
  - constructor; vm_compute; done.
  - reflexivity.
  - reflexivity.
  - reflexivity.
  - reflexivity.
Defined.

(** An ID token without [sub]: the callback goes on with the nil claims. *)
Lemma getClaims_missing_subject_witness :
  let idc : Claims := Some {[ "email" := VString "foo@example.com" ]} in
  let E : External :=
    Scenario.external idc (Some (Scenario.fooClaims "A")) Scenario.noPages in
  exists c s0 s1,
    getClaims c "https://www.example.com" ["profile"; "email"] "code-1" s0
      = (Ok None, s1) /\
    validateOIDCAuthCallback Scenario.query Scenario.server =
      validateClaims "example.com" Scenario.request
        (Scenario.connector Scenario.fooMapping) None s1.
Proof.
  intros idc E.
  destruct (scenario_reachesClaims idc (Some (Scenario.fooClaims "A")) Scenario.noPages)
    as (c & s0 & Hreach & Hoa & Ht & _ & _).
  exists c, s0.
  eexists.
  eapply (getClaims_missing_subject_returns_nil Scenario.query
            Scenario.server "example.com" Scenario.request
            (Scenario.connector Scenario.fooMapping) c s0 _ idc
            (Scenario.fooClaims "A") _ Hreach Hoa Ht).
  - reflexivity.
  - reflexivity.
  - left. reflexivity.
Defined.

(** The ID token says [sub = A], UserInfo says [sub = B]: the callback fails
    and no user is created. *)
Lemma subject_mismatch_witness :
  let E : External := Scenario.external (Scenario.fooClaims "A")
                        (Some (Scenario.fooClaims "B")) Scenario.noPages in
  exists e s', ValidateOIDCAuthCallback Scenario.query Scenario.server = (Err e, s') /\
               users s' = users Scenario.server.
Proof.
  intros E.
  destruct (scenario_reachesClaims (Scenario.fooClaims "A")
              (Some (Scenario.fooClaims "B")) Scenario.noPages)
    as (c & s0 & Hreach & Hoa & Ht & _ & _).
  eapply (subject_mismatch_fails_without_user Scenario.query Scenario.server
            "example.com" Scenario.request (Scenario.connector Scenario.fooMapping)
            c s0 _ (Scenario.fooClaims "A") (Scenario.fooClaims "B") _ "A" "B"
            Hreach Hoa Ht).
  - reflexivity.
  - reflexivity.
  - reflexivity.
  - reflexivity.
  - discriminate.
Defined.

End CallbackExamples.

(* ===================================================================== *)
(** * Claim merging is left-biased *)
(* ===================================================================== *)

Section MergeFacts.
Context `{!Constants} `{!External}.

(** The claims [confirmSubject] returns, when they are not nil, are the ID
    token claims, then the UserInfo claims, then further claims [g]. *)
Lemma confirmSubject_Some c issuer scope t idc uic s m s' :
  confirmSubject c issuer scope t idc uic s = (Ok (Some m), s') ->
  exists a g, idc = Some a /\ m = (a ∪ entries uic) ∪ g.
Proof.
  unfold confirmSubject. destruct idc as [a|]; [|discriminate].
  destruct (StringClaim (Some a) "sub") as [[idsub ex1] err1].
  destruct (bool_decide (err1 ≠ None) || negb ex1).
  { unfold returnNilWrap, Wrap. destruct err1; discriminate. }
  destruct (StringClaim uic "sub") as [[uisub ex2] err2].
  destruct (bool_decide (err2 ≠ None) || negb ex2).
  { unfold returnNilWrap, Wrap. destruct err2; discriminate. }
  destruct (negb (idsub =? uisub)%string); [discriminate|].
  rewrite mergeClaims_union.
  unfold mbind at 1, M_bind at 1. cbn [lift].
  destruct ((issuer =? GSuiteIssuerURL)%string && bool_decide (GSuiteGroupsScope ∈ scope)).
  - destruct (StringClaim (Some (a ∪ entries uic)) "email") as [[email ex3] err3].
    unfold Wrap. destruct err3; [discriminate|].
    unfold mbind, M_bind, try.
    destruct (claimsFromGSuite c issuer email (AccessToken t) s) as [[gs|e] s2].
    + rewrite mergeClaims_union. cbn. intros [= <- <-]. eauto.
    + destruct (negb (IsNotFound e)); [discriminate|]. cbn. intros [= <- <-].
      exists a, ∅. by rewrite (right_id_L ∅ (∪)).
  - cbn. intros [= <- <-]. exists a, ∅. by rewrite (right_id_L ∅ (∪)).
Qed.

(** C8. Merging is left-biased: every key of [a] keeps the value [a] gives
    it, and every key that only [b] has is added with the value of [b].
    Hence in the claims [getClaims] returns, a claim of the ID token keeps
    its value, and a UserInfo claim the ID token lacks keeps its value when
    the group claims are merged in afterwards. *)
Theorem mergeClaims_left_biased :
  (forall (a : gmap string Value) (b : Claims),
     exists m, mergeClaims (Some a) b = Ok (Some m) /\
       (forall k v, a !! k = Some v -> m !! k = Some v) /\
       (forall k, a !! k = None -> m !! k = claim b k)) /\
  (forall c issuer scope code s t idc m s',
     RequestToken c code = Ok t ->
     claimsFromIDToken c (IDToken t) = Ok idc ->
     getClaims c issuer scope code s = (Ok (Some m), s') ->
     (forall k v, claim idc k = Some v -> m !! k = Some v) /\
     (forall uic s1 k v,
        claimsFromUserInfo c issuer (AccessToken t) s = (Ok uic, s1) ->
        claim idc k = None -> claim uic k = Some v -> m !! k = Some v)).
Proof.
  split.
  - intros a b. exists (a ∪ entries b). split; [apply mergeClaims_union|]. split.
    + intros k v Hk. by apply lookup_union_Some_l.
    + intros k Hk. unfold claim. by rewrite lookup_union_r.
  - intros c issuer scope code s t idc m s' Ht Hid Hget.
    unfold getClaims in Hget.
    unfold mbind at 1, M_bind at 1, check, Wrap in Hget.
    destruct (OAuthClient c); [discriminate|]. cbn in Hget.
    unfold mbind at 1, M_bind at 1 in Hget. rewrite Ht in Hget. cbn in Hget.
    unfold mbind at 1, M_bind at 1 in Hget. rewrite Hid in Hget. cbn in Hget.
    unfold mbind at 1, M_bind at 1, try in Hget.
    destruct (claimsFromUserInfo c issuer (AccessToken t) s) as [[uic|e] s1] eqn:Hui.
    + apply confirmSubject_Some in Hget as (a & g & -> & ->). split.
      * intros k v Hk. apply lookup_union_Some_l. by apply lookup_union_Some_l.
      * intros uic' s1' k v [= <- <-] Hno Hk.
        apply lookup_union_Some_l. unfold claim in *. cbn in Hno.
        by rewrite lookup_union_r.
    + destruct (IsNotFound e); [|discriminate]. cbn in Hget.
      injection Hget as -> <-. split; [done|].
      intros uic' s1' k v [=].
Qed.

End MergeFacts.

Section MergeExamples.
#[local] Existing Instance Scenario.constants.

(** The ID token says [email = foo@example.com], UserInfo another address
    and a name: the ID token wins, the name is added. *)
Lemma mergeClaims_left_biased_witness :
  let a : gmap string Value := {[ "email" := VString "foo@example.com" ]} in
  let b : Claims := Some {[ "email" := VString "bar@example.com";
                            "name" := VString "Foo" ]} in
  exists m, mergeClaims (Some a) b = Ok (Some m) /\
    m !! "email" = Some (VString "foo@example.com") /\
    m !! "name" = Some (VString "Foo").
Proof.
  intros a b.
  pose (E := Scenario.external None None Scenario.noPages).
  destruct (proj1 (@mergeClaims_left_biased _ E) a b) as (m & Hm & Ha & Hb).
  exists m. split; [exact Hm|]. split.
  - apply Ha. reflexivity.
  - rewrite Hb; reflexivity.
Defined.

End MergeExamples.

(* ===================================================================== *)
(** * Dynamic user provisioning *)
(* ===================================================================== *)

Section ProvisioningFacts.
Context `{!Constants} `{!External}.

Lemma buildOIDCRoles_mapped connector claims :
  MapClaims connector claims ≠ [] ->
  buildOIDCRoles connector claims = Ok (MapClaims connector claims).
Proof. unfold buildOIDCRoles. by destruct (MapClaims connector claims). Qed.

Lemma buildOIDCRoles_unmapped connector claims :
  MapClaims connector claims = [] ->
  buildOIDCRoles connector claims
    = Err (AccessDenied "unable to map claims to role for connector").
Proof. unfold buildOIDCRoles. by intros ->. Qed.

(** C3, as the code has it. When no role is mapped from the claims, the call
    fails with AccessDenied before the user is looked up. When a role is
    mapped and the user record is generated, a user of the federated email
    that exists with no connector reference makes the call fail with
    AlreadyExists, the server state (so the user) being what it was; a user
    that exists with a connector reference is overwritten with the new
    record and the call succeeds. *)
Theorem createOIDCUser_existing_user connector ident claims s :
  (MapClaims connector claims = [] ->
   exists msg, createOIDCUser connector ident claims s = (Err (AccessDenied msg), s)) /\
  (forall existing user,
     MapClaims connector claims ≠ [] ->
     GenerateUser (oidcUser connector ident (MapClaims connector claims)
                     (claimsToTraitMap claims) (clock s)) = Ok user ->
     GetUser (Email ident) s = (Ok existing, s) ->
     (Connector (GetCreatedBy existing) = None ->
      exists msg, createOIDCUser connector ident claims s = (Err (AlreadyExists msg), s)) /\
     (forall connectorRef, Connector (GetCreatedBy existing) = Some connectorRef ->
      createOIDCUser connector ident claims s =
        (Ok (), set_users (fun m => <[userName user := storedUser user]> m) s))).
Proof.
  split.
  - intros Hno. eexists. unfold createOIDCUser.
    rewrite (buildOIDCRoles_unmapped _ _ Hno). reflexivity.
  - intros existing user Hmap Hgen Hget.
    split.
    + intros Hlocal. eexists. unfold createOIDCUser.
      unfold mbind at 1, M_bind at 1. rewrite (buildOIDCRoles_mapped _ _ Hmap). cbn [lift].
      unfold mbind at 1, M_bind at 1. cbn [get].
      unfold mbind at 1, M_bind at 1. rewrite Hgen. cbn [lift].
      unfold mbind at 1, M_bind at 1. unfold try at 1. rewrite Hget.
      unfold mbind at 1, M_bind at 1. cbn [mret M_ret].
      unfold mbind at 1, M_bind at 1. rewrite Hlocal. reflexivity.
    + intros ref Href. unfold createOIDCUser.
      unfold mbind at 1, M_bind at 1. rewrite (buildOIDCRoles_mapped _ _ Hmap). cbn [lift].
      unfold mbind at 1, M_bind at 1. cbn [get].
      unfold mbind at 1, M_bind at 1. rewrite Hgen. cbn [lift].
      unfold mbind at 1, M_bind at 1. unfold try at 1. rewrite Hget.
      unfold mbind at 1, M_bind at 1. cbn [mret M_ret].
      unfold mbind at 1, M_bind at 1. rewrite Href. reflexivity.
Qed.

End ProvisioningFacts.

Section ProvisioningExamples.
#[local] Existing Instance Scenario.constants.

(** A local account [foo@example.com] exists and the claims map to no role:
    the call fails with AccessDenied, not with AlreadyExists; and with an
    account created by a connector the call fails as well instead of
    overwriting it. *)
Lemma createOIDCUser_unmapped_counterexample :
  let E : External := Scenario.external None None Scenario.noPages in
  let local := set_users (fun _ => {[ "foo@example.com" := Scenario.localUser ]})
                 Scenario.server in
  let federated := set_users (fun _ => {[ "foo@example.com" := Scenario.federatedUser ]})
                     Scenario.server in
  (GetUser "foo@example.com" local = (Ok Scenario.localUser, local) /\
   Connector (GetCreatedBy Scenario.localUser) = None /\
   createOIDCUser (Scenario.connector []) Scenario.fooIdentity (Scenario.fooClaims "A") local
     = (Err (AccessDenied "unable to map claims to role for connector"), local)) /\
  (GetUser "foo@example.com" federated = (Ok Scenario.federatedUser, federated) /\
   Connector (GetCreatedBy Scenario.federatedUser) ≠ None /\
   createOIDCUser (Scenario.connector []) Scenario.fooIdentity (Scenario.fooClaims "A")
     federated
     = (Err (AccessDenied "unable to map claims to role for connector"), federated)).
Proof. intros E local federated. repeat split; try reflexivity. discriminate. Qed.

(** With the mapping of the test, the local account is protected and the
    account created by a connector is overwritten. *)
Lemma createOIDCUser_existing_user_witness :
  let E : External := Scenario.external None None Scenario.noPages in
  let conn := Scenario.connector Scenario.fooMapping in
  let local := set_users (fun _ => {[ "foo@example.com" := Scenario.localUser ]})
                 Scenario.server in
  let federated := set_users (fun _ => {[ "foo@example.com" := Scenario.federatedUser ]})
                     Scenario.server in
  (exists msg, createOIDCUser conn Scenario.fooIdentity (Scenario.fooClaims "A") local
               = (Err (AlreadyExists msg), local)) /\
  (exists s', createOIDCUser conn Scenario.fooIdentity (Scenario.fooClaims "A") federated
               = (Ok (), s') /\
              (userRoles <$> users s' !! "foo@example.com") = Some ["admin"]).
Proof.
  intros E conn local federated. split.
  - refine (proj1 (proj2 (createOIDCUser_existing_user conn Scenario.fooIdentity
              (Scenario.fooClaims "A") local) Scenario.localUser _ _ eq_refl eq_refl)
              eq_refl).
    discriminate.
  - eexists. split.
    + refine (proj2 (proj2 (createOIDCUser_existing_user conn Scenario.fooIdentity
                (Scenario.fooClaims "A") federated) Scenario.federatedUser _ _ eq_refl
                eq_refl) _ eq_refl).
      discriminate.
    + reflexivity.
Defined.

End ProvisioningExamples.

(* ===================================================================== *)
(** * The TTLs of a validated callback *)
(* ===================================================================== *)

Lemma bind_Ok_inv {A B} (m : M A) (k : A -> M B) s b s' :
  (m ≫= k) s = (Ok b, s') ->
  exists a s1, m s = (Ok a, s1) /\ k a s1 = (Ok b, s').
Proof.
  intros Hk. apply bind_inv in Hk as [(a & s1 & Hm & Hk)|(e & _ & [=])]. eauto.
Qed.

Lemma readonly_inv {A} (m : M A) s r s' : readonly m -> m s = (r, s') -> s' = s.
Proof. intros Hm Hs. specialize (Hm s). by rewrite Hs in Hm. Qed.

Lemma AdjustSessionTTL_le roles ttl : AdjustSessionTTL roles ttl <= ttl.
Proof. unfold AdjustSessionTTL. induction roles as [|r roles IH]; cbn; lia. Qed.

Lemma AdjustSessionTTL_within roles ttl :
  Forall (fun r => ttl <= MaxSessionTTL r) roles -> AdjustSessionTTL roles ttl = ttl.
Proof.
  unfold AdjustSessionTTL. induction 1 as [|r roles Hr _ IH]; cbn; [done|].
  rewrite IH. lia.
Qed.

Section TTLFacts.
Context `{!Constants} `{!External}.

Lemma createOIDCUser_clock connector ident claims :
  preserves clock (createOIDCUser connector ident claims).
Proof. unfold createOIDCUser, UpsertUser. pres. Qed.


End TTLFacts.

Section TTLExamples.
#[local] Existing Instance Scenario.constants.


End TTLExamples.

(* ===================================================================== *)
(** * Paging through the groups API *)
(* ===================================================================== *)

Section PagingFacts.
Context `{!Constants} `{!External}.

(** A page fetch sends at most one request and writes nothing to the audit
    log. *)
Lemma fetchGroupsPage_effect g token s r s' :
  fetchGroupsPage g token s = (r, s') ->
  (httpCalls s' <= S (httpCalls s))%nat /\ auditLog s' = auditLog s.
Proof.
  unfold fetchGroupsPage, check, Wrap, httpDo, mbind, M_bind, fail, mret, M_ret.
  intros Hrun. repeat case_match; simplify_eq; cbn; split; (lia || reflexivity).
Qed.

(** With enough fuel the loop ends on its own, after at most
    [MaxPages + 1 - count] further requests. *)
Lemma collect_bound fuel g count gs token s r s' :
  (Z.to_nat (MaxPages + 1 - count) < fuel)%nat ->
  collect fuel g count gs token s = (r, s') ->
  r ≠ Ok None /\
  (httpCalls s' <= httpCalls s + Z.to_nat (MaxPages + 1 - count))%nat.
Proof.
  revert count gs token s. induction fuel as [|fuel IH]; intros count gs token s Hfuel Hrun.
  { lia. }
  cbn [collect] in Hrun. destruct (count >? MaxPages) eqn:Hcount.
  - unfold mbind, M_bind in Hrun. cbn in Hrun. injection Hrun as <- <-.
    split; [done|]. cbn. lia.
  - rewrite Z.gtb_ltb in Hcount. apply Z.ltb_ge in Hcount.
    apply bind_inv in Hrun as [(response & s1 & Hpage & Hrun)|(e & Hpage & ->)].
    + apply fetchGroupsPage_effect in Hpage as [Hcalls _].
      destruct (NextPageToken response =? "")%string.
      * injection Hrun as <- <-. split; [done|]. lia.
      * apply IH in Hrun as [Hr Hle]; [|lia]. split; [done|].
        replace (Z.to_nat (MaxPages + 1 - count))
          with (S (Z.to_nat (MaxPages + 1 - (count + 1)))) by lia.
        lia.
    + apply fetchGroupsPage_effect in Hpage as [Hcalls _]. split; [done|]. lia.
Qed.

(** [fetchGroups] terminates: the fuel of the model never runs out, so the
    call returns what the loop returns, and at most [MaxPages + 1] requests
    are sent. *)
Lemma fetchGroups_terminates g s :
  exists r s',
    collect enoughFuel g 0 [] "" s = (r, s') /\
    r ≠ Ok None /\
    (httpCalls s' <= httpCalls s + Z.to_nat (MaxPages + 1))%nat /\
    fetchGroups g s = (match r with
                       | Ok (Some gs) => Ok (groupsClaims gs)
                       | Ok None => Err (RuntimePanic "fetchGroups: out of fuel")
                       | Err e => Err e
                       end, s').
Proof.
  destruct (collect enoughFuel g 0 [] "" s) as [r s'] eqn:Hcollect.
  exists r, s'. split; [done|].
  pose proof Hcollect as Hbound.
  apply collect_bound in Hbound as [Hr Hle]; [|unfold enoughFuel; lia].
  rewrite Z.sub_0_r in Hle. split; [done|]. split; [done|].
  unfold fetchGroups, fetchGroupsFuel, mbind, M_bind. rewrite Hcollect.
  by destruct r as [[gs|]|e].
Qed.

Lemma fetchGroupsPage_next g token s :
  urlParse (url g) = None ->
  (forall n req, exists resp page,
     Do n req = Ok resp /\ 200 <= StatusCode resp <= 299 /\
     decodeGroups (Body resp) = Ok page /\ NextPageToken page ≠ "") ->
  exists page, fetchGroupsPage g token s = (Ok page, set_httpCalls S s) /\
               NextPageToken page ≠ "".
Proof.
  intros Hurl Hpages. unfold fetchGroupsPage. rewrite Hurl.
  unfold mbind at 1, M_bind at 1. cbn [check Wrap mret M_ret].
  unfold mbind at 1, M_bind at 1, httpDo.
  match goal with |- context [Do ?n ?req] =>
    destruct (Hpages n req) as (resp & page & -> & Hcode & Hdec & Hne) end.
  replace (StatusCode resp <? 200) with false by (symmetry; apply Z.ltb_ge; lia).
  replace (StatusCode resp >? 299) with false
    by (symmetry; rewrite Z.gtb_ltb; apply Z.ltb_ge; lia).
  cbn [orb]. rewrite Hdec. by exists page.
Qed.

Lemma collect_endless g n :
  urlParse (url g) = None ->
  (forall n req, exists resp page,
     Do n req = Ok resp /\ 200 <= StatusCode resp <= 299 /\
     decodeGroups (Body resp) = Ok page /\ NextPageToken page ≠ "") ->
  forall fuel count gs token s,
    Z.to_nat (MaxPages + 1 - count) = n -> count <= MaxPages + 1 -> (n < fuel)%nat ->
    exists gs' s',
      collect fuel g count gs token s = (Ok (Some gs'), s') /\
      httpCalls s' = (httpCalls s + n)%nat /\
      auditLog s' = auditLog s ++ [truncationEvent].
Proof.
  intros Hurl Hpages. induction n as [|n IH]; intros fuel count gs token s Hn Hcount Hfuel.
  - destruct fuel as [|fuel]; [lia|]. cbn [collect].
    replace (count >? MaxPages) with true by (symmetry; rewrite Z.gtb_ltb; apply Z.ltb_lt; lia).
    eexists _, _. split; [reflexivity|]. split; [cbn; lia|reflexivity].
  - destruct fuel as [|fuel]; [lia|]. cbn [collect].
    replace (count >? MaxPages) with false by (symmetry; rewrite Z.gtb_ltb; apply Z.ltb_ge; lia).
    destruct (fetchGroupsPage_next g token s Hurl Hpages) as (page & Hpage & Hne).
    unfold mbind at 1, M_bind at 1. rewrite Hpage.
    apply String.eqb_neq in Hne. rewrite Hne.
    destruct (IH fuel (count + 1) (gs ++ groups page) (NextPageToken page)
                (set_httpCalls S s)) as (gs' & s' & Hrun & Hcalls & Hlog); [lia..|].
    exists gs', s'. split; [done|]. split; [|done]. rewrite Hcalls. cbn. lia.
Qed.

(** C9, on a groups API that hands out a next page token forever:
    [fetchGroups] ends, returns the groups collected so far as the claims
    [{"groups": ...}] with no error, and emits one audit event; it has then
    sent [MaxPages + 1] requests, one more than [MaxPages]. *)
Theorem fetchGroups_endless_pages g s :
  0 <= MaxPages ->
  urlParse (url g) = None ->
  (forall n req, exists resp page,
     Do n req = Ok resp /\ 200 <= StatusCode resp <= 299 /\
     decodeGroups (Body resp) = Ok page /\ NextPageToken page ≠ "") ->
  exists gs s',
    fetchGroups g s = (Ok (groupsClaims gs), s') /\
    httpCalls s' = (httpCalls s + Z.to_nat (MaxPages + 1))%nat /\
    (Z.to_nat MaxPages < httpCalls s' - httpCalls s)%nat /\
    auditLog s' = auditLog s ++ [truncationEvent].
Proof.
  intros Hmax Hurl Hpages.
  destruct (collect_endless g (Z.to_nat (MaxPages + 1)) Hurl Hpages enoughFuel 0 [] "" s)
    as (gs & s' & Hrun & Hcalls & Hlog).
  { f_equal. lia. }
  { lia. }
  { unfold enoughFuel. lia. }
  exists gs, s'. split; [|split; [done|split; [lia|done]]].
  unfold fetchGroups, fetchGroupsFuel, mbind, M_bind. by rewrite Hrun.
Qed.

(** A page that is fetched and fails makes the whole call fail. *)
Lemma collect_page_fails fuel g count gs token s e s' :
  count <= MaxPages ->
  fetchGroupsPage g token s = (Err e, s') ->
  collect (S fuel) g count gs token s = (Err e, s').
Proof.
  intros Hcount Hpage. cbn [collect].
  replace (count >? MaxPages) with false by (symmetry; rewrite Z.gtb_ltb; apply Z.ltb_ge; lia).
  unfold mbind, M_bind. by rewrite Hpage.
Qed.

End PagingFacts.

Section PagingExamples.
#[local] Existing Instance Scenario.constants.

(** With [MaxPages = 99] and a groups API that never stops, 100 requests
    are sent. *)
Lemma fetchGroups_endless_pages_witness :
  let E : External := Scenario.external None None Scenario.endlessPages in
  let g := {| url := GSuiteGroupsEndpoint; userEmail := "foo@example.com";
              accessToken := "access-token" |} in
  exists gs s',
    fetchGroups g Scenario.server = (Ok (groupsClaims gs), s') /\
    httpCalls s' = 100%nat /\ length gs = 100%nat /\
    auditLog s' = [truncationEvent].
Proof.
  intros E g.
  destruct (fetchGroups_endless_pages g Scenario.server) as (gs & s' & Hrun & Hcalls & _ & Hlog).
  - vm_compute. discriminate.
  - reflexivity.
  - intros n req. cbn [Do E Scenario.external].
    destruct (URL req =? _)%string;
      (eexists _, _; split; [reflexivity|]; split; [cbn; lia|];
       split; [reflexivity|]; discriminate).
  - exists gs, s'. split; [exact Hrun|]. split; [exact Hcalls|]. split; [|exact Hlog].
    assert (Heval : exists gs0 s0, fetchGroups g Scenario.server = (Ok (groupsClaims gs0), s0)
                                   /\ length gs0 = 100%nat).
    { eexists _, _. split; vm_compute; reflexivity. }
    destruct Heval as (gs0 & s0 & Hrun0 & Hlen). rewrite Hrun in Hrun0.
    assert (Hc : groupsClaims gs = groupsClaims gs0) by congruence.
    apply (f_equal (fun c => claim c "groups")) in Hc.
    unfold claim, groupsClaims, entries, default in Hc. cbn [from_option id] in Hc.
    rewrite !lookup_singleton_eq in Hc. injection Hc as ->. exact Hlen.
Defined.

End PagingExamples.

(* ===================================================================== *)
(** * Reading an SSH identity *)
(* ===================================================================== *)

Section SSHIdentityFacts.
Context `{!Constants} `{!Crypto}.

Lemma extension_empty_map (m : option (gmap string string)) k :
  (size (default ∅ m) =? 0)%nat = true -> extension m k = "".
Proof.
  intros Hsize. apply Nat.eqb_eq, map_size_empty_iff in Hsize.
  unfold extension. by rewrite Hsize, lookup_empty.
Qed.

Lemma extension_absent (m : option (gmap string string)) k :
  default ∅ m !! k = None -> extension m k = "".
Proof. unfold extension. by intros ->. Qed.

(** Every condition the specification lists is a failure of the code. *)
Lemma specSSHFailure_codeSSHFailure keyBytes certBytes :
  specSSHFailure keyBytes certBytes = true -> codeSSHFailure keyBytes certBytes = true.
Proof.
  unfold specSSHFailure, codeSSHFailure.
  destruct (String.length keyBytes =? 0)%nat; [done|].
  destruct (String.length certBytes =? 0)%nat; [done|]. cbn [orb].
  destruct (ParseAuthorizedKey certBytes) as [[cert|]|]; [|done..].
  destruct (ParsePrivateKey keyBytes) as [signer|]; [|done].
  destruct (negb (certKey cert =? signerPublicKey signer)%string); [done|].
  destruct (length (ValidPrincipals cert) =? 0)%nat; [done|].
  destruct (existsb _ (ValidPrincipals cert)); [done|]. cbn [orb].
  case_bool_decide as Hrole.
  { by rewrite (extension_absent _ _ Hrole). }
  case_bool_decide as Hauth.
  { rewrite (extension_absent _ _ Hauth). cbn. by rewrite orb_true_r. }
  cbn [orb]. destruct (ParseRoles _); [|done].
  intros ->. by rewrite !orb_true_r.
Qed.

(** C6, as the code has it: [ReadSSHIdentityFromKeyPair] returns an error
    exactly when one of the conditions of [codeSSHFailure] holds (the listed
    ones, and a private key that does not parse or does not belong to the
    certificate, an empty extension, a role extension that does not parse);
    otherwise it succeeds, and the signer of the identity is the
    certificate-bound signer built from the parsed certificate. *)
Theorem ReadSSHIdentityFromKeyPair_fails_iff keyBytes certBytes :
  (isErr (ReadSSHIdentityFromKeyPair keyBytes certBytes) = true <->
   codeSSHFailure keyBytes certBytes = true) /\
  (forall identity,
     ReadSSHIdentityFromKeyPair keyBytes certBytes = Ok identity ->
     exists cert signer,
       ParseAuthorizedKey certBytes = Ok (PubCertificate cert) /\
       ParsePrivateKey keyBytes = Ok signer /\
       KeySigner identity = Some (CertSigner cert signer) /\
       idCert identity = Some cert).
Proof.
  unfold ReadSSHIdentityFromKeyPair, codeSSHFailure, NewCertSigner.
  destruct (String.length keyBytes =? 0)%nat; [by split|].
  destruct (String.length certBytes =? 0)%nat; [by split|]. cbn [orb].
  destruct (ParseAuthorizedKey certBytes) as [[cert|]|]; [|by split..].
  destruct (ParsePrivateKey keyBytes) as [signer|]; [|by split].
  destruct (certKey cert =? signerPublicKey signer)%string; [|by split]. cbn [negb orb].
  destruct (ValidPrincipals cert) as [|principal principals] eqn:Hprincipals; [by split|].
  cbn [length Nat.eqb orb].
  destruct (existsb _ (principal :: principals)); [by split|]. cbn [orb].
  destruct (size (default ∅ (Extensions cert)) =? 0)%nat eqn:Hsize.
  { rewrite (extension_empty_map _ _ Hsize). by split. }
  destruct (extension (Extensions cert) CertExtensionRole =? "")%string; [by split|].
  cbn [orb].
  destruct (ParseRoles _) as [roles|]; cbn [mbind result_bind];
    [|by rewrite orb_true_r].
  destruct roles as [|role [|role' roles]]; cbn [length Nat.eqb negb];
    [by rewrite orb_true_r| |by rewrite orb_true_r].
  rewrite orb_false_r.
  destruct (extension (Extensions cert) CertExtensionAuthority =? "")%string; [by split|].
  split; [by split|].
  intros identity [= <-]. by exists cert, signer.
Qed.

End SSHIdentityFacts.

Section SSHIdentityExamples.
#[local] Existing Instance Scenario.constants.
#[local] Existing Instance Scenario.crypto.

(** Key bytes that are not a private key, with a certificate that has a
    principal, both extensions and one role: the call fails although none of
    the listed conditions holds. *)
Lemma ReadSSHIdentityFromKeyPair_counterexample :
  isErr (ReadSSHIdentityFromKeyPair "not a private key" "node-cert") = true /\
  specSSHFailure "not a private key" "node-cert" = false.
Proof. split; vm_compute; reflexivity. Qed.

(** The key of the node with the certificate of the node: a
    certificate-bound signer. *)
Lemma ReadSSHIdentityFromKeyPair_witness :
  codeSSHFailure "RSA PRIVATE KEY kkkkkkk" "node-cert" = false /\
  exists identity signer,
    ReadSSHIdentityFromKeyPair "RSA PRIVATE KEY kkkkkkk" "node-cert" = Ok identity /\
    KeySigner identity = Some (CertSigner Scenario.nodeCertificate signer).
Proof.
  split; [vm_compute; reflexivity|].
  assert (Hrun : exists identity,
    ReadSSHIdentityFromKeyPair "RSA PRIVATE KEY kkkkkkk" "node-cert" = Ok identity).
  { eexists. vm_compute. reflexivity. }
  destruct Hrun as (identity & Hrun).
  destruct (proj2 (ReadSSHIdentityFromKeyPair_fails_iff "RSA PRIVATE KEY kkkkkkk" "node-cert")
              identity Hrun) as (cert & signer & Hcert & _ & Hsigner & _).
  exists identity, signer. split; [exact Hrun|].
  assert (cert = Scenario.nodeCertificate) as <-; [|exact Hsigner].
  assert (Hc : ParseAuthorizedKey "node-cert" = Ok (PubCertificate Scenario.nodeCertificate))
    by reflexivity.
  rewrite Hc in Hcert. by injection Hcert.
Defined.

End SSHIdentityExamples.

(* ===================================================================== *)
(** * Reading an identity with optional TLS material *)
(* ===================================================================== *)

Section IdentityFacts.
Context `{!Constants} `{!Crypto}.

(** An identity read from the SSH key pair alone holds no TLS bytes. *)
Lemma ReadSSHIdentityFromKeyPair_no_tls keyBytes certBytes identity :
  ReadSSHIdentityFromKeyPair keyBytes certBytes = Ok identity ->
  TLSCertBytes identity = "" /\ TLSCACertsBytes identity = [].
Proof.
  unfold ReadSSHIdentityFromKeyPair. intros Hrun.
  repeat case_match; simplify_eq; try done;
    (destruct (ParseRoles _) as [roles|]; cbn [mbind result_bind] in Hrun; [|done];
     repeat case_match; simplify_eq; done).
Qed.

Lemma TLSConfig_no_tls identity cipherSuites_ :
  TLSCertBytes identity = "" ->
  TLSConfig identity cipherSuites_
    = Err (NotFound "no TLS credentials setup for this identity").
Proof.
  intros Hno. unfold TLSConfig, HasTLSConfig. rewrite Hno. cbn.
  by rewrite andb_false_r.
Qed.

(** C7. Provided the SSH identity parses: with empty TLS certificate bytes
    [ReadIdentityFromKeyPair] succeeds with that identity, which holds no
    TLS bytes and whose [TLSConfig] fails with NotFound; with non-empty TLS
    certificate bytes it fails exactly when [ReadTLSIdentityFromKeyPair]
    fails on the key, the TLS certificate and the trust roots, and on
    success the identity carries the TLS certificate and trust root bytes. *)
Theorem ReadIdentityFromKeyPair_tls_optional keyBytes sshCertBytes tlsCertBytes
    tlsCACertsBytes identity :
  ReadSSHIdentityFromKeyPair keyBytes sshCertBytes = Ok identity ->
  (tlsCertBytes = "" ->
   ReadIdentityFromKeyPair keyBytes sshCertBytes tlsCertBytes tlsCACertsBytes = Ok identity /\
   TLSCertBytes identity = "" /\ TLSCACertsBytes identity = [] /\
   HasTLSConfig identity = false /\
   forall cipherSuites_, exists msg,
     TLSConfig identity cipherSuites_ = Err (NotFound msg)) /\
  (tlsCertBytes ≠ "" ->
   isErr (ReadIdentityFromKeyPair keyBytes sshCertBytes tlsCertBytes tlsCACertsBytes)
     = isErr (ReadTLSIdentityFromKeyPair keyBytes tlsCertBytes tlsCACertsBytes) /\
   forall i,
     ReadIdentityFromKeyPair keyBytes sshCertBytes tlsCertBytes tlsCACertsBytes = Ok i ->
     i = withTLS identity tlsCertBytes tlsCACertsBytes /\
     TLSCertBytes i = tlsCertBytes /\ TLSCACertsBytes i = tlsCACertsBytes).
Proof.
  intros Hssh. unfold ReadIdentityFromKeyPair. rewrite Hssh. cbn [mbind result_bind].
  split.
  - intros ->. cbn. split; [done|].
    destruct (ReadSSHIdentityFromKeyPair_no_tls _ _ _ Hssh) as [Hcert Hcas].
    split; [done|]. split; [done|]. split.
    + unfold HasTLSConfig. rewrite Hcert. cbn. by rewrite andb_false_r.
    + intros cs. eexists. by apply TLSConfig_no_tls.
  - intros Hne.
    assert ((String.length tlsCertBytes =? 0)%nat = false) as ->.
    { by destruct tlsCertBytes. }
    cbn [negb].
    destruct (ReadTLSIdentityFromKeyPair keyBytes tlsCertBytes tlsCACertsBytes)
      as [tlsIdentity|e]; cbn [mbind result_bind isErr].
    + split; [done|]. by intros i [= <-].
    + split; [done|]. intros i [=].
Qed.

End IdentityFacts.

Section IdentityExamples.
#[local] Existing Instance Scenario.constants.
#[local] Existing Instance Scenario.crypto.

(** The node's key pair, first without and then with its TLS certificate
    and the certificate of the authority. *)
Lemma ReadIdentityFromKeyPair_tls_optional_witness :
  exists identity,
    ReadIdentityFromKeyPair "RSA PRIVATE KEY kkkkkkk" "node-cert" "" [] = Ok identity /\
    (exists msg, TLSConfig identity DefaultCipherSuites = Err (NotFound msg)) /\
    ReadIdentityFromKeyPair "RSA PRIVATE KEY kkkkkkk" "node-cert" "node-tls-cert"
       ["ca-tls-cert"]
      = Ok (withTLS identity "node-tls-cert" ["ca-tls-cert"]) /\
    isErr (ReadIdentityFromKeyPair "RSA PRIVATE KEY kkkkkkk" "node-cert" "node-tls-cert" [])
      = true.
Proof.
  assert (Hssh : exists identity,
    ReadSSHIdentityFromKeyPair "RSA PRIVATE KEY kkkkkkk" "node-cert" = Ok identity).
  { eexists. vm_compute. reflexivity. }
  destruct Hssh as (identity & Hssh). exists identity.
  destruct (ReadIdentityFromKeyPair_tls_optional _ _ "" [] identity Hssh)
    as [Hempty _].
  destruct (Hempty eq_refl) as (Hrun & _ & _ & _ & Hconfig).
  split; [exact Hrun|]. split; [apply Hconfig|].
  destruct (ReadIdentityFromKeyPair_tls_optional _ _ "node-tls-cert" ["ca-tls-cert"]
              identity Hssh) as [_ Htls].
  destruct Htls as [Herr Hcarry]; [discriminate|].
  destruct (ReadIdentityFromKeyPair_tls_optional _ _ "node-tls-cert" []
              identity Hssh) as [_ Hnoca].
  destruct Hnoca as [Herr' _]; [discriminate|].
  split.
  - destruct (ReadIdentityFromKeyPair "RSA PRIVATE KEY kkkkkkk" "node-cert"
                "node-tls-cert" ["ca-tls-cert"]) as [i|e] eqn:Hi.
    + f_equal. by apply Hcarry.
    + exfalso. revert Herr. vm_compute. discriminate.
  - rewrite Herr'. vm_compute. reflexivity.
Defined.

End IdentityExamples.

(* ===================================================================== *)
(** * Bootstrap: what each step of [Init] touches *)
(* ===================================================================== *)

(** A primitive that writes another part of the state. *)
Ltac pres_prim :=
  let s := fresh "s" in
  intros s;
  cbv beta delta [UpsertRole CreateRole UpsertReverseTunnel SetStaticTokens SetAuthPreference
    UpsertNamespace CreateRemoteCluster Remove WriteIdentity UpsertUser AcquireLock
    ReleaseLock draw modify];
  repeat case_match; reflexivity.

Ltac pres' := repeat (intros; first [pres_step | solve [pres_prim]]).

Section BootstrapFacts.
Context `{!Constants} `{!Crypto} `{!Services} `{!FileSystem}.

Lemma preserves_trustCore {A} (m : M A) :
  preserves authorities m -> preserves clusterConfig m -> preserves clusterName m ->
  preserves trustCore m.
Proof. intros Ha Hc Hn s. unfold trustCore. by rewrite Ha, Hc, Hn. Qed.

Lemma migrateLegacyResources_trustCore cfg :
  preserves trustCore (migrateLegacyResources cfg).
Proof.
  apply preserves_trustCore;
    unfold migrateLegacyResources, migrateUsers, migrateRemoteClusters, migrateIdentities,
      migrateIdentity, migrateAdminRole, readIdentityCompat, removeIdentityCompat,
      readOptional; pres'.
Qed.

Lemma initDefaults_trustCore cfg : preserves trustCore (initDefaults cfg).
Proof. apply preserves_trustCore; unfold initDefaults; pres'. Qed.

(** Unfold the monad in a hypothesis about a run and split it in cases. *)
Ltac run_cases H :=
  cbv beta delta [mbind M_bind mret M_ret try lift fail get modify check Wrap draw
    GetCertAuthority UpsertCertAuthority CreateCertAuthority GetClusterConfig
    SetClusterConfig SetClusterName GetClusterName] in H;
  repeat case_match; simplify_eq.

(** What [initUserCA] does to the backend: it writes the user authority of
    the cluster only, and only when that authority is absent or has no TLS
    key pair; when it succeeds the authority has TLS material. *)
Lemma initUserCA_effect name s r s' :
  initUserCA name s = (r, s') ->
  clusterConfig s' = clusterConfig s /\ clusterName s' = clusterName s /\
  (forall id, id ≠ (UserCA, name) -> authorities s' !! id = authorities s !! id) /\
  (r = Ok () -> hasTLS s' (UserCA, name)) /\
  (hasTLS s (UserCA, name) -> r = Ok () /\ authorities s' = authorities s).
Proof.
  unfold initUserCA, hasTLS. intros Hrun. run_cases Hrun; cbn;
    (split; [reflexivity|]; split; [reflexivity|]; split; [|split]);
    try (intros id Hid; cbn; by rewrite ?lookup_insert_ne by done);
    try (intros [=]; fail);
    try (intros _; eexists; split; [cbn; apply lookup_insert_eq|done]; fail).
  all: try (intros (st & Hst & Htls); simplify_eq; cbn in *;
            try (by destruct (stTLSKeyPairs st)); fail).
  all: try (intros _; eexists; split; [eassumption|]; cbn in *;
            by destruct (stTLSKeyPairs _)).
Qed.

(** The same for [initHostCA] and the host authority. *)
Lemma initHostCA_effect name s r s' :
  initHostCA name s = (r, s') ->
  clusterConfig s' = clusterConfig s /\ clusterName s' = clusterName s /\
  (forall id, id ≠ (HostCA, name) -> authorities s' !! id = authorities s !! id) /\
  (r = Ok () -> hasTLS s' (HostCA, name)) /\
  (hasTLS s (HostCA, name) -> r = Ok () /\ authorities s' = authorities s).
Proof.
  unfold initHostCA, hasTLS. intros Hrun. run_cases Hrun; cbn;
    (split; [reflexivity|]; split; [reflexivity|]; split; [|split]);
    try (intros id Hid; cbn; by rewrite ?lookup_insert_ne by done);
    try (intros [=]; fail);
    try (intros _; eexists; split; [cbn; apply lookup_insert_eq|done]; fail).
  all: try (intros (st & Hst & Htls); simplify_eq; cbn in *;
            try (by destruct (stTLSKeyPairs st)); fail).
  all: try (intros _; eexists; split; [eassumption|]; cbn in *;
            by destruct (stTLSKeyPairs _)).
Qed.

(** [initClusterConfig] writes the cluster config only. A cluster id that is
    there and not empty is kept; otherwise the id is a new UUID. *)
Lemma initClusterConfig_effect cfg s r s' :
  initClusterConfig cfg s = (r, s') ->
  authorities s' = authorities s /\ clusterName s' = clusterName s /\
  (forall e, r = Err e -> clusterConfig s' = clusterConfig s) /\
  (r = Ok () ->
   exists id, clusterConfig s' = Some (SetClusterID (cfgClusterConfig cfg) id) /\
     ((exists c, clusterConfig s = Some c /\ ClusterID c = id /\ id ≠ "") \/
      (exists n, id = uuidNew n))) /\
  (forall c, clusterConfig s = Some c -> ClusterID c ≠ "" ->
   r = Ok () /\
   clusterConfig s' = Some (SetClusterID (cfgClusterConfig cfg) (ClusterID c))).
Proof.
  unfold initClusterConfig. intros Hrun. run_cases Hrun; cbn;
    (split; [reflexivity|]; split; [reflexivity|]; split; [|split]);
    try done; try (intros [=]; fail).
  all: try (intros _; eexists; split; [reflexivity|];
            first [ left; eexists; split; [reflexivity|]; split; [reflexivity|];
                    by apply String.eqb_neq, negb_true_iff
                  | right; by eexists ]; fail).
  all: try (intros c0 [= <-] Hne; apply String.eqb_neq in Hne;
            match goal with H : negb _ = _ |- _ => rewrite Hne in H; done end).
  all: intros c0 [= <-] Hne; done.
Qed.

(** [initClusterName] writes the cluster name only, and only when none is
    set; it returns the name the backend holds afterwards. *)
Lemma initClusterName_effect cfg s r s' :
  initClusterName cfg s = (r, s') ->
  authorities s' = authorities s /\ clusterConfig s' = clusterConfig s /\
  (exists name, r = Ok name /\ clusterName s' = Some name) /\
  (forall name, clusterName s = Some name -> clusterName s' = Some name).
Proof.
  unfold initClusterName. intros Hrun. run_cases Hrun; cbn;
    (split; [reflexivity|]; split; [reflexivity|]; split);
    try (by eexists); try done.
  all: try (intros ? [= <-]; done).
  all: exists (cfgClusterName cfg); split; [done|];
       match goal with H : negb (_ =? _)%string = false |- _ =>
         apply negb_false_iff, String.eqb_eq in H end;
       congruence.
Qed.

Lemma createAuthority_effect ca s r s' :
  createAuthority ca s = (r, s') ->
  clusterConfig s' = clusterConfig s /\ clusterName s' = clusterName s /\
  (forall id, is_Some (authorities s !! id) -> authorities s' !! id = authorities s !! id) /\
  (r = Ok () -> known s' ca) /\
  (known s ca -> authorities s' = authorities s).
Proof.
  unfold createAuthority, known. intros Hrun. run_cases Hrun; cbn;
    (split; [reflexivity|]; split; [reflexivity|]; split; [|split]);
    try done; try (intros [=]; fail).
  - intros id [st Hid]. apply lookup_insert_ne. congruence.
  - intros _ ca' Hgen. assert (ca' = a0) as -> by congruence.
    rewrite lookup_insert_eq. eauto.
  - intros Hknown.
    match goal with Hgen : GenerateCertAuthority ca = Ok _ |- _ =>
      destruct (Hknown _ Hgen) as [st Hst] end.
    congruence.
  - intros _ ca' Hgen.
    match goal with Hg : GenerateCertAuthority ca = Ok ?x |- _ =>
      assert (ca' = x) as -> by congruence end.
    eauto.
Qed.

Lemma createAuthorities_effect l s r s' :
  forM_ l createAuthority s = (r, s') ->
  clusterConfig s' = clusterConfig s /\ clusterName s' = clusterName s /\
  (forall id, is_Some (authorities s !! id) -> authorities s' !! id = authorities s !! id) /\
  (r = Ok () -> Forall (known s') l) /\
  (Forall (known s) l -> authorities s' = authorities s).
Proof.
  revert s. induction l as [|ca l IH]; intros s Hrun; cbn [forM_] in Hrun.
  { injection Hrun as <- <-. by repeat split. }
  apply bind_inv in Hrun as [([] & s1 & Hca & Hrun)|(e & Hca & ->)].
  - apply createAuthority_effect in Hca as (Hcc & Hcn & Hkeep & Hnew & Hsame).
    apply IH in Hrun as (Hcc' & Hcn' & Hkeep' & Hnew' & Hsame').
    split; [congruence|]. split; [congruence|]. split; [|split].
    + intros id Hid. rewrite <- (Hkeep id Hid). apply Hkeep'. by rewrite Hkeep.
    + intros Hok. constructor; [|by apply Hnew'].
      intros ca' Hgen. destruct (Hnew eq_refl ca' Hgen) as [st Hst].
      rewrite Hkeep' by eauto. eauto.
    + intros Hall. inversion Hall as [|? ? Hhead Htail]; subst.
      rewrite <- (Hsame Hhead). apply Hsame'. unfold known in *.
      rewrite (Hsame Hhead). exact Htail.
  - apply createAuthority_effect in Hca as (Hcc & Hcn & Hkeep & _ & Hsame).
    split; [done|]. split; [done|]. split; [done|]. split; [done|].
    intros Hall. inversion Hall; subst. by apply Hsame.
Qed.

Lemma initResources_effect cfg s r s' :
  initResources cfg s = (r, s') ->
  clusterConfig s' = clusterConfig s /\ clusterName s' = clusterName s /\
  (forall id, is_Some (authorities s !! id) -> authorities s' !! id = authorities s !! id) /\
  (r = Ok () -> Forall (known s') (Authorities cfg)) /\
  (Forall (known s) (Authorities cfg) -> authorities s' = authorities s).
Proof.
  unfold initResources. intros Hrun.
  assert (Hroles : preserves trustCore (forM_ (cfgRoles cfg) UpsertRole)).
  { apply preserves_trustCore; pres'. }
  assert (Htunnels : preserves trustCore (forM_ (ReverseTunnels cfg) UpsertReverseTunnel)).
  { apply preserves_trustCore; pres'. }
  apply bind_inv in Hrun as [([] & s1 & Hr1 & Hrun)|(e & Hr1 & ->)].
  2: { apply (preserves_eq _ _ _ _ _ Hroles) in Hr1. injection Hr1 as Ha Hc Hn.
       rewrite Ha, Hc, Hn. split; [done|]. split; [done|]. split; [done|].
       split; [done|]. done. }
  apply (preserves_eq _ _ _ _ _ Hroles) in Hr1. injection Hr1 as Ha Hc Hn.
  unfold known. rewrite <- Ha, <- Hc, <- Hn.
  apply bind_inv in Hrun as [([] & s2 & Hr2 & Hrun)|(e & Hr2 & ->)].
  - apply createAuthorities_effect in Hr2 as (Hcc & Hcn & Hkeep & Hnew & Hsame).
    apply (preserves_eq _ _ _ _ _ Htunnels) in Hrun. injection Hrun as Ha' Hc' Hn'.
    rewrite Ha', Hc', Hn'. split; [done|]. split; [done|]. split; [done|].
    split; [|done]. intros _. by apply Hnew.
  - apply createAuthorities_effect in Hr2 as (Hcc & Hcn & Hkeep & Hnew & Hsame).
    split; [done|]. split; [done|]. split; [done|]. split; [done|]. done.
Qed.

Lemma trustCore_inv s s' :
  trustCore s' = trustCore s ->
  authorities s' = authorities s /\ clusterConfig s' = clusterConfig s /\
  clusterName s' = clusterName s.
Proof. unfold trustCore. by intros [= -> -> ->]. Qed.

Lemma trustCore_intro s s' :
  authorities s' = authorities s -> clusterConfig s' = clusterConfig s ->
  clusterName s' = clusterName s -> trustCore s' = trustCore s.
Proof. unfold trustCore. by intros -> -> ->. Qed.

Lemma hasTLS_authorities s s' id :
  authorities s' !! id = authorities s !! id -> hasTLS s id -> hasTLS s' id.
Proof. unfold hasTLS. by intros ->. Qed.

Lemma known_authorities s s' ca :
  (forall id, is_Some (authorities s !! id) -> is_Some (authorities s' !! id)) ->
  known s ca -> known s' ca.
Proof. unfold known. eauto. Qed.

Lemma bootstrapped_trustCore cfg s s' :
  trustCore s' = trustCore s -> bootstrapped cfg s -> bootstrapped cfg s'.
Proof.
  intros (Ha & Hc & Hn)%trustCore_inv. unfold bootstrapped, hasTLS, known.
  by rewrite Ha, Hc, Hn.
Qed.

(** A successful run of the locked part of [Init] leaves the backend
    bootstrapped. *)
Lemma initLocked_bootstraps cfg s s' :
  (forall n, uuidNew n ≠ "") ->
  initLocked cfg s = (Ok (), s') ->
  bootstrapped cfg s'.
Proof.
  intros Huuid Hrun. unfold initLocked in Hrun.
  apply bind_Ok_inv in Hrun as ([] & s0 & _ & Hrun).
  apply bind_Ok_inv in Hrun as ([] & s1 & Hres & Hrun).
  apply initResources_effect in Hres as (_ & _ & _ & Hknown & _).
  specialize (Hknown eq_refl).
  apply bind_Ok_inv in Hrun as ([] & s2 & Hcc & Hrun).
  apply initClusterConfig_effect in Hcc as (Ha2 & _ & _ & Hid & _).
  destruct (Hid eq_refl) as (id & Hcfg & Hwhich).
  assert (Hne : id ≠ "").
  { destruct Hwhich as [(c & _ & _ & Hne)|(n & ->)]; [done|apply Huuid]. }
  apply bind_Ok_inv in Hrun as (name & s3 & Hcn & Hrun).
  apply initClusterName_effect in Hcn as (Ha3 & Hc3 & (name' & Hname' & Hn3) & _).
  injection Hname' as <-.
  apply bind_Ok_inv in Hrun as ([] & s4 & Hdef & Hrun).
  apply (preserves_eq _ _ _ _ _ (initDefaults_trustCore cfg)) in Hdef.
  apply trustCore_inv in Hdef as (Ha4 & Hc4 & Hn4).
  apply bind_Ok_inv in Hrun as ([] & s5 & Huser & Hrun).
  apply initUserCA_effect in Huser as (Hc5 & Hn5 & Ha5 & Huser & _).
  specialize (Huser eq_refl).
  apply bind_Ok_inv in Hrun as ([] & s6 & Hhost & Hrun).
  apply initHostCA_effect in Hhost as (Hc6 & Hn6 & Ha6 & Hhost & _).
  specialize (Hhost eq_refl).
  apply bind_Ok_inv in Hrun as ([] & s7 & Hmig & Hrun).
  apply (preserves_eq _ _ _ _ _ (migrateLegacyResources_trustCore cfg)) in Hmig.
  assert (Hlast : trustCore s' = trustCore s7).
  { destruct (negb (SkipPeriodicOperations cfg)); by injection Hrun as <-. }
  apply (bootstrapped_trustCore cfg s7 s' Hlast).
  apply (bootstrapped_trustCore cfg s6 s7 Hmig).
  split; [|split].
  - exists name. split; [congruence|]. split; [|done].
    apply (hasTLS_authorities s5); [|done]. by apply Ha6.
  - exists id. split; [done|]. congruence.
  - eapply Forall_impl; [exact Hknown|]. intros ca. apply known_authorities.
    intros i Hi. rewrite <- Ha2, <- Ha3, <- Ha4 in Hi.
    assert (Hi5 : is_Some (authorities s5 !! i)).
    { destruct (decide (i = (UserCA, name))) as [->|Hneq].
      - destruct Huser as (st & -> & _). eauto.
      - by rewrite Ha5. }
    destruct (decide (i = (HostCA, name))) as [->|Hneq].
    + destruct Hhost as (st & -> & _). eauto.
    + by rewrite Ha6.
Qed.

(** On a bootstrapped backend the locked part of [Init], however it ends,
    leaves the authorities, the cluster config and the cluster name as they
    are. *)
Lemma initLocked_again cfg s r s' :
  bootstrapped cfg s ->
  initLocked cfg s = (r, s') ->
  trustCore s' = trustCore s.
Proof.
  intros ((name & Hname & Huser & Hhost) & (id & Hne & Hcfg) & Hknown) Hrun.
  unfold initLocked in Hrun.
  apply bind_inv in Hrun as [([] & s0 & Hstep & Hrun)|(e & [=] & _)].
  injection Hstep as <-.
  apply bind_inv in Hrun as [([] & s1 & Hres & Hrun)|(e & Hres & ->)];
    apply initResources_effect in Hres as (Hc1 & Hn1 & _ & _ & Ha1);
    specialize (Ha1 Hknown); cbn in Ha1, Hc1, Hn1;
    [|by apply trustCore_intro].
  apply bind_inv in Hrun as [([] & s2 & Hcc & Hrun)|(e & Hcc & ->)];
    apply initClusterConfig_effect in Hcc as (Ha2 & Hn2 & Herr & _ & Hkeep).
  2: { apply trustCore_intro; [congruence| |congruence].
       rewrite (Herr e eq_refl). congruence. }
  assert (Hc2 : clusterConfig s2 = clusterConfig s).
  { destruct (Hkeep (SetClusterID (cfgClusterConfig cfg) id)) as [_ ->];
      [congruence|done|]. by rewrite Hcfg. }
  apply bind_inv in Hrun as [(name' & s3 & Hcn & Hrun)|(e & Hcn & ->)];
    apply initClusterName_effect in Hcn as (Ha3 & Hc3 & (name'' & Hr & Hn3') & Hn3).
  2: { done. }
  injection Hr as <-.
  assert (Hn3s : clusterName s3 = Some name) by (apply Hn3; congruence).
  assert (name' = name) as -> by congruence.
  apply bind_inv in Hrun as [([] & s4 & Hdef & Hrun)|(e & Hdef & ->)];
    apply (preserves_eq _ _ _ _ _ (initDefaults_trustCore cfg)) in Hdef;
    apply trustCore_inv in Hdef as (Ha4 & Hc4 & Hn4).
  2: { apply trustCore_intro; congruence. }
  assert (Ha4s : authorities s4 = authorities s) by congruence.
  apply bind_inv in Hrun as [([] & s5 & Hu & Hrun)|(e & Hu & ->)];
    apply initUserCA_effect in Hu as (Hc5 & Hn5 & _ & _ & Hu);
    destruct Hu as [Hru Ha5];
    try (apply (hasTLS_authorities s); [by rewrite Ha4s|done]).
  2: { done. }
  apply bind_inv in Hrun as [([] & s6 & Hh & Hrun)|(e & Hh & ->)];
    apply initHostCA_effect in Hh as (Hc6 & Hn6 & _ & _ & Hh);
    destruct Hh as [Hrh Ha6];
    try (apply (hasTLS_authorities s); [by rewrite Ha5, Ha4s|done]).
  2: { done. }
  assert (H6 : trustCore s6 = trustCore s) by (apply trustCore_intro; congruence).
  apply bind_inv in Hrun as [([] & s7 & Hmig & Hrun)|(e & Hmig & ->)];
    apply (preserves_eq _ _ _ _ _ (migrateLegacyResources_trustCore cfg)) in Hmig.
  2: { congruence. }
  rewrite <- H6, <- Hmig.
  destruct (negb (SkipPeriodicOperations cfg)); by injection Hrun as <- <-.
Qed.

(** [Init] is the locked part between taking and releasing the lock. *)
Lemma Init_inv cfg s r s' :
  Init cfg s = (r, s') ->
  (trustCore s' = trustCore s /\ isErr r = true) \/
  (exists s0 s1, trustCore s0 = trustCore s /\ initLocked cfg s0 = (r, s1) /\
                 trustCore s' = trustCore s1).
Proof.
  unfold Init. intros Hrun.
  destruct (DataDir cfg =? "")%string; [left; injection Hrun as <- <-; by split|].
  destruct (cfgHostUUID cfg =? "")%string; [left; injection Hrun as <- <-; by split|].
  apply bind_inv in Hrun as [([] & s0 & Hlock & Hrun)|(e & Hlock & ->)].
  - right. unfold AcquireLock in Hlock.
    destruct (bool_decide _); [discriminate|]. injection Hlock as <-.
    unfold mbind, M_bind, try, ReleaseLock, modify, lift in Hrun.
    destruct (initLocked cfg _) as [r1 s1] eqn:Hlocked.
    injection Hrun as <- <-. eexists _, _. split; [|split; [exact Hlocked|]]; reflexivity.
  - left. unfold AcquireLock in Hlock.
    destruct (bool_decide _); [|discriminate]. injection Hlock as <- <-. by split.
Qed.

(** A cluster id that is there is never overwritten, however the locked part
    of [Init] ends. *)
Lemma initLocked_keeps_id cfg s c r s' :
  clusterConfig s = Some c -> ClusterID c ≠ "" ->
  initLocked cfg s = (r, s') ->
  ClusterID <$> clusterConfig s' = Some (ClusterID c).
Proof.
  intros Hc Hne Hrun. unfold initLocked in Hrun.
  apply bind_inv in Hrun as [([] & s0 & Hstep & Hrun)|(e & [=] & _)].
  injection Hstep as <-.
  apply bind_inv in Hrun as [([] & s1 & Hres & Hrun)|(e & Hres & ->)];
    apply initResources_effect in Hres as (Hc1 & _); cbn in Hc1;
    [|by rewrite Hc1, Hc].
  apply bind_inv in Hrun as [([] & s2 & Hcc & Hrun)|(e & Hcc & ->)];
    apply initClusterConfig_effect in Hcc as (_ & _ & Herr & _ & Hkeep).
  2: { by rewrite (Herr e eq_refl), Hc1, Hc. }
  destruct (Hkeep c) as [_ Hc2]; [congruence|done|].
  assert (Hgoal : ClusterID <$> clusterConfig s2 = Some (ClusterID c)) by (by rewrite Hc2).
  apply bind_inv in Hrun as [(name & s3 & Hcn & Hrun)|(e & Hcn & ->)];
    apply initClusterName_effect in Hcn as (_ & Hc3 & _); rewrite <- Hc3 in Hgoal;
    [|done].
  apply bind_inv in Hrun as [([] & s4 & Hdef & Hrun)|(e & Hdef & ->)];
    apply (preserves_eq _ _ _ _ _ (initDefaults_trustCore cfg)) in Hdef;
    apply trustCore_inv in Hdef as (_ & Hc4 & _); rewrite <- Hc4 in Hgoal;
    [|done].
  apply bind_inv in Hrun as [([] & s5 & Hu & Hrun)|(e & Hu & ->)];
    apply initUserCA_effect in Hu as (Hc5 & _); rewrite <- Hc5 in Hgoal;
    [|done].
  apply bind_inv in Hrun as [([] & s6 & Hh & Hrun)|(e & Hh & ->)];
    apply initHostCA_effect in Hh as (Hc6 & _); rewrite <- Hc6 in Hgoal;
    [|done].
  apply bind_inv in Hrun as [([] & s7 & Hmig & Hrun)|(e & Hmig & ->)];
    apply (preserves_eq _ _ _ _ _ (migrateLegacyResources_trustCore cfg)) in Hmig;
    apply trustCore_inv in Hmig as (_ & Hc7 & _); rewrite <- Hc7 in Hgoal;
    [|done].
  destruct (negb (SkipPeriodicOperations cfg)); by injection Hrun as <- <-.
Qed.

(** C4. [Init] is idempotent. After a run that succeeded, a second run with
    the same configuration on the backend the first run left (whatever has
    become of the clock, the random source and the other resources, and
    however the second run ends) leaves the authorities, with the user and
    host authority of the cluster among them, the cluster config with its
    cluster id, and the cluster name as the first run left them. The first
    run left both authorities with TLS material and a cluster id; and a
    cluster id that is there before a run is the cluster id after it. *)
Theorem Init_idempotent cfg s1 s2 :
  (forall n, uuidNew n ≠ "") ->
  Init cfg s1 = (Ok (), s2) ->
  (forall s r s3,
     trustCore s = trustCore s2 ->
     Init cfg s = (r, s3) ->
     authorities s3 = authorities s2 /\
     clusterConfig s3 = clusterConfig s2 /\
     clusterName s3 = clusterName s2) /\
  (exists name id,
     clusterName s2 = Some name /\
     hasTLS s2 (UserCA, name) /\ hasTLS s2 (HostCA, name) /\
     ClusterID <$> clusterConfig s2 = Some id /\ id ≠ "") /\
  (forall s c r s3,
     clusterConfig s = Some c -> ClusterID c ≠ "" ->
     Init cfg s = (r, s3) ->
     ClusterID <$> clusterConfig s3 = Some (ClusterID c)).
Proof.
  intros Huuid Hfirst.
  assert (Hboot : bootstrapped cfg s2).
  { apply Init_inv in Hfirst as [[_ [=]]|(s0 & s1' & _ & Hlocked & Hlast)].
    apply (bootstrapped_trustCore cfg s1' s2 Hlast).
    by apply (initLocked_bootstraps cfg s0). }
  split; [|split].
  - intros s r s3 Hsame Hsecond. apply trustCore_inv. rewrite <- Hsame.
    apply Init_inv in Hsecond as [[Hkeep _]|(s0 & s1' & Hs0 & Hlocked & Hlast)]; [done|].
    rewrite Hlast, <- Hs0. apply (initLocked_again cfg s0 r s1'); [|done].
    apply (bootstrapped_trustCore cfg s2); [congruence|done].
  - destruct Hboot as ((name & Hname & Huser & Hhost) & (id & Hne & Hcfg) & _).
    exists name, id. rewrite Hcfg. by repeat split.
  - intros s c r s3 Hc Hne Hrun.
    apply Init_inv in Hrun as [[Hkeep _]|(s0 & s1' & Hs0 & Hlocked & Hlast)].
    + apply trustCore_inv in Hkeep as (_ & -> & _). by rewrite Hc.
    + apply trustCore_inv in Hs0 as (_ & Hc0 & _).
      apply trustCore_inv in Hlast as (_ & -> & _).
      apply (initLocked_keeps_id cfg s0 c r s1'); [congruence|done|done].
Qed.

(** Backfill of the host authority: the TLS key pair is generated from the
    RSA key parsed from the first SSH signing key. *)
Lemma initHostCA_backfill name s st signingKey signingKeys k keyPEM certPEM :
  authorities s !! (HostCA, name) = Some st ->
  stTLSKeyPairs st = [] ->
  stSigningKeys st = signingKey :: signingKeys ->
  ParseRawPrivateKey signingKey = Ok (RSAPrivateKey k) ->
  GenerateSelfSignedCAWithPrivateKey k (caSubject name) [] CATTL = Ok (keyPEM, certPEM) ->
  initHostCA name s =
    (Ok (), set_authorities
              (fun m => <[(HostCA, name) :=
                            withTLSKeyPairs st [{| Cert := certPEM; Key := keyPEM |}]]> m) s).
Proof.
  intros Hst Htls Hkeys Hparse Hgen. unfold initHostCA.
  unfold mbind at 1, M_bind at 1, try, GetCertAuthority. rewrite Hst.
  cbn [loaded TLSKeyPairs SigningKeys]. rewrite Htls, Hkeys. cbn [length Nat.eqb].
  unfold mbind at 1, M_bind at 1, lift. rewrite Hparse.
  unfold mbind at 1, M_bind at 1. by rewrite Hgen.
Qed.

(** Backfill of the user authority: the TLS key pair is generated from the
    next number of the random source, whatever the SSH signing keys are. *)
Lemma initUserCA_backfill name s st n rest keyPEM certPEM :
  authorities s !! (UserCA, name) = Some st ->
  stTLSKeyPairs st = [] ->
  entropy s = n :: rest ->
  GenerateSelfSignedCA n (caSubject name) [] CATTL = Ok (keyPEM, certPEM) ->
  initUserCA name s =
    (Ok (), set_authorities
              (fun m => <[(UserCA, name) :=
                            withTLSKeyPairs st [{| Cert := certPEM; Key := keyPEM |}]]> m)
              (set_entropy (fun _ => rest) s)).
Proof.
  intros Hst Htls Hentropy Hgen. unfold initUserCA.
  unfold mbind at 1, M_bind at 1, try, GetCertAuthority. rewrite Hst.
  cbn [loaded TLSKeyPairs]. rewrite Htls. cbn [length Nat.eqb].
  unfold mbind at 1, M_bind at 1, draw. rewrite Hentropy.
  unfold mbind at 1, M_bind at 1, lift. by rewrite Hgen.
Qed.

End BootstrapFacts.

Section BootstrapExamples.
#[local] Existing Instance Scenario.constants.
#[local] Existing Instance Scenario.crypto.
#[local] Existing Instance Scenario.services.
#[local] Existing Instance Scenario.fileSystem.

(** C1, on the backend of a cluster whose user and host authorities each
    hold one SSH signing key and no TLS key pair: [Init] succeeds and each
    authority then has exactly one TLS key pair. The private key of the host
    authority's pair is the key material of its SSH signing key (3); the
    private key of the user authority's pair is a newly generated key (12),
    not the key material of its SSH signing key (5). *)
Theorem Init_backfills_user_authority_with_new_key :
  exists s' user host userPair hostPair,
    Init Scenario.initConfig Scenario.legacyServer = (Ok (), s') /\
    authorities s' !! (UserCA, "example.com") = Some user /\
    stSigningKeys user = ["RSA PRIVATE KEY kkkkk"] /\
    stTLSKeyPairs user = [userPair] /\
    ParseRawPrivateKey "RSA PRIVATE KEY kkkkk" = Ok (RSAPrivateKey 5) /\
    ParsePrivateKeyPEM (Key userPair) = Ok 12%N /\
    authorities s' !! (HostCA, "example.com") = Some host /\
    stSigningKeys host = ["RSA PRIVATE KEY kkk"] /\
    stTLSKeyPairs host = [hostPair] /\
    ParseRawPrivateKey "RSA PRIVATE KEY kkk" = Ok (RSAPrivateKey 3) /\
    ParsePrivateKeyPEM (Key hostPair) = Ok 3%N.
Proof.
  eexists _, _, _, _, _.
  split; [vm_compute; reflexivity|].
  repeat split; vm_compute; reflexivity.
Qed.

(** Two runs of [Init] on a backend that was never used. *)
Lemma Init_idempotent_witness :
  exists s2 s3,
    Init Scenario.initConfig Scenario.freshServer = (Ok (), s2) /\
    Init Scenario.initConfig s2 = (Ok (), s3) /\
    authorities s3 = authorities s2 /\
    clusterConfig s3 = clusterConfig s2 /\
    clusterName s3 = clusterName s2.
Proof.
  pose (s2 := (Init Scenario.initConfig Scenario.freshServer).2).
  pose (s3 := (Init Scenario.initConfig s2).2).
  assert (Hfirst : Init Scenario.initConfig Scenario.freshServer = (Ok (), s2))
    by (vm_compute; reflexivity).
  assert (Hsecond : Init Scenario.initConfig s2 = (Ok (), s3))
    by (vm_compute; reflexivity).
  exists s2, s3. split; [exact Hfirst|]. split; [exact Hsecond|].
  refine (proj1 (Init_idempotent Scenario.initConfig Scenario.freshServer s2 _ Hfirst)
            s2 (Ok ()) s3 eq_refl Hsecond).
  intros n. discriminate.
Defined.

End BootstrapExamples.

(* ===================================================================== *)
(** * The client cache and the pending authentication requests *)
(* ===================================================================== *)

Section ClientCacheFacts.
Context `{!Constants} `{!External}.


End ClientCacheFacts.

Section AuthRequestFacts.
Context `{!Constants} `{!External} `{!AuthRequestLib}.


End AuthRequestFacts.

Section AuthRequestExamples.
#[local] Existing Instance Scenario.constants.
#[local] Existing Instance Scenario.authRequestLib.



End AuthRequestExamples.

(* ===================================================================== *)
(** * What a callback leaves behind *)
(* ===================================================================== *)

Section CallbackOutcomeFacts.
Context `{!Constants} `{!External}.

Lemma ValidateOIDCAuthCallback_Err q s e s1 :
  validateOIDCAuthCallback q s = (Err e, s1) ->
  ValidateOIDCAuthCallback q s = (Err e, set_auditLog (fun l => l ++ [loginFailed e]) s1).
Proof.
  intros Hrun. unfold ValidateOIDCAuthCallback, mbind, M_bind, try. by rewrite Hrun.
Qed.

(** X3. A callback that carries an [error] parameter, or no [code], or no
    [state], is rejected as an invalid OAuth2 request: nothing is read from
    the backend and nothing is sent to the provider; the only effect is the
    audit event of the failed login attempt. *)
Theorem ValidateOIDCAuthCallback_malformed q s :
  urlGet q "error" ≠ "" \/ urlGet q "code" = "" \/ urlGet q "state" = "" ->
  exists msg,
    ValidateOIDCAuthCallback q s =
      (Err (OAuth2 "invalid_request" msg),
       set_auditLog (fun l => l ++ [loginFailed (OAuth2 "invalid_request" msg)]) s).
Proof.
  intros Hq.
  assert (exists msg, validateOIDCAuthCallback q s = (Err (OAuth2 "invalid_request" msg), s))
    as [msg Hrun]; [|exists msg; by apply ValidateOIDCAuthCallback_Err].
  unfold validateOIDCAuthCallback.
  destruct (String.eqb_spec (urlGet q "error") "") as [He|He]; cbn [negb]; [|by eexists].
  destruct (String.eqb_spec (urlGet q "code") "") as [Hc|Hc]; [by eexists|].
  destruct (String.eqb_spec (urlGet q "state") "") as [Hs|Hs]; [by eexists|].
  by destruct Hq as [?|[?|?]].
Qed.

(** X4. A callback whose [state] matches no pending authentication request
    fails, whatever else it carries, with NotFound or as an invalid request;
    the server is left as it was (no client is built, no request is sent, no
    user is written) but for the audit event of the failed attempt. *)
Theorem ValidateOIDCAuthCallback_unknown_state q s :
  oidcAuthRequests s !! urlGet q "state" = None ->
  exists e,
    ValidateOIDCAuthCallback q s = (Err e, set_auditLog (fun l => l ++ [loginFailed e]) s) /\
    (IsNotFound e = true \/ exists msg, e = OAuth2 "invalid_request" msg).
Proof.
  intros Hstate.
  assert (exists e, validateOIDCAuthCallback q s = (Err e, s) /\
            (IsNotFound e = true \/ exists msg, e = OAuth2 "invalid_request" msg))
    as (e & Hrun & He); [|exists e; split; [by apply ValidateOIDCAuthCallback_Err|done]].
  unfold validateOIDCAuthCallback.
  destruct (negb (urlGet q "error" =? "")%string); [eexists; split; [done|right; by eexists]|].
  destruct (urlGet q "code" =? "")%string; [eexists; split; [done|right; by eexists]|].
  destruct (urlGet q "state" =? "")%string; [eexists; split; [done|right; by eexists]|].
  unfold mbind at 1, M_bind at 1, GetClusterName.
  destruct (clusterName s); [|eexists; split; [done|by left]].
  unfold mbind at 1, M_bind at 1, GetOIDCAuthRequest. rewrite Hstate.
  eexists; split; [done|by left].
Qed.

(** X5. The response of a callback that does not resolve the user
    ([CheckUser] unset): it names the connector and the federated email and
    echoes the request, and holds no user name, no session, no certificate
    and no host authority; no web session is stored. *)
Theorem validateClaims_without_user cn req conn claims s re s' :
  CheckUser req = false ->
  validateClaims cn req conn claims s = (Ok re, s') ->
  exists ident,
    IdentityFromClaims claims = Ok ident /\
    re = {| respUsername := "";
            respIdentity := {| ConnectorID := GetName conn; Username := Email ident |};
            Session := None; respCert := ""; respTLSCert := "";
            Req := req; HostSigners := [] |} /\
    webSessions s' = webSessions s.
Proof.
  intros Hcheck Hrun. unfold validateClaims in Hrun.
  apply bind_Ok_inv in Hrun as (? & s1 & Hacr & Hrun).
  assert (s1 = s) as ->.
  { destruct (negb (GetACR conn =? "")%string); unfold lift in Hacr; cbn in Hacr;
      by inversion Hacr. }
  destruct (IdentityFromClaims claims) as [ident|] eqn:Hident; [|discriminate].
  apply bind_Ok_inv in Hrun as (? & s2 & Hcreate & Hrun).
  rewrite Hcheck in Hrun. injection Hrun as <- <-.
  exists ident. split; [done|]. split; [done|].
  destruct (negb (length (GetClaimsToRoles conn) =? 0)%nat).
  - assert (Hpres : preserves webSessions (createOIDCUser conn ident claims)).
    { unfold createOIDCUser, UpsertUser. pres. }
    apply (preserves_eq _ _ _ _ _ Hpres Hcreate).
  - by inversion Hcreate.
Qed.

(** X6. A connector without claim-to-role mappings never provisions: however
    the rest of the callback goes, the user store is left as it is. *)
Theorem validateClaims_no_mapping cn req conn claims s r s' :
  GetClaimsToRoles conn = [] ->
  validateClaims cn req conn claims s = (r, s') ->
  users s' = users s.
Proof.
  intros Hmap Hrun.
  assert (Hpres : preserves users (validateClaims cn req conn claims)).
  { unfold validateClaims. rewrite Hmap. cbn [length Nat.eqb negb].
    unfold UpsertWebSession. pres. }
  apply (preserves_eq _ _ _ _ _ Hpres Hrun).
Qed.


End CallbackOutcomeFacts.

Section CallbackOutcomeExamples.
#[local] Existing Instance Scenario.constants.

Lemma ValidateOIDCAuthCallback_malformed_witness :
  let E : External := Scenario.external None None Scenario.noPages in
  let q : gmap string (list string) := {[ "state" := ["state-1"] ]} in
  exists msg,
    ValidateOIDCAuthCallback q Scenario.server =
      (Err (OAuth2 "invalid_request" msg),
       set_auditLog (fun l => l ++ [loginFailed (OAuth2 "invalid_request" msg)])
         Scenario.server).
Proof.
  intros E q. apply (ValidateOIDCAuthCallback_malformed q Scenario.server).
  right. left. reflexivity.
Defined.

Lemma ValidateOIDCAuthCallback_unknown_state_witness :
  let E : External := Scenario.external None None Scenario.noPages in
  let q : gmap string (list string) := {[ "code" := ["code-1"]; "state" := ["state-9"] ]} in
  exists e,
    ValidateOIDCAuthCallback q Scenario.server =
      (Err e, set_auditLog (fun l => l ++ [loginFailed e]) Scenario.server) /\
    (IsNotFound e = true \/ exists msg, e = OAuth2 "invalid_request" msg).
Proof.
  intros E q. apply (ValidateOIDCAuthCallback_unknown_state q Scenario.server).
  vm_compute. reflexivity.
Defined.

Lemma validateClaims_without_user_witness :
  let E : External := Scenario.external None None Scenario.noPages in
  let conn := Scenario.connector Scenario.fooMapping in
  exists re s',
    validateClaims "example.com" Scenario.identityRequest conn (Scenario.fooClaims "A")
      Scenario.server = (Ok re, s') /\
    respIdentity re = {| ConnectorID := "oidcService"; Username := "foo@example.com" |} /\
    Session re = None /\ respCert re = "" /\ webSessions s' = ∅.
Proof.
  intros E conn.
  assert (Hrun : exists re s',
    validateClaims "example.com" Scenario.identityRequest conn (Scenario.fooClaims "A")
      Scenario.server = (Ok re, s')).
  { eexists _, _. vm_compute. reflexivity. }
  destruct Hrun as (re & s' & Hrun).
  destruct (validateClaims_without_user "example.com" Scenario.identityRequest conn
              (Scenario.fooClaims "A") Scenario.server re s' eq_refl Hrun)
    as (ident & Hident & Hre & Hweb).
  exists re, s'. split; [exact Hrun|].
  assert (Hi : IdentityFromClaims (Scenario.fooClaims "A") = Ok Scenario.fooIdentity)
    by (vm_compute; reflexivity).
  rewrite Hi in Hident. injection Hident as <-. rewrite Hre.
  split; [reflexivity|]. split; [reflexivity|]. split; [reflexivity|]. exact Hweb.
Defined.

Lemma validateClaims_no_mapping_witness :
  let E : External := Scenario.external None None Scenario.noPages in
  exists r s',
    validateClaims "example.com" Scenario.request (Scenario.connector [])
      (Scenario.fooClaims "A") Scenario.server = (r, s') /\
    isErr r = true /\ users s' = ∅.
Proof.
  intros E.
  assert (Hrun : exists r s',
    validateClaims "example.com" Scenario.request (Scenario.connector [])
      (Scenario.fooClaims "A") Scenario.server = (r, s') /\ isErr r = true).
  { eexists _, _. split; vm_compute; reflexivity. }
  destruct Hrun as (r & s' & Hrun & Herr). exists r, s'.
  split; [exact Hrun|]. split; [exact Herr|].
  exact (validateClaims_no_mapping "example.com" Scenario.request (Scenario.connector [])
           (Scenario.fooClaims "A") Scenario.server r s' eq_refl Hrun).
Defined.


End CallbackOutcomeExamples.

(* ===================================================================== *)
(** * Claims: traits, provisioning, sources and ACR values *)
(* ===================================================================== *)

Section ClaimFacts.
Context `{!Constants} `{!External}.

(** X8. The traits [claimsToTraitMap] derives from the claims: a string
    claim gives a trait with that one value, a claim that is a list of
    strings a trait with these values, and a claim of any other type (a
    number, a boolean, an object, a list with an element that is not a
    string) gives no trait. *)
Theorem claimsToTraitMap_lookup claims name :
  claimsToTraitMap claims !! name =
    match claim claims name with
    | Some (VString v) => Some [v]
    | Some (VStrings l) => Some l
    | Some (VArray l) => stringsOfArray l
    | _ => None
    end.
Proof.
  unfold claimsToTraitMap. rewrite lookup_omap, map_lookup_imap.
  unfold StringClaim, StringsClaim, claim.
  destruct (entries claims !! name) as [v|] eqn:Hv; cbn; [|done].
  destruct v as [| | | | |l|]; cbn; try done.
  by destruct (stringsOfArray l).
Qed.

(** X9. [createOIDCUser] writes all or nothing. When it fails the server is
    as it was before the call. When it succeeds a role was mapped from the
    claims, any unexpired user of that email was created by a connector,
    and the only change is the one user record, stored under its name: the
    record generated from the federated email, the mapped roles, the traits
    of the claims and the expiry of the identity. *)
Theorem createOIDCUser_outcome connector ident claims s r s' :
  createOIDCUser connector ident claims s = (r, s') ->
  match r with
  | Err _ => s' = s
  | Ok _ =>
      MapClaims connector claims ≠ [] /\
      (forall existing, GetUser (Email ident) s = (Ok existing, s) ->
                        Connector (GetCreatedBy existing) ≠ None) /\
      exists user,
        GenerateUser (oidcUser connector ident (MapClaims connector claims)
                        (claimsToTraitMap claims) (clock s)) = Ok user /\
        s' = set_users (fun m => <[userName user := storedUser user]> m) s
  end.
Proof.
  unfold createOIDCUser, buildOIDCRoles. intros Hrun.
  destruct (MapClaims connector claims) as [|role roles_] eqn:Hmap; cbn in Hrun.
  { by injection Hrun as <- <-. }
  unfold mbind at 1, M_bind at 1 in Hrun. cbn in Hrun.
  unfold mbind at 1, M_bind at 1 in Hrun. cbn in Hrun.
  unfold mbind at 1, M_bind at 1 in Hrun. unfold lift in Hrun.
  destruct (GenerateUser _) as [user|e] eqn:Hgen; [|by injection Hrun as <- <-].
  unfold mbind at 1, M_bind at 1, try in Hrun.
  destruct (GetUser (Email ident) s) as [[existing|e] s1] eqn:Hget;
    pose proof (readonly_inv _ _ _ _ (readonly_GetUser _) Hget) as ->.
  - unfold mbind at 1, M_bind at 1 in Hrun. cbn in Hrun.
    unfold mbind at 1, M_bind at 1 in Hrun.
    destruct (Connector (GetCreatedBy existing)) eqn:Hconn; cbn in Hrun;
      injection Hrun as <- <-; [|done].
    split; [done|]. split; [|by exists user].
    intros ? [= <-]. by rewrite Hconn.
  - unfold mbind at 1, M_bind at 1 in Hrun.
    destruct (negb (IsNotFound e)); cbn in Hrun; injection Hrun as <- <-; [done|].
    split; [done|]. split; [intros ? [=]|by exists user].
Qed.

(** X10. The test of [createOIDCUser]: for claims that map to a role and a
    federated email that no user has, with a marshaler that returns the user
    record as it is, the call provisions the user; the user is then found
    under the email as long as the identity has not expired, and is gone
    once the clock has reached the expiry of the identity. *)
Theorem createOIDCUser_user_expires connector ident claims s :
  let user := oidcUser connector ident (MapClaims connector claims)
                (claimsToTraitMap claims) (clock s) in
  MapClaims connector claims ≠ [] ->
  GenerateUser user = Ok user ->
  users s !! Email ident = None ->
  exists s',
    createOIDCUser connector ident claims s = (Ok (), s') /\
    forall now,
      let later := set_clock (fun _ => now) s' in
      (now < ExpiresAt ident -> GetUser (Email ident) later = (Ok user, later)) /\
      (ExpiresAt ident ≠ 0 -> ExpiresAt ident <= now ->
       exists msg, GetUser (Email ident) later = (Err (NotFound msg), later)).
Proof.
  intros user Hmap Hgen Hnew.
  exists (set_users (fun m => <[userName user := storedUser user]> m) s). split.
  - unfold createOIDCUser, buildOIDCRoles.
    destruct (MapClaims connector claims) as [|role roles_] eqn:Hroles; [done|].
    cbn [length Nat.eqb].
    unfold mbind at 1, M_bind at 1. cbn [lift].
    unfold mbind at 1, M_bind at 1. cbn [get].
    unfold mbind at 1, M_bind at 1. fold user. rewrite Hgen. cbn [lift].
    unfold mbind at 1, M_bind at 1, try, GetUser. rewrite Hnew.
    unfold mbind at 1, M_bind at 1. cbn [IsNotFound negb mret M_ret].
    unfold mbind at 1, M_bind at 1. reflexivity.
  - intros now later. unfold later, GetUser, expired. cbn.
    rewrite lookup_insert_eq. cbn. split.
    + intros Hlt. replace (ExpiresAt ident <=? now) with false by (symmetry; apply Z.leb_gt; lia).
      by rewrite andb_false_r.
    + intros Hne Hle. apply Z.eqb_neq in Hne. apply Z.leb_le in Hle. rewrite Hne, Hle.
      by eexists.
Qed.


(** X12. The nil map as the target of [mergeClaims]: merging an empty claim
    set into it returns it as it is, and merging anything else panics on the
    first assignment. *)
Theorem mergeClaims_nil b :
  (entries b = ∅ -> mergeClaims None b = Ok None) /\
  (entries b ≠ ∅ ->
   mergeClaims None b = Err (RuntimePanic "assignment to entry in nil map")).
Proof.
  unfold mergeClaims.
  apply (map_fold_weak_ind (fun r (m : gmap string Value) =>
    (m = ∅ -> r = Ok None) /\
    (m ≠ ∅ -> r = Err (RuntimePanic "assignment to entry in nil map")))).
  - by split.
  - intros k v m r Hk [Hempty Hfull]. split.
    + intros Hins. by apply insert_non_empty in Hins.
    + intros _. destruct (decide (m = ∅)) as [Hm|Hm].
      * by rewrite (Hempty Hm).
      * by rewrite (Hfull Hm).
Qed.

(** X15. [validateACRValues] for a provider other than NetIQ: the check passes
    exactly when the claim [acr] is a string equal to the value asked for. *)
Theorem validateACRValues_default acrValue identityProvider claims :
  identityProvider ≠ NetIQ ->
  validateACRValues acrValue identityProvider claims = Ok () <->
  claim claims "acr" = Some (VString acrValue).
Proof.
  intros Hp. apply String.eqb_neq in Hp. unfold validateACRValues, StringClaim. rewrite Hp.
  destruct (claim claims "acr") as [[]|]; cbn; try (split; intros; discriminate).
  match goal with |- context [(?a =? ?b)%string] => destruct (String.eqb_spec a b) end;
    cbn; split; intros; congruence.
Qed.

(** X16. [validateACRValues] for NetIQ: the check passes exactly when the
    claim [acr] is an object whose [values] is a list that holds the value
    asked for as a string. *)
Theorem validateACRValues_NetIQ acrValue claims :
  validateACRValues acrValue NetIQ claims = Ok () <->
  exists tokenAcrMap tokenAcrValues,
    claim claims "acr" = Some (VObject tokenAcrMap) /\
    tokenAcrMap !! "values" = Some (VArray tokenAcrValues) /\
    VString acrValue ∈ tokenAcrValues.
Proof.
  unfold validateACRValues. rewrite String.eqb_refl.
  destruct (claim claims "acr") as [[| | | | | |m]|];
    try (split; [discriminate|intros (? & ? & ? & _); discriminate]).
  destruct (m !! "values") as [[| | | | |l|]|] eqn:Hvalues;
    try (split; [discriminate|intros (? & ? & [= <-] & ? & _); congruence]).
  destruct (existsb _ l) eqn:Hex; cbn.
  - split; [intros _|done]. exists m, l. split; [done|]. split; [done|].
    apply existsb_exists in Hex as (v & Hin & Hv). destruct v; try done.
    apply String.eqb_eq in Hv as ->. by apply list_elem_of_In.
  - split; [discriminate|]. intros (m' & l' & [= <-] & Hl & Hin).
    assert (l' = l) as -> by congruence.
    assert (existsb (fun v => match v with VString vv => (acrValue =? vv)%string | _ => false end) l
            = true); [|congruence].
    apply existsb_exists. exists (VString acrValue). split; [by apply list_elem_of_In|].
    apply String.eqb_refl.
Qed.

End ClaimFacts.

Section ClaimExamples.
#[local] Existing Instance Scenario.constants.

Lemma createOIDCUser_outcome_witness :
  let E : External := Scenario.external None None Scenario.noPages in
  let conn := Scenario.connector Scenario.fooMapping in
  exists s' user,
    createOIDCUser conn Scenario.fooIdentity (Scenario.fooClaims "A") Scenario.server
      = (Ok (), s') /\
    s' = set_users (fun m => <[userName user := storedUser user]> m) Scenario.server /\
    userRoles user = ["admin"].
Proof.
  intros E conn.
  assert (Hrun : exists s',
    createOIDCUser conn Scenario.fooIdentity (Scenario.fooClaims "A") Scenario.server
      = (Ok (), s')).
  { eexists. vm_compute. reflexivity. }
  destruct Hrun as (s' & Hrun).
  destruct (createOIDCUser_outcome conn Scenario.fooIdentity (Scenario.fooClaims "A")
              Scenario.server (Ok ()) s' Hrun) as (_ & _ & user & Hgen & Hs').
  exists s', user. split; [exact Hrun|]. split; [exact Hs'|].
  injection Hgen as <-. vm_compute. reflexivity.
Defined.

(** The test: the identity expires in one minute; the user is there now
    and gone two minutes later. *)
Lemma createOIDCUser_user_expires_witness :
  let E : External := Scenario.external None None Scenario.noPages in
  let conn := Scenario.connector Scenario.fooMapping in
  exists s' user,
    createOIDCUser conn Scenario.fooIdentity (Scenario.fooClaims "A") Scenario.server
      = (Ok (), s') /\
    GetUser "foo@example.com" s' = (Ok user, s') /\
    let later := set_clock (fun _ => Scenario.now + 2 * Minute) s' in
    exists msg, GetUser "foo@example.com" later = (Err (NotFound msg), later).
Proof.
  intros E conn.
  destruct (createOIDCUser_user_expires conn Scenario.fooIdentity (Scenario.fooClaims "A")
              Scenario.server) as (s' & Hrun & Hget).
  - vm_compute. discriminate.
  - reflexivity.
  - reflexivity.
  - exists s'. eexists. split; [exact Hrun|]. split.
    + destruct (Hget Scenario.now) as [Hfound _].
      assert (Hs : set_clock (fun _ => Scenario.now) s' = s').
      { assert (Hc : clock s' = Scenario.now).
        { apply (preserves_eq clock _ _ _ _ (createOIDCUser_clock _ _ _) Hrun). }
        destruct s'. cbn in *. by rewrite Hc. }
      rewrite Hs in Hfound. apply Hfound. vm_compute. reflexivity.
    + intros later. apply (proj2 (Hget (Scenario.now + 2 * Minute))).
      * vm_compute. discriminate.
      * vm_compute. discriminate.
Defined.


(** Nothing to merge, and one claim to merge, into the nil map. *)
Lemma mergeClaims_nil_witness :
  mergeClaims None None = Ok None /\
  mergeClaims None (Some {[ "groups" := VStrings ["admins"] ]})
    = Err (RuntimePanic "assignment to entry in nil map").
Proof.
  split.
  - apply (proj1 (mergeClaims_nil None)). reflexivity.
  - apply (proj2 (mergeClaims_nil (Some {[ "groups" := VStrings ["admins"] ]}))).
    apply (insert_non_empty (M := gmap string)).
Defined.

Lemma validateACRValues_default_witness :
  let E : External := Scenario.external None None Scenario.noPages in
  validateACRValues "gold" "" (Some {[ "acr" := VString "gold" ]}) = Ok () /\
  validateACRValues "gold" "" (Some {[ "acr" := VString "silver" ]}) ≠ Ok ().
Proof.
  intros E. split.
  - apply (validateACRValues_default "gold" "" (Some {[ "acr" := VString "gold" ]})).
    + discriminate.
    + reflexivity.
  - intros Hok.
    apply (validateACRValues_default "gold" "" (Some {[ "acr" := VString "silver" ]})) in Hok.
    + revert Hok. vm_compute. discriminate.
    + discriminate.
Defined.

End ClaimExamples.

(* ===================================================================== *)
(** * Paging within the cap *)
(* ===================================================================== *)

Section PageFacts.
Context `{!Constants} `{!External}.

Lemma collect_pages ps : forall fuel g count gs token s last,
  (length ps < fuel)%nat ->
  count + Z.of_nat (length ps) <= MaxPages ->
  Forall (fun p => NextPageToken p ≠ "") ps ->
  NextPageToken last = "" ->
  servesPages g token s (ps ++ [last]) ->
  exists s',
    collect fuel g count gs token s =
      (Ok (Some (gs ++ concat (map groups (ps ++ [last])))), s') /\
    httpCalls s' = (httpCalls s + S (length ps))%nat /\
    auditLog s' = auditLog s.
Proof.
  induction ps as [|p ps IH]; intros fuel g count gs token s last Hfuel Hcount Hne Hlast Hserve.
  - destruct fuel as [|fuel]; [cbn in Hfuel; lia|]. cbn in Hserve. destruct Hserve as [Hpage _].
    cbn [collect]. cbn in Hcount.
    replace (count >? MaxPages) with false by (symmetry; rewrite Z.gtb_ltb; apply Z.ltb_ge; lia).
    unfold mbind at 1, M_bind at 1. rewrite Hpage. rewrite Hlast. cbn.
    eexists. split; [by rewrite app_nil_r|]. cbn. split; [lia|done].
  - destruct fuel as [|fuel]; [cbn in Hfuel; lia|]. cbn in Hserve. destruct Hserve as [Hpage Hserve].
    cbn [collect]. cbn [length] in Hcount, Hfuel.
    replace (count >? MaxPages) with false by (symmetry; rewrite Z.gtb_ltb; apply Z.ltb_ge; lia).
    unfold mbind at 1, M_bind at 1. rewrite Hpage.
    inversion Hne as [|? ? Hp Hps]; subst.
    apply String.eqb_neq in Hp. rewrite Hp.
    destruct (IH fuel g (count + 1) (gs ++ groups p) (NextPageToken p) (set_httpCalls S s) last)
      as (s' & Hrun & Hcalls & Hlog); [lia|lia|done|done|done|].
    exists s'. split; [|split].
    + rewrite Hrun. cbn. by rewrite <- app_assoc.
    + rewrite Hcalls. cbn. lia.
    + by rewrite Hlog.
Qed.

(** X13. When the groups API serves a last page within the first
    [MaxPages + 1] pages, [fetchGroups] returns the groups of all the pages,
    in the order of the pages, as the claim [groups]; it sends one request
    per page and emits no audit event. *)
Theorem fetchGroups_collects_pages g s ps last :
  Z.of_nat (length ps) <= MaxPages ->
  Forall (fun p => NextPageToken p ≠ "") ps ->
  NextPageToken last = "" ->
  servesPages g "" s (ps ++ [last]) ->
  exists s',
    fetchGroups g s = (Ok (groupsClaims (concat (map groups (ps ++ [last])))), s') /\
    httpCalls s' = (httpCalls s + S (length ps))%nat /\
    auditLog s' = auditLog s.
Proof.
  intros Hlen Hne Hlast Hserve.
  destruct (collect_pages ps enoughFuel g 0 [] "" s last) as (s' & Hrun & Hrest);
    [unfold enoughFuel; lia|lia|done..|].
  exists s'. split; [|done].
  unfold fetchGroups, fetchGroupsFuel, mbind, M_bind. by rewrite Hrun.
Qed.

(** Fuel beyond what the loop needs changes nothing, and the audit log gets
    at most the truncation event. *)
Lemma collect_fuel fuel : forall fuel' g count gs token s,
  (Z.to_nat (MaxPages + 1 - count) < fuel)%nat ->
  (Z.to_nat (MaxPages + 1 - count) < fuel')%nat ->
  collect fuel' g count gs token s = collect fuel g count gs token s /\
  (auditLog (collect fuel g count gs token s).2 = auditLog s \/
   auditLog (collect fuel g count gs token s).2 = auditLog s ++ [truncationEvent]).
Proof.
  induction fuel as [|fuel IH]; intros fuel' g count gs token s Hfuel Hfuel'; [lia|].
  destruct fuel' as [|fuel']; [lia|]. cbn [collect].
  destruct (count >? MaxPages) eqn:Hcount.
  - split; [done|]. by right.
  - rewrite Z.gtb_ltb in Hcount. apply Z.ltb_ge in Hcount.
    unfold mbind, M_bind.
    destruct (fetchGroupsPage g token s) as [[response|e] s1] eqn:Hpage;
      apply fetchGroupsPage_effect in Hpage as [_ Hlog]; [|split; [done|by left]].
    destruct (NextPageToken response =? "")%string; [split; [done|by left]|].
    destruct (IH fuel' g (count + 1) (gs ++ groups response) (NextPageToken response) s1)
      as [-> Hlog']; [lia|lia|].
    split; [done|]. by rewrite <- Hlog.
Qed.

(** X14. [fetchGroups] always returns: the loop ends within [MaxPages + 2]
    iterations whatever the groups API answers, so that more iterations make
    no difference to the result; at most [MaxPages + 1] requests are sent and
    the audit log is left alone or gets the one truncation event. *)
Theorem fetchGroups_bounded g s fuel :
  (enoughFuel <= fuel)%nat ->
  exists r s',
    fetchGroups g s = (r, s') /\
    fetchGroupsFuel fuel g s = (c ← r; Ok (Some c), s') /\
    (httpCalls s' <= httpCalls s + Z.to_nat (MaxPages + 1))%nat /\
    (auditLog s' = auditLog s \/ auditLog s' = auditLog s ++ [truncationEvent]).
Proof.
  intros Hfuel.
  destruct (collect_fuel enoughFuel fuel g 0 [] "" s) as [Hsame Hlog];
    [unfold enoughFuel; lia|unfold enoughFuel in Hfuel; lia|].
  destruct (collect enoughFuel g 0 [] "" s) as [r s'] eqn:Hrun.
  pose proof Hrun as Hbound.
  apply collect_bound in Hbound as [Hr Hcalls]; [|unfold enoughFuel; lia].
  rewrite Z.sub_0_r in Hcalls. cbn in Hlog.
  unfold fetchGroups, fetchGroupsFuel, mbind, M_bind. rewrite Hsame, Hrun.
  destruct r as [[gs|]|e]; [|done|]; eexists _, _; (split; [reflexivity|]); by repeat split.
Qed.

End PageFacts.

Section PageExamples.
#[local] Existing Instance Scenario.constants.

(** Two pages: both groups are returned, after two requests. *)
Lemma fetchGroups_collects_pages_witness :
  let E : External := Scenario.external None None Scenario.twoPages in
  let g := {| url := GSuiteGroupsEndpoint; userEmail := "foo@example.com";
              accessToken := "access-token" |} in
  exists s',
    fetchGroups g Scenario.server =
      (Ok (groupsClaims ["group-next@example.com"; "group-@example.com"]), s') /\
    httpCalls s' = 2%nat /\ auditLog s' = [].
Proof.
  intros E g.
  apply (fetchGroups_collects_pages g Scenario.server
           [{| NextPageToken := "next";
               gGroups := [{| gEmail := "group-next@example.com" |}] |}]
           {| NextPageToken := "";
              gGroups := [{| gEmail := "group-@example.com" |}] |}).
  - vm_compute. discriminate.
  - repeat constructor. discriminate.
  - reflexivity.
  - repeat split; vm_compute; reflexivity.
Defined.

(** Ten times the fuel: the same claims as [fetchGroups]. *)
Lemma fetchGroups_bounded_witness :
  let E : External := Scenario.external None None Scenario.twoPages in
  let g := {| url := GSuiteGroupsEndpoint; userEmail := "foo@example.com";
              accessToken := "access-token" |} in
  exists r s',
    fetchGroups g Scenario.server = (r, s') /\
    fetchGroupsFuel 1010 g Scenario.server = (c ← r; Ok (Some c), s') /\
    (httpCalls s' <= 100)%nat.
Proof.
  intros E g.
  destruct (fetchGroups_bounded g Scenario.server 1010) as (r & s' & Hrun & Hfuel & Hcalls & _).
  - vm_compute. lia.
  - exists r, s'. split; [exact Hrun|]. split; [exact Hfuel|]. exact Hcalls.
Defined.

End PageExamples.

(* ===================================================================== *)
(** * Bootstrap: the lock, the cluster name and the keys of the authorities *)
(* ===================================================================== *)

Section InitOutcomeFacts.
Context `{!Constants} `{!Crypto} `{!Services} `{!FileSystem}.

Lemma initLocked_locks cfg : preserves locks (initLocked cfg).
Proof.
  unfold initLocked, initResources, createAuthority, initClusterConfig, initClusterName,
    initDefaults, initUserCA, initHostCA, migrateLegacyResources, migrateUsers,
    migrateRemoteClusters, migrateIdentities, migrateIdentity, migrateAdminRole,
    readIdentityCompat, removeIdentityCompat, readOptional,
    UpsertCertAuthority, CreateCertAuthority, SetClusterConfig, SetClusterName.
  pres'.
Qed.

(** X17. [Init] and its lock. However the call ends, the set of held locks is
    what it was before: the lock of the cluster is released on every path,
    and no other lock is touched. A configuration with an empty data
    directory or an empty host UUID, or a lock that is held already, makes
    the call fail with the server left exactly as it was. *)
Theorem Init_releases_lock cfg s r s' :
  Init cfg s = (r, s') ->
  locks s' = locks s /\
  (DataDir cfg = "" \/ cfgHostUUID cfg = "" \/ cfgClusterName cfg ∈ locks s ->
   isErr r = true /\ s' = s).
Proof.
  unfold Init. intros Hrun.
  destruct (String.eqb_spec (DataDir cfg) "") as [Hd|Hd].
  { injection Hrun as <- <-. by split. }
  destruct (String.eqb_spec (cfgHostUUID cfg) "") as [Hh|Hh].
  { injection Hrun as <- <-. by split. }
  unfold mbind at 1, M_bind at 1, AcquireLock in Hrun.
  destruct (decide (cfgClusterName cfg ∈ locks s)) as [Hin|Hout].
  - rewrite bool_decide_eq_true_2 in Hrun by done. injection Hrun as <- <-. by split.
  - rewrite bool_decide_eq_false_2 in Hrun by done.
    unfold mbind, M_bind, try, ReleaseLock, modify, lift in Hrun.
    destruct (initLocked cfg _) as [r1 s1] eqn:Hlocked. injection Hrun as <- <-.
    split; [|by intros [?|[?|?]]].
    apply (preserves_eq _ _ _ _ _ (initLocked_locks cfg)) in Hlocked.
    cbn in Hlocked. cbn. rewrite Hlocked. apply set_eq. intros name.
    rewrite elem_of_difference, elem_of_union, elem_of_singleton. split.
    + intros [[->|Hname] Hne]; done.
    + intros Hname. split; [by right|]. by intros ->.
Qed.

Lemma initLocked_cluster_name cfg s cn r s' :
  clusterName s = Some cn ->
  initLocked cfg s = (r, s') ->
  clusterName s' = Some cn /\
  (r = Ok () -> hasTLS s' (UserCA, cn) /\ hasTLS s' (HostCA, cn)).
Proof.
  intros Hcn Hrun. unfold initLocked in Hrun.
  apply bind_inv in Hrun as [([] & s0 & Hstep & Hrun)|(e & [=] & _)].
  injection Hstep as <-.
  apply bind_inv in Hrun as [([] & s1 & Hres & Hrun)|(e & Hres & ->)];
    apply initResources_effect in Hres as (_ & Hn1 & _); cbn in Hn1;
    rewrite <- Hn1 in Hcn; [|by split].
  apply bind_inv in Hrun as [([] & s2 & Hcc & Hrun)|(e & Hcc & ->)];
    apply initClusterConfig_effect in Hcc as (_ & Hn2 & _);
    rewrite <- Hn2 in Hcn; [|by split].
  apply bind_inv in Hrun as [(name & s3 & Hname & Hrun)|(e & Hname & ->)];
    apply initClusterName_effect in Hname as (_ & _ & (name' & Hr & Hn3') & Hn3);
    specialize (Hn3 _ Hcn); [|by split].
  injection Hr as <-. assert (name = cn) as -> by congruence.
  apply bind_inv in Hrun as [([] & s4 & Hdef & Hrun)|(e & Hdef & ->)];
    apply (preserves_eq _ _ _ _ _ (initDefaults_trustCore cfg)) in Hdef;
    apply trustCore_inv in Hdef as (Ha4 & _ & Hn4); rewrite <- Hn4 in Hn3;
    [|by split].
  apply bind_inv in Hrun as [([] & s5 & Hu & Hrun)|(e & Hu & ->)];
    apply initUserCA_effect in Hu as (_ & Hn5 & _ & Hu & _); rewrite <- Hn5 in Hn3;
    [|by split].
  specialize (Hu eq_refl).
  apply bind_inv in Hrun as [([] & s6 & Hh & Hrun)|(e & Hh & ->)];
    apply initHostCA_effect in Hh as (_ & Hn6 & Ha6 & Hh & _); rewrite <- Hn6 in Hn3;
    [|by split].
  specialize (Hh eq_refl).
  apply bind_inv in Hrun as [([] & s7 & Hmig & Hrun)|(e & Hmig & ->)];
    apply (preserves_eq _ _ _ _ _ (migrateLegacyResources_trustCore cfg)) in Hmig;
    apply trustCore_inv in Hmig as (Ha7 & _ & Hn7); rewrite <- Hn7 in Hn3;
    [|by split].
  assert (Hlast : authorities s' = authorities s7 /\ clusterName s' = clusterName s7).
  { destruct (negb (SkipPeriodicOperations cfg)); by injection Hrun as <- <-. }
  destruct Hlast as [Ha Hn]. split; [congruence|]. intros _. split.
  - apply (hasTLS_authorities s5); [|done]. rewrite Ha, Ha7. by apply Ha6.
  - apply (hasTLS_authorities s6); [|done]. by rewrite Ha, Ha7.
Qed.

(** X18. A cluster is never renamed. When the backend holds a cluster name,
    [Init] leaves that name in place however it ends and whatever name the
    configuration asks for; and when [Init] succeeds, the user and host
    authorities with TLS material are those of the stored name. *)
Theorem Init_never_renames cfg s cn r s' :
  clusterName s = Some cn ->
  Init cfg s = (r, s') ->
  clusterName s' = Some cn /\
  (r = Ok () -> hasTLS s' (UserCA, cn) /\ hasTLS s' (HostCA, cn)).
Proof.
  intros Hcn Hrun.
  apply Init_inv in Hrun as [[Hkeep Herr]|(s0 & s1 & Hs0 & Hlocked & Hlast)].
  - apply trustCore_inv in Hkeep as (_ & _ & ->). split; [done|]. by intros ->.
  - apply trustCore_inv in Hs0 as (_ & _ & Hn0). apply trustCore_inv in Hlast as (Ha & _ & Hn).
    rewrite <- Hn0 in Hcn.
    destruct (initLocked_cluster_name cfg s0 cn r s1 Hcn Hlocked) as [Hname Htls].
    split; [congruence|]. intros Hr. destruct (Htls Hr) as [Hu Hh].
    split; eapply hasTLS_authorities; try eassumption; by rewrite Ha.
Qed.

(** Unfold the monad in a hypothesis about a run and split it in cases. *)
Ltac run_cases H :=
  cbv beta delta [mbind M_bind mret M_ret try lift fail get modify check Wrap draw
    GetCertAuthority UpsertCertAuthority CreateCertAuthority GetClusterConfig
    SetClusterConfig SetClusterName GetClusterName] in H;
  repeat case_match; simplify_eq.

Lemma keepsKeys_refl st : keepsKeys st st.
Proof. by repeat split. Qed.

Lemma keepsKeys_trans st1 st2 st3 : keepsKeys st1 st2 -> keepsKeys st2 st3 -> keepsKeys st1 st3.
Proof.
  intros (Hn & Hs & Hc & Ht) (Hn' & Hs' & Hc' & Ht').
  split; [congruence|]. split; [congruence|]. split; [congruence|].
  intros Hne. specialize (Ht Hne). subst st2. by apply Ht'.
Qed.

(** X20. The TLS backfill of the host authority (init.go:365-386), for a host
    authority that is stored with no TLS key pair. However the step ends, no
    number is drawn from the random source. When it succeeds, the first SSH
    signing key of the authority parsed as an RSA key, the TLS key pair was
    generated from that key, and the authority is stored with this one pair
    and its name and SSH keys as they were. When it fails, the backend is as
    it was. *)
Theorem initHostCA_tls_from_signing_key name s st r s' :
  authorities s !! (HostCA, name) = Some st ->
  stTLSKeyPairs st = [] ->
  initHostCA name s = (r, s') ->
  entropy s' = entropy s /\
  (r = Ok () ->
   exists signingKey k keyPEM certPEM,
     head (stSigningKeys st) = Some signingKey /\
     ParseRawPrivateKey signingKey = Ok (RSAPrivateKey k) /\
     GenerateSelfSignedCAWithPrivateKey k (caSubject name) [] CATTL = Ok (keyPEM, certPEM) /\
     authorities s' !! (HostCA, name) =
       Some (withTLSKeyPairs st [{| Cert := certPEM; Key := keyPEM |}])) /\
  (forall e, r = Err e -> s' = s).
Proof.
  intros Hst Htls Hrun. unfold initHostCA in Hrun.
  unfold mbind at 1, M_bind at 1, try, GetCertAuthority in Hrun. rewrite Hst in Hrun.
  cbn [loaded TLSKeyPairs SigningKeys] in Hrun. rewrite Htls in Hrun.
  cbn [length Nat.eqb] in Hrun.
  destruct (stSigningKeys st) as [|signingKey keys] eqn:Hkeys.
  { injection Hrun as <- <-. by repeat split. }
  unfold mbind at 1, M_bind at 1, lift in Hrun.
  destruct (ParseRawPrivateKey signingKey) as [[k|kind]|e] eqn:Hparse;
    [|injection Hrun as <- <-; by repeat split..].
  unfold mbind at 1, M_bind at 1 in Hrun.
  destruct (GenerateSelfSignedCAWithPrivateKey _ _ _ _) as [[keyPEM certPEM]|e] eqn:Hgen;
    [|injection Hrun as <- <-; by repeat split].
  injection Hrun as <- <-. split; [done|]. split; [|done].
  intros _. exists signingKey, k, keyPEM, certPEM.
  split; [done|]. split; [done|]. split; [done|].
  cbn. rewrite lookup_insert_eq. unfold stored, withTLSKeyPairs. cbn. by rewrite Hkeys.
Qed.

Lemma initUserCA_keepsKeys name s r s' id st :
  initUserCA name s = (r, s') ->
  authorities s !! id = Some st ->
  exists st', authorities s' !! id = Some st' /\ keepsKeys st st'.
Proof.
  intros Hrun Hst. destruct (decide (id = (UserCA, name))) as [->|Hne].
  - unfold initUserCA in Hrun.
    unfold mbind at 1, M_bind at 1, try, GetCertAuthority in Hrun. rewrite Hst in Hrun.
    cbn [loaded TLSKeyPairs] in Hrun.
    destruct (stTLSKeyPairs st) as [|pair pairs] eqn:Htls; cbn [length Nat.eqb] in Hrun.
    + run_cases Hrun; cbn; rewrite ?lookup_insert_eq; eexists; (split; [done|]);
        try apply keepsKeys_refl.
      unfold keepsKeys; cbn. by repeat split.
    + injection Hrun as <- <-. exists st. split; [done|apply keepsKeys_refl].
  - apply initUserCA_effect in Hrun as (_ & _ & Hother & _).
    exists st. rewrite (Hother id Hne). split; [done|apply keepsKeys_refl].
Qed.

Lemma initHostCA_keepsKeys name s r s' id st :
  initHostCA name s = (r, s') ->
  authorities s !! id = Some st ->
  exists st', authorities s' !! id = Some st' /\ keepsKeys st st'.
Proof.
  intros Hrun Hst. destruct (decide (id = (HostCA, name))) as [->|Hne].
  - destruct (stTLSKeyPairs st) as [|pair pairs] eqn:Htls.
    + destruct (initHostCA_tls_from_signing_key name s st r s' Hst Htls Hrun)
        as (_ & Hok & Herr).
      destruct r as [[]|e].
      * destruct (Hok eq_refl) as (? & ? & ? & ? & _ & _ & _ & ->).
        eexists. split; [done|]. unfold keepsKeys; cbn. by repeat split.
      * rewrite (Herr e eq_refl). exists st. split; [done|apply keepsKeys_refl].
    + apply initHostCA_effect in Hrun as (_ & _ & _ & _ & Hsame).
      destruct Hsame as [_ ->].
      * exists st. rewrite Htls. by split.
      * exists st. split; [done|apply keepsKeys_refl].
  - apply initHostCA_effect in Hrun as (_ & _ & Hother & _).
    exists st. rewrite (Hother id Hne). split; [done|apply keepsKeys_refl].
Qed.

Lemma initLocked_keepsKeys cfg s r s' id st :
  initLocked cfg s = (r, s') ->
  authorities s !! id = Some st ->
  exists st', authorities s' !! id = Some st' /\ keepsKeys st st'.
Proof.
  intros Hrun Hst. unfold initLocked in Hrun.
  assert (Hend : forall s0, authorities s0 !! id = Some st ->
            exists st', authorities s0 !! id = Some st' /\ keepsKeys st st').
  { intros sx Hx. exists st. split; [done|apply keepsKeys_refl]. }
  apply bind_inv in Hrun as [([] & s0 & Hstep & Hrun)|(e & [=] & _)].
  injection Hstep as <-.
  apply bind_inv in Hrun as [([] & s1 & Hres & Hrun)|(e & Hres & ->)];
    apply initResources_effect in Hres as (_ & _ & Hkeep & _);
    specialize (Hkeep id (ltac:(by eexists))); cbn in Hkeep;
    [|apply Hend; by rewrite Hkeep].
  rewrite <- Hkeep in Hst. clear Hkeep.
  apply bind_inv in Hrun as [([] & s2 & Hcc & Hrun)|(e & Hcc & ->)];
    apply initClusterConfig_effect in Hcc as (Ha2 & _); rewrite <- Ha2 in Hst;
    [|by apply Hend].
  apply bind_inv in Hrun as [(name & s3 & Hcn & Hrun)|(e & Hcn & ->)];
    apply initClusterName_effect in Hcn as (Ha3 & _); rewrite <- Ha3 in Hst;
    [|by apply Hend].
  apply bind_inv in Hrun as [([] & s4 & Hdef & Hrun)|(e & Hdef & ->)];
    apply (preserves_eq _ _ _ _ _ (initDefaults_trustCore cfg)) in Hdef;
    apply trustCore_inv in Hdef as (Ha4 & _ & _); rewrite <- Ha4 in Hst;
    [|by apply Hend].
  apply bind_inv in Hrun as [([] & s5 & Hu & Hrun)|(e & Hu & ->)];
    destruct (initUserCA_keepsKeys _ _ _ _ _ _ Hu Hst) as (st5 & Hst5 & Hk5);
    [|by exists st5].
  apply bind_inv in Hrun as [([] & s6 & Hh & Hrun)|(e & Hh & ->)];
    destruct (initHostCA_keepsKeys _ _ _ _ _ _ Hh Hst5) as (st6 & Hst6 & Hk6);
    [|exists st6; split; [done|by apply (keepsKeys_trans _ st5)]].
  assert (Hk : keepsKeys st st6) by (by apply (keepsKeys_trans _ st5)).
  apply bind_inv in Hrun as [([] & s7 & Hmig & Hrun)|(e & Hmig & ->)];
    apply (preserves_eq _ _ _ _ _ (migrateLegacyResources_trustCore cfg)) in Hmig;
    apply trustCore_inv in Hmig as (Ha7 & _ & _); rewrite <- Ha7 in Hst6;
    [|by exists st6].
  exists st6. split; [|done].
  destruct (negb (SkipPeriodicOperations cfg)); by injection Hrun as <- <-.
Qed.

(** X19. [Init] never loses a key. Every certificate authority the backend
    holds before the call is still there after it, however the call ends,
    under the same id, with the name, the SSH signing keys and the SSH
    checking keys it had; an authority that had TLS key pairs is left exactly
    as it was. *)
Theorem Init_keeps_authority_keys cfg s r s' id st :
  Init cfg s = (r, s') ->
  authorities s !! id = Some st ->
  exists st', authorities s' !! id = Some st' /\ keepsKeys st st'.
Proof.
  intros Hrun Hst.
  apply Init_inv in Hrun as [[Hkeep _]|(s0 & s1 & Hs0 & Hlocked & Hlast)].
  - apply trustCore_inv in Hkeep as (-> & _). exists st. split; [done|apply keepsKeys_refl].
  - apply trustCore_inv in Hs0 as (Ha0 & _). apply trustCore_inv in Hlast as (-> & _).
    rewrite <- Ha0 in Hst. by apply (initLocked_keepsKeys cfg s0 r).
Qed.

(** X21. [isFirstStart] after [Init]. On a backend without a cluster name, or
    with the name of the configuration, a successful [Init] is not followed
    by another first start: [isFirstStart] then answers false. Before it,
    [isFirstStart] answers true exactly when the host authority of the
    configured cluster name is absent. *)
Theorem isFirstStart_after_Init cfg s s' :
  clusterName s = None \/ clusterName s = Some (cfgClusterName cfg) ->
  Init cfg s = (Ok (), s') ->
  isFirstStart cfg s' = (Ok false, s') /\
  isFirstStart cfg s =
    (Ok (bool_decide (authorities s !! (HostCA, cfgClusterName cfg) = None)), s).
Proof.
  intros Hname Hrun. split.
  - assert (Hhost : hasTLS s' (HostCA, cfgClusterName cfg)).
    { destruct Hname as [Hnone|Hsome].
      - apply Init_inv in Hrun as [[_ [=]]|(s0 & s1 & Hs0 & Hlocked & Hlast)].
        apply trustCore_inv in Hs0 as (_ & _ & Hn0).
        apply trustCore_inv in Hlast as (Ha & _ & Hn).
        apply (hasTLS_authorities s1); [by rewrite Ha|]. clear Ha Hn.
        unfold initLocked in Hlocked.
        apply bind_Ok_inv in Hlocked as ([] & sa & [= <-] & Hlocked).
        apply bind_Ok_inv in Hlocked as ([] & sb & Hres & Hlocked).
        apply initResources_effect in Hres as (_ & Hn1 & _). cbn in Hn1.
        apply bind_Ok_inv in Hlocked as ([] & sc & Hcc & Hlocked).
        apply initClusterConfig_effect in Hcc as (_ & Hn2 & _).
        apply bind_Ok_inv in Hlocked as (name & sd & Hcn & Hlocked).
        assert (name = cfgClusterName cfg) as ->.
        { unfold initClusterName, mbind, M_bind, try, SetClusterName in Hcn.
          rewrite Hn2, Hn1, Hn0, Hnone in Hcn. by injection Hcn as <- _. }
        apply bind_Ok_inv in Hlocked as ([] & se & _ & Hlocked).
        apply bind_Ok_inv in Hlocked as ([] & sf & _ & Hlocked).
        apply bind_Ok_inv in Hlocked as ([] & sg & Hh & Hlocked).
        apply initHostCA_effect in Hh as (_ & _ & _ & Hh & _). specialize (Hh eq_refl).
        apply bind_Ok_inv in Hlocked as ([] & sh & Hmig & Hlocked).
        apply (preserves_eq _ _ _ _ _ (migrateLegacyResources_trustCore cfg)) in Hmig.
        apply trustCore_inv in Hmig as (Ha7 & _ & _).
        apply (hasTLS_authorities sg); [|done]. rewrite <- Ha7.
        destruct (negb (SkipPeriodicOperations cfg)); by injection Hlocked as <-.
      - by destruct (Init_never_renames cfg s _ _ s' Hsome Hrun) as [_ [_ Hh]]. }
    destruct Hhost as (st & Hst & _).
    unfold isFirstStart, mbind, M_bind, try, GetCertAuthority. by rewrite Hst.
  - unfold isFirstStart, mbind, M_bind, try, GetCertAuthority.
    by destruct (authorities s !! (HostCA, cfgClusterName cfg)).
Qed.

End InitOutcomeFacts.

Section InitOutcomeExamples.
#[local] Existing Instance Scenario.constants.
#[local] Existing Instance Scenario.crypto.
#[local] Existing Instance Scenario.services.
#[local] Existing Instance Scenario.fileSystem.

Lemma Init_releases_lock_witness :
  exists r s',
    Init Scenario.initConfig Scenario.freshServer = (r, s') /\ locks s' = ∅.
Proof.
  destruct (Init Scenario.initConfig Scenario.freshServer) as [r s'] eqn:Hrun.
  exists r, s'. split; [reflexivity|].
  exact (proj1 (Init_releases_lock Scenario.initConfig Scenario.freshServer r s' Hrun)).
Defined.

Lemma Init_never_renames_witness :
  exists s',
    Init Scenario.renamedConfig Scenario.legacyServer = (Ok (), s') /\
    clusterName s' = Some "example.com" /\
    hasTLS s' (UserCA, "example.com") /\ hasTLS s' (HostCA, "example.com").
Proof.
  assert (Hrun : exists s', Init Scenario.renamedConfig Scenario.legacyServer = (Ok (), s')).
  { eexists. vm_compute. reflexivity. }
  destruct Hrun as (s' & Hrun).
  destruct (Init_never_renames Scenario.renamedConfig Scenario.legacyServer "example.com"
              (Ok ()) s' eq_refl Hrun) as [Hname Htls].
  exists s'. split; [exact Hrun|]. split; [exact Hname|]. exact (Htls eq_refl).
Defined.

Lemma initHostCA_tls_from_signing_key_witness :
  exists s' k keyPEM certPEM,
    initHostCA "example.com" Scenario.legacyServer = (Ok (), s') /\
    entropy s' = entropy Scenario.legacyServer /\
    ParseRawPrivateKey "RSA PRIVATE KEY kkk" = Ok (RSAPrivateKey k) /\
    GenerateSelfSignedCAWithPrivateKey k (caSubject "example.com") [] CATTL
      = Ok (keyPEM, certPEM) /\
    authorities s' !! (HostCA, "example.com") =
      Some (withTLSKeyPairs (stored Scenario.legacyHostAuthority)
              [{| Cert := certPEM; Key := keyPEM |}]).
Proof.
  assert (Hrun : exists s', initHostCA "example.com" Scenario.legacyServer = (Ok (), s')).
  { eexists. vm_compute. reflexivity. }
  destruct Hrun as (s' & Hrun).
  destruct (initHostCA_tls_from_signing_key "example.com" Scenario.legacyServer
              (stored Scenario.legacyHostAuthority) (Ok ()) s') as (Hent & Hok & _).
  - vm_compute. reflexivity.
  - reflexivity.
  - exact Hrun.
  - destruct (Hok eq_refl) as (signingKey & k & keyPEM & certPEM & Hkey & Hparse & Hgen & Hst).
    exists s', k, keyPEM, certPEM. split; [exact Hrun|]. split; [exact Hent|].
    cbn in Hkey. injection Hkey as <-. by repeat split.
Defined.

Lemma Init_keeps_authority_keys_witness :
  exists s' st',
    Init Scenario.initConfig Scenario.legacyServer = (Ok (), s') /\
    authorities s' !! (UserCA, "example.com") = Some st' /\
    stSigningKeys st' = ["RSA PRIVATE KEY kkkkk"] /\
    stCheckingKeys st' = ["ssh-rsa kkkkk"].
Proof.
  assert (Hrun : exists s', Init Scenario.initConfig Scenario.legacyServer = (Ok (), s')).
  { eexists. vm_compute. reflexivity. }
  destruct Hrun as (s' & Hrun).
  destruct (Init_keeps_authority_keys Scenario.initConfig Scenario.legacyServer (Ok ()) s'
              (UserCA, "example.com") (stored Scenario.legacyUserAuthority) Hrun)
    as (st' & Hst' & _ & Hsign & Hcheck & _).
  - vm_compute. reflexivity.
  - exists s', st'. split; [exact Hrun|]. split; [exact Hst'|].
    split; [exact Hsign|exact Hcheck].
Defined.

Lemma isFirstStart_after_Init_witness :
  exists s',
    Init Scenario.initConfig Scenario.freshServer = (Ok (), s') /\
    isFirstStart Scenario.initConfig Scenario.freshServer = (Ok true, Scenario.freshServer) /\
    isFirstStart Scenario.initConfig s' = (Ok false, s').
Proof.
  assert (Hrun : exists s', Init Scenario.initConfig Scenario.freshServer = (Ok (), s')).
  { eexists. vm_compute. reflexivity. }
  destruct Hrun as (s' & Hrun).
  destruct (isFirstStart_after_Init Scenario.initConfig Scenario.freshServer s')
    as [Hafter Hbefore].
  - left. reflexivity.
  - exact Hrun.
  - exists s'. split; [exact Hrun|]. split; [|exact Hafter].
    rewrite Hbefore. reflexivity.
Defined.

End InitOutcomeExamples.

(* ===================================================================== *)
(** * Bootstrap: the migrations of legacy resources *)
(* ===================================================================== *)

Section MigrationFacts.
Context `{!Constants} `{!Crypto} `{!Services} `{!FileSystem}.

Lemma migrateUsers_loop (l : list User) : forall s,
  NoDup (map userName l) ->
  exists s',
    forM_ l (fun user =>
      match RawV1 user with
      | None => mret ()
      | Some AllowedLogins =>
          let role := SetLogins (RoleForUser user) AllowedLogins in
          _ ← UpsertRole role;
          UpsertUser (AddRole user (roleName role))
      end) s = (Ok (), s') /\
    clock s' = clock s /\
    (forall k, is_Some (roles s !! k) -> is_Some (roles s' !! k)) /\
    (forall u, u ∈ l -> is_Some (RawV1 u) ->
       users s' !! userName u = Some (storedUser (AddRole u (roleName (RoleForUser u)))) /\
       is_Some (roles s' !! roleName (RoleForUser u))) /\
    (forall k, (forall u, u ∈ l -> is_Some (RawV1 u) -> userName u ≠ k) ->
       users s' !! k = users s !! k).
Proof.
  induction l as [|u l IH]; intros s Hnd; cbn [forM_].
  { exists s. split; [done|]. split; [done|]. split; [done|]. split; [|done].
    intros u Hu. inversion Hu. }
  cbn [map] in Hnd. apply NoDup_cons in Hnd as [Hu Hnd].
  destruct (RawV1 u) as [logins|] eqn:Hraw.
  - set (s1 := set_users
                 (fun m => <[userName u := storedUser (AddRole u (roleName (RoleForUser u)))]> m)
                 (set_roles
                    (fun m => <[roleName (RoleForUser u) := SetLogins (RoleForUser u) logins]> m)
                    s)).
    destruct (IH s1 Hnd) as (s' & Hrun & Hclock & Hroles & Hmig & Hother).
    exists s'. split; [|split; [by rewrite Hclock|split; [|split]]].
    + unfold mbind at 1, M_bind at 1. unfold mbind at 1, M_bind at 1, UpsertRole, modify.
      cbn [roleName SetLogins]. exact Hrun.
    + intros k Hk. apply Hroles. cbn.
      destruct (decide (k = roleName (RoleForUser u))) as [->|Hne].
      * rewrite lookup_insert_eq. by eexists.
      * by rewrite lookup_insert_ne.
    + intros u' [->|Hin]%elem_of_cons Hlegacy.
      * split.
        -- rewrite Hother; [cbn; by rewrite lookup_insert_eq|].
           intros u' Hin _ Heq. apply Hu. rewrite <- Heq.
           apply list_elem_of_fmap. by exists u'.
        -- apply Hroles. cbn. rewrite lookup_insert_eq. by eexists.
      * by apply Hmig.
    + intros k Hk. rewrite Hother.
      * cbn. rewrite lookup_insert_ne; [done|]. apply Hk; [left|by rewrite Hraw].
      * intros u' Hin. apply Hk. by right.
  - destruct (IH s Hnd) as (s' & Hrun & Hclock & Hroles & Hmig & Hother).
    exists s'. split; [|split; [done|split; [done|split]]].
    + unfold mbind, M_bind. cbn [mret M_ret]. exact Hrun.
    + intros u' [->|Hin]%elem_of_cons Hlegacy.
      * rewrite Hraw in Hlegacy. by destruct Hlegacy.
      * by apply Hmig.
    + intros k Hk. apply Hother. intros u' Hin. apply Hk. by right.
Qed.

(** X22. [migrateUsers] on a user store in which every user is stored under
    its name. The call succeeds. Every user that has not expired and is in
    the legacy format is then stored in the new format with the role made
    for it among its roles, and that role exists; every other user is left
    as it is, and no user is added or removed. A second run changes
    nothing. *)
Theorem migrateUsers_migrates s :
  (forall k u, users s !! k = Some u -> userName u = k) ->
  exists s',
    migrateUsers s = (Ok (), s') /\
    (forall k, users s' !! k = migratedUser (clock s) <$> users s !! k) /\
    (forall k u, users s !! k = Some u -> expired (clock s) u = false ->
                 is_Some (RawV1 u) -> is_Some (roles s' !! roleName (RoleForUser u))) /\
    migrateUsers s' = (Ok (), s').
Proof.
  intros Hwf.
  assert (Hlist : forall s0, (forall k u, users s0 !! k = Some u -> userName u = k) ->
    let l := filter (fun u => negb (expired (clock s0) u)) ((map_to_list (users s0)).*2) in
    NoDup (map userName l) /\
    forall u, u ∈ l <-> users s0 !! userName u = Some u /\ expired (clock s0) u = false).
  { intros s0 Hwf0 l. split.
    - eapply sublist_NoDup; [|apply fmap_sublist, sublist_filter].
      replace (map userName ((map_to_list (users s0)).*2))
        with ((map_to_list (users s0)).*1); [apply NoDup_fst_map_to_list|].
      assert (Hall : Forall (fun kv => userName kv.2 = kv.1) (map_to_list (users s0))).
      { apply Forall_forall. intros [k u] Hkv%elem_of_map_to_list. by apply Hwf0. }
      induction Hall as [|[k u] kvs Hkv _ IH]; [done|]. cbn in *. by rewrite IH, Hkv.
    - intros u. unfold l. rewrite list_elem_of_filter, list_elem_of_fmap. split.
      + intros [Hexp ([k u'] & -> & Hkv%elem_of_map_to_list)]. cbn in *.
        rewrite (Hwf0 _ _ Hkv). split; [done|]. by destruct (expired _ _).
      + intros [Hu Hexp]. split; [by rewrite Hexp|].
        exists (userName u, u). split; [done|]. by apply elem_of_map_to_list. }
  destruct (Hlist s Hwf) as [Hnd Hin].
  destruct (migrateUsers_loop _ s Hnd) as (s' & Hrun & Hclock & Hroles & Hmig & Hother).
  assert (Husers : forall k, users s' !! k = migratedUser (clock s) <$> users s !! k).
  { intros k. unfold migratedUser. destruct (users s !! k) as [u|] eqn:Hk; cbn.
    - pose proof (Hwf _ _ Hk) as Hname.
      destruct (expired (clock s) u) eqn:Hexp.
      + rewrite Hother, Hk; [done|]. intros u' [Hu' Hexp']%Hin _ Heq.
        rewrite Heq, Hk in Hu'. congruence.
      + destruct (RawV1 u) as [logins|] eqn:Hraw.
        * rewrite <- Hname. apply Hmig; [|by rewrite Hraw]. apply Hin. by rewrite Hname.
        * rewrite Hother, Hk; [done|]. intros u' [Hu' Hexp']%Hin Hlegacy Heq.
          rewrite Heq, Hk in Hu'. injection Hu' as <-. rewrite Hraw in Hlegacy.
          by destruct Hlegacy.
    - rewrite Hother, Hk; [done|]. intros u' [Hu' _]%Hin _ Heq. rewrite Heq, Hk in Hu'.
      done. }
  exists s'. split; [|split; [done|split]].
  - unfold migrateUsers, mbind, M_bind, GetUsers. exact Hrun.
  - intros k u Hk Hexp Hlegacy. apply (Hmig u); [|done]. apply Hin.
    by rewrite (Hwf _ _ Hk).
  - assert (Hwf' : forall k u, users s' !! k = Some u -> userName u = k).
    { intros k u. rewrite Husers. destruct (users s !! k) as [u0|] eqn:Hk; [|done].
      cbn. intros [= <-]. unfold migratedUser.
      destruct (expired _ _); [by apply Hwf|]. destruct (RawV1 u0); cbn; by apply Hwf. }
    destruct (Hlist s' Hwf') as [_ Hin'].
    unfold migrateUsers. unfold mbind at 1, M_bind at 1, GetUsers.
    match goal with |- forM_ ?l ?f s' = _ =>
      assert (Hnoop : Forall (fun u => RawV1 u = None) l) end.
    { apply Forall_forall. intros u [Hu Hexp]%Hin'. rewrite Husers in Hu.
      destruct (users s !! userName u) as [u0|] eqn:Hk; [|done]. cbn in Hu.
      injection Hu as <-. unfold migratedUser in *. rewrite Hclock in Hexp.
      destruct (expired (clock s) u0) eqn:Hexp0; [congruence|].
      destruct (RawV1 u0) eqn:Hraw; done. }
    clear Hin'. induction Hnoop as [|u l Hu _ IH]; [done|]. cbn [forM_].
    unfold mbind at 1, M_bind at 1. rewrite Hu. exact IH.
Qed.

(** The body of the loop of [migrateRemoteClusters]: a remote cluster is
    added for the name unless it is the local cluster, a remote cluster or a
    trusted cluster. *)
Lemma migrateRemoteClusters_loop cn (body : CertAuthority -> M unit) l :
  (forall ca, body ca =
     if (caName ca =? cn)%string then mret () else
     r ← try (GetRemoteCluster (caName ca));
     match r with
     | Ok _ => mret ()
     | Err err =>
         if negb (IsNotFound err) then fail err else
         r ← try (GetTrustedCluster (caName ca));
         match r with
         | Ok _ => mret ()
         | Err err =>
             if negb (IsNotFound err) then fail err else
             r ← try (CreateRemoteCluster (caName ca));
             match r with
             | Ok _ => mret ()
             | Err err => if negb (IsAlreadyExists err) then fail err else mret ()
             end
         end
     end) ->
  forall s, exists s',
    forM_ l body s = (Ok (), s') /\
    trustedClusters s' = trustedClusters s /\
    forall n, n ∈ remoteClusters s' <->
              n ∈ remoteClusters s \/
              (n ∈ map caName l /\ n ≠ cn /\ n ∉ trustedClusters s).
Proof.
  intros Hbody. induction l as [|ca l IH]; intros s; cbn [forM_ map].
  { exists s. split; [done|]. split; [done|]. intros n. split; [by left|].
    intros [?|(Hin & _)]; [done|]. inversion Hin. }
  assert (Hstep : exists s1, body ca s = (Ok (), s1) /\
            trustedClusters s1 = trustedClusters s /\
            forall n, n ∈ remoteClusters s1 <->
                      n ∈ remoteClusters s \/
                      (n = caName ca /\ n ≠ cn /\ n ∉ trustedClusters s)).
  { rewrite Hbody. destruct (String.eqb_spec (caName ca) cn) as [Heq|Hne].
    { exists s. split; [done|]. split; [done|]. intros n. split; [by left|].
      intros [?|(-> & ? & _)]; done. }
    unfold mbind at 1, M_bind at 1, try, GetRemoteCluster.
    destruct (decide (caName ca ∈ remoteClusters s)) as [Hin|Hout].
    { rewrite bool_decide_eq_true_2 by done. exists s. split; [done|]. split; [done|].
      intros n. split; [by left|]. intros [?|(-> & _)]; done. }
    rewrite bool_decide_eq_false_2 by done. cbn [IsNotFound negb].
    unfold mbind at 1, M_bind at 1, try, GetTrustedCluster.
    destruct (decide (caName ca ∈ trustedClusters s)) as [Hin|Hout'].
    { rewrite bool_decide_eq_true_2 by done. exists s. split; [done|]. split; [done|].
      intros n. split; [by left|]. intros [?|(-> & _ & ?)]; done. }
    rewrite bool_decide_eq_false_2 by done. cbn [IsNotFound negb].
    unfold mbind at 1, M_bind at 1, try, CreateRemoteCluster.
    rewrite bool_decide_eq_false_2 by done.
    eexists. split; [reflexivity|]. split; [done|]. cbn. intros n.
    rewrite elem_of_union, elem_of_singleton. split.
    - intros [->|?]; [right|by left]. done.
    - intros [?|(-> & _)]; [by right|by left]. }
  destruct Hstep as (s1 & Hca & Ht1 & Hr1).
  destruct (IH s1) as (s' & Hrun & Ht & Hr).
  exists s'. split; [|split; [congruence|]].
  - unfold mbind, M_bind. by rewrite Hca.
  - intros n. rewrite Hr, Hr1, Ht1, elem_of_cons. tauto.
Qed.

(** X23. [migrateRemoteClusters] on a backend that has a cluster name: the
    call succeeds, and the remote clusters afterwards are those that were
    there and, for every host authority whose name is not the name of the
    local cluster and not that of a trusted cluster, a remote cluster of
    that name. No remote cluster is removed, and none is created for the
    local cluster. *)
Theorem migrateRemoteClusters_adds cn s :
  clusterName s = Some cn ->
  exists s',
    migrateRemoteClusters s = (Ok (), s') /\
    forall n, n ∈ remoteClusters s' <->
              n ∈ remoteClusters s \/
              (n ≠ cn /\ (n ∉ trustedClusters s) /\
               exists cluster st, authorities s !! (HostCA, cluster) = Some st /\ stName st = n).
Proof.
  intros Hcn. unfold migrateRemoteClusters.
  unfold mbind at 1, M_bind at 1, GetClusterName. rewrite Hcn.
  unfold mbind at 1, M_bind at 1, GetCertAuthorities.
  match goal with |- context [forM_ ?l ?body] =>
    destruct (migrateRemoteClusters_loop cn body l) with (s := s)
      as (s' & Hrun & _ & Hr); [reflexivity|]; exists s'; split; [exact Hrun|] end.
  intros n. rewrite Hr. clear Hrun Hr.
  assert (Hin : n ∈ map caName
            (map (fun ca => if false then ca else withoutSigningKeys ca)
               (filter (fun ca => bool_decide (caType ca = HostCA))
                  (map (fun kv => loaded kv.1 kv.2) (map_to_list (authorities s))))) <->
          exists cluster st, authorities s !! (HostCA, cluster) = Some st /\ stName st = n).
  { split.
    - intros (ca & -> & Hca)%list_elem_of_fmap.
      apply list_elem_of_fmap in Hca as (ca' & -> & Hca).
      apply list_elem_of_filter in Hca as [Hty Hca].
      apply list_elem_of_fmap in Hca as ([[ty cluster] st] & -> & Hkv).
      apply bool_decide_unpack in Hty. cbn in Hty. subst ty.
      apply elem_of_map_to_list in Hkv. by exists cluster, st.
    - intros (cluster & st & Hst & <-).
      apply list_elem_of_fmap.
      exists (withoutSigningKeys (loaded (HostCA, cluster) st)). split; [done|].
      apply list_elem_of_fmap.
      exists (loaded (HostCA, cluster) st). split; [done|].
      apply list_elem_of_filter. split; [by apply bool_decide_pack|].
      apply list_elem_of_fmap. exists ((HostCA, cluster), st). split; [done|].
      by apply elem_of_map_to_list. }
  rewrite Hin. tauto.
Qed.

Lemma removeIdentityCompat_effect dataDir id s r s' :
  removeIdentityCompat dataDir id s = (r, s') ->
  let path := keysPath dataDir id in
  let l := [key path; sshCert path; tlsCert path; tlsCACert path] in
  processStorage s' = processStorage s /\
  (forall p, p ∉ l -> files s' !! p = files s !! p) /\
  (forall p, files s' !! p = None \/ files s' !! p = files s !! p) /\
  (r = Ok () -> forall p, p ∈ l ->
     files s' !! p = None \/ exists e, removeError p = Some e /\ IsNotFound e = true) /\
  (forall e, r = Err e ->
     IsNotFound e = false /\
     exists p, p ∈ l /\ is_Some (files s' !! p) /\ removeError p = Some e).
Proof.
  unfold removeIdentityCompat. cbv zeta.
  generalize [key (keysPath dataDir id); sshCert (keysPath dataDir id);
              tlsCert (keysPath dataDir id); tlsCACert (keysPath dataDir id)].
  match goal with |- forall l, forM_ l ?f s = _ -> _ => set (body := f) end.
  assert (Hstep : forall q s0 r1 s1, body q s0 = (r1, s1) ->
            processStorage s1 = processStorage s0 /\
            (forall p, p ≠ q -> files s1 !! p = files s0 !! p) /\
            (forall p, files s1 !! p = None \/ files s1 !! p = files s0 !! p) /\
            (r1 = Ok () ->
               files s1 !! q = None \/
               exists e, removeError q = Some e /\ IsNotFound e = true) /\
            (forall e, r1 = Err e ->
               s1 = s0 /\ IsNotFound e = false /\ is_Some (files s0 !! q) /\
               removeError q = Some e)).
  { intros q s0 r1 s1. unfold body, mbind, M_bind, try, Remove.
    destruct (files s0 !! q) as [b|] eqn:Hq; cbn [IsNotFound negb mret M_ret].
    - destruct (removeError q) as [e|] eqn:He.
      + destruct (IsNotFound e) eqn:Hnf; cbn [negb]; intros [= <- <-].
        * split; [done|]. split; [done|]. split; [by right|]. split; [|done].
          intros _. right. by exists e.
        * split; [done|]. split; [done|]. split; [by right|]. split; [done|].
          intros e' [= <-]. split; [done|]. split; [done|]. split; [by eexists|done].
      + intros [= <- <-]. split; [done|]. split; [|split; [|split; [|done]]].
        * intros p Hp. cbn. by apply lookup_delete_ne.
        * intros p. cbn. destruct (decide (p = q)) as [->|Hne].
          -- left. apply lookup_delete_eq.
          -- right. by apply lookup_delete_ne.
        * intros _. left. cbn. apply lookup_delete_eq.
    - intros [= <- <-]. split; [done|]. split; [done|]. split; [by right|].
      split; [by left|done]. }
  intros l. revert s. induction l as [|q l IH]; intros s; cbn [forM_].
  { intros [= <- <-]. split; [done|]. split; [done|]. split; [by right|].
    split; [by intros _ p Hp%elem_of_nil|done]. }
  intros Hrun. apply bind_inv in Hrun as [([] & s1 & Hq & Hrest)|(e & Hq & ->)].
  - destruct (Hstep _ _ _ _ Hq) as (Hps1 & Hother1 & Hmono1 & Hok1 & _).
    destruct (IH _ Hrest) as (Hps & Hother & Hmono & Hok & Herr).
    split; [congruence|]. split; [|split; [|split]].
    + intros p Hp. rewrite Hother, Hother1; [done| |].
      * intros ->. apply Hp. left.
      * intros Hin. apply Hp. by right.
    + intros p. destruct (Hmono p) as [Hn|Hn]; [by left|].
      rewrite Hn. apply Hmono1.
    + intros Hr p [->|Hin]%elem_of_cons; [|by apply Hok].
      destruct (Hok1 eq_refl) as [Hgone|Hskip]; [|by right].
      left. destruct (Hmono q) as [Hn|Hn]; [done|congruence].
    + intros e Hr. destruct (Herr e Hr) as (Hnf & p & Hin & Hthere & He).
      split; [done|]. exists p. split; [by right|done].
  - destruct (Hstep _ _ _ _ Hq) as (Hps1 & Hother1 & Hmono1 & _ & Herr1).
    destruct (Herr1 e eq_refl) as (-> & Hnf & Hthere & He).
    split; [done|]. split; [done|]. split; [by right|]. split; [done|].
    intros e' [= <-]. split; [done|]. exists q. split; [left|done].
Qed.

Lemma readonly_readIdentityCompat dataDir id : readonly (readIdentityCompat dataDir id).
Proof.
  intros s.
  unfold readIdentityCompat, readOptional, mbind, M_bind, try, ReadPath, lift, fail, mret, M_ret.
  repeat case_match; simplify_eq; reflexivity.
Qed.


(** X25. [migrateAdminRole] is idempotent and never overwrites: after a run
    that succeeded, another run changes nothing; and an admin role that has
    Kubernetes groups is left as it is. Without an admin role the call fails
    with NotFound. *)
Theorem migrateAdminRole_idempotent s r s1 :
  migrateAdminRole s = (r, s1) ->
  (r = Ok () -> migrateAdminRole s1 = (Ok (), s1)) /\
  (forall role, roles s !! roleName NewAdminRole = Some role -> KubeGroups role ≠ [] ->
                r = Ok () /\ s1 = s) /\
  (roles s !! roleName NewAdminRole = None -> exists msg, r = Err (NotFound msg) /\ s1 = s).
Proof.
  unfold migrateAdminRole. intros Hrun.
  unfold mbind at 1, M_bind at 1, GetRole in Hrun.
  destruct (roles s !! roleName NewAdminRole) as [role|] eqn:Hrole.
  2: { injection Hrun as <- <-. split; [done|]. split; [done|]. intros _. by eexists. }
  destruct (KubeGroups role) as [|g gs] eqn:Hkube; cbn [length Nat.eqb negb] in Hrun.
  - injection Hrun as <- <-. split; [|split; [by intros ? [= <-]|done]].
    intros _. unfold mbind at 1, M_bind at 1, GetRole. cbn [roles set_roles].
    destruct (decide (roleName role = roleName NewAdminRole)) as [Heq|Hne].
    + cbn [roleName SetKubeGroups]. rewrite <- Heq, lookup_insert_eq. cbn [KubeGroups].
      destruct (KubeGroups NewAdminRole) eqn:Hdef; cbn [length Nat.eqb negb]; [|done].
      unfold UpsertRole, modify, set_roles. cbn. by rewrite insert_insert_eq.
    + cbn [roleName SetKubeGroups]. rewrite lookup_insert_ne by done. rewrite Hrole, Hkube.
      cbn [length Nat.eqb negb]. unfold UpsertRole, modify, set_roles. cbn.
      by rewrite insert_insert_eq.
  - injection Hrun as <- <-. split; [|split; [done|done]].
    intros _. unfold mbind at 1, M_bind at 1, GetRole. rewrite Hrole, Hkube. done.
Qed.

End MigrationFacts.

Section MigrationExamples.
#[local] Existing Instance Scenario.constants.
#[local] Existing Instance Scenario.crypto.
#[local] Existing Instance Scenario.services.
#[local] Existing Instance Scenario.fileSystem.

Lemma migrateUsers_migrates_witness :
  exists s' user,
    migrateUsers Scenario.legacyUsersServer = (Ok (), s') /\
    users s' !! "bob" = Some user /\
    userRoles user = ["user:bob"] /\ RawV1 user = None /\
    is_Some (roles s' !! "user:bob") /\
    migrateUsers s' = (Ok (), s').
Proof.
  destruct (migrateUsers_migrates Scenario.legacyUsersServer) as (s' & Hrun & Husers & Hroles & Hagain).
  - intros k u Hu.
    change (({[ "bob" := Scenario.legacyUser ]} : gmap string User) !! k = Some u) in Hu.
    apply lookup_singleton_Some in Hu as [<- <-]. reflexivity.
  - exists s', (storedUser (AddRole Scenario.legacyUser "user:bob")).
    split; [exact Hrun|]. split; [rewrite Husers; vm_compute; reflexivity|].
    split; [vm_compute; reflexivity|]. split; [reflexivity|]. split; [|exact Hagain].
    apply (Hroles "bob" Scenario.legacyUser); [reflexivity|reflexivity|by eexists].
Defined.

Lemma migrateRemoteClusters_adds_witness :
  exists s',
    migrateRemoteClusters Scenario.federatedServer = (Ok (), s') /\
    "remote.example.com" ∈ remoteClusters s' /\
    "example.com" ∉ remoteClusters s'.
Proof.
  destruct (migrateRemoteClusters_adds "example.com" Scenario.federatedServer eq_refl)
    as (s' & Hrun & Hin).
  exists s'. split; [exact Hrun|]. split.
  - apply Hin. right. split; [discriminate|]. split; [apply not_elem_of_empty|].
    exists "remote.example.com", (stored Scenario.remoteAuthority).
    split; [vm_compute; reflexivity|reflexivity].
  - intros Hlocal. destruct (proj1 (Hin "example.com") Hlocal) as [Hold|[Hne _]].
    + exact (not_elem_of_empty (C := gset string) "example.com" Hold).
    + exact (Hne eq_refl).
Defined.


Lemma migrateAdminRole_idempotent_witness :
  exists s1,
    migrateAdminRole Scenario.bareAdminServer = (Ok (), s1) /\
    (KubeGroups <$> roles s1 !! "admin") = Some ["system:masters"] /\
    migrateAdminRole s1 = (Ok (), s1).
Proof.
  assert (Hrun : exists s1, migrateAdminRole Scenario.bareAdminServer = (Ok (), s1) /\
                            (KubeGroups <$> roles s1 !! "admin") = Some ["system:masters"]).
  { eexists. split; vm_compute; reflexivity. }
  destruct Hrun as (s1 & Hrun & Hkube). exists s1.
  split; [exact Hrun|]. split; [exact Hkube|].
  exact (proj1 (migrateAdminRole_idempotent Scenario.bareAdminServer (Ok ()) s1 Hrun) eq_refl).
Defined.

End MigrationExamples.

(* ===================================================================== *)
(** * What an identity that was read holds *)
(* ===================================================================== *)

Section IdentityContentFacts.
Context `{!Constants} `{!Crypto}.

Lemma parseCACerts_Forall2 l pool :
  parseCACerts l = Ok pool -> Forall2 (fun b c => ParseCertificatePEM b = Ok c) l pool.
Proof.
  revert pool. induction l as [|b l IH]; intros pool; cbn.
  - intros [= <-]. constructor.
  - destruct (ParseCertificatePEM b) as [c|] eqn:Hb; cbn; [|done].
    destruct (parseCACerts l) as [pool'|]; cbn; [|done].
    intros [= <-]. constructor; [done|]. by apply IH.
Qed.

(** X26. A TLS configuration that [TLSConfig] returns: the identity has a
    TLS certificate and at least one CA certificate; the configuration has
    the cipher suites asked for, the one certificate made of the TLS
    certificate and the private key of the identity, the CA certificates of
    the identity, parsed and in their order, both as root CAs and as client
    CAs, and the encoded cluster name as server name. *)
Theorem TLSConfig_contents i cipherSuites_ tlsConfig :
  TLSConfig i cipherSuites_ = Ok tlsConfig ->
  TLSCertBytes i ≠ "" /\ TLSCACertsBytes i ≠ [] /\
  tcCipherSuites tlsConfig = cipherSuites_ /\
  (exists tlsCert, X509KeyPair (TLSCertBytes i) (KeyBytes i) = Ok tlsCert /\
                   Certificates tlsConfig = [tlsCert]) /\
  Forall2 (fun b c => ParseCertificatePEM b = Ok c) (TLSCACertsBytes i) (RootCAs tlsConfig) /\
  ClientCAs tlsConfig = RootCAs tlsConfig /\
  ServerName tlsConfig = EncodeClusterName (ClusterName i).
Proof.
  unfold TLSConfig, HasTLSConfig. intros Hrun.
  destruct (TLSCACertsBytes i) as [|ca cas] eqn:Hcas; [done|].
  destruct (TLSCertBytes i) as [|c cs] eqn:Hcert; [done|].
  cbn [length String.length Nat.eqb negb andb] in Hrun.
  destruct (X509KeyPair _ _) as [tlsCert|] eqn:Hpair; [|done].
  destruct (parseCACerts (ca :: cas)) as [pool|] eqn:Hpool; [|done].
  injection Hrun as <-. cbn.
  split; [done|]. split; [done|]. split; [done|]. split; [by exists tlsCert|].
  split; [by apply parseCACerts_Forall2|]. done.
Qed.

Lemma forallb_elem_of (l names : list string) :
  forallb (fun n => bool_decide (n ∈ l)) names = true <-> Forall (fun n => n ∈ l) names.
Proof.
  induction names as [|n names IH]; cbn; [by split|].
  rewrite andb_true_iff, Forall_cons, IH, bool_decide_eq_true. done.
Qed.

(** X27. An identity that [ReadTLSIdentityFromKeyPair] returns: the key and
    the certificate are not empty and at least one CA certificate is given;
    the host UUID is the user name of the certificate subject and the role
    its first group, the cluster name is the first organization of the
    issuer and is not empty; the identity keeps the key, the certificate and
    the CA certificates and has a TLS configuration, and [HasDNSNames]
    answers on it, with true exactly for DNS names of the certificate. It
    holds no signer and no SSH certificate, so that [HasPrincipals] fails on
    it. *)
Theorem ReadTLSIdentityFromKeyPair_identity keyBytes certBytes caCertsBytes i :
  ReadTLSIdentityFromKeyPair keyBytes certBytes caCertsBytes = Ok i ->
  keyBytes ≠ "" /\ certBytes ≠ "" /\ caCertsBytes ≠ [] /\
  (exists cert id,
     ParseCertificatePEM certBytes = Ok cert /\
     FromSubject (Subject cert) = Ok id /\
     HostUUID (ID i) = tlsUsername id /\
     head (Groups id) = Some (idRole (ID i)) /\
     head (Organization (Issuer cert)) = Some (ClusterName i) /\
     forall dnsNames, exists b,
       HasDNSNames i dnsNames = Ok b /\
       (b = true <-> Forall (fun n => n ∈ DNSNames cert) dnsNames)) /\
  ClusterName i ≠ "" /\
  KeyBytes i = keyBytes /\ TLSCertBytes i = certBytes /\ TLSCACertsBytes i = caCertsBytes /\
  CertBytes i = "" /\ KeySigner i = None /\ idCert i = None /\
  (exists tlsConfig, TLSConfig i DefaultCipherSuites = Ok tlsConfig) /\
  (forall principals, isErr (HasPrincipals i principals) = true).
Proof.
  unfold ReadTLSIdentityFromKeyPair. intros Hrun.
  destruct keyBytes as [|k ks]; [done|]. destruct certBytes as [|c cs]; [done|].
  cbn [String.length Nat.eqb] in Hrun.
  destruct (ParseCertificatePEM _) as [cert|] eqn:Hcert; [|done]. cbn in Hrun.
  destruct (FromSubject _) as [id|] eqn:Hid; [|done]. cbn in Hrun.
  destruct (Organization (Issuer cert)) as [|cn orgs] eqn:Horg; [done|].
  destruct (String.eqb_spec cn "") as [|Hcn]; [done|].
  destruct (Groups id) as [|group groups_] eqn:Hgroups; [done|].
  match type of Hrun with context [TLSConfig ?identity _] =>
    destruct (TLSConfig identity DefaultCipherSuites) as [tlsConfig|] eqn:Htls; [|done] end.
  injection Hrun as <-. cbn.
  split; [done|]. split; [done|]. split.
  { apply TLSConfig_contents in Htls as (_ & Hcas & _). exact Hcas. }
  split.
  { exists cert, id. rewrite Hgroups, Horg. do 5 (split; [done|]).
    intros dnsNames. unfold HasDNSNames. cbn [TLSCertBytes]. rewrite Hcert. cbn.
    eexists. split; [done|]. apply forallb_elem_of. }
  split; [done|]. do 6 (split; [done|]). split; [by exists tlsConfig|]. done.
Qed.

(** X28. An identity that [ReadSSHIdentityFromKeyPair] returns: the
    certificate bytes parsed as an SSH certificate and the key bytes as the
    private key it certifies; the signer of the identity is the signer bound
    to that certificate; the host UUID is the first principal of the
    certificate, the role is the one role of its role extension and the
    cluster name is its authority extension, none of them empty; the
    identity keeps the key and certificate bytes and has no TLS material.
    The host UUID is among the principals [HasPrincipals] finds. *)
Theorem ReadSSHIdentityFromKeyPair_identity keyBytes certBytes i :
  ReadSSHIdentityFromKeyPair keyBytes certBytes = Ok i ->
  exists cert signer,
    ParseAuthorizedKey certBytes = Ok (PubCertificate cert) /\
    ParsePrivateKey keyBytes = Ok signer /\
    certKey cert = signerPublicKey signer /\
    KeySigner i = Some (CertSigner cert signer) /\
    idCert i = Some cert /\
    head (ValidPrincipals cert) = Some (HostUUID (ID i)) /\
    HostUUID (ID i) ≠ "" /\
    ParseRoles (extension (Extensions cert) CertExtensionRole) = Ok [idRole (ID i)] /\
    ClusterName i = extension (Extensions cert) CertExtensionAuthority /\
    ClusterName i ≠ "" /\
    KeyBytes i = keyBytes /\ CertBytes i = certBytes /\
    HasTLSConfig i = false /\
    HasPrincipals i [HostUUID (ID i)] = Ok true.
Proof.
  unfold ReadSSHIdentityFromKeyPair. intros Hrun.
  destruct (String.length keyBytes =? 0)%nat; [done|].
  destruct (String.length certBytes =? 0)%nat; [done|].
  destruct (ParseAuthorizedKey certBytes) as [[cert|]|] eqn:Hcert; [|done..].
  destruct (ParsePrivateKey keyBytes) as [signer|] eqn:Hkey; [|done].
  unfold NewCertSigner in Hrun.
  destruct (String.eqb_spec (certKey cert) (signerPublicKey signer)) as [Hsame|]; [|done].
  destruct (ValidPrincipals cert) as [|principal principals] eqn:Hprincipals; [done|].
  destruct (existsb _ _) eqn:Hempty; [done|].
  destruct (size _ =? 0)%nat; [done|].
  destruct (String.eqb_spec (extension (Extensions cert) CertExtensionRole) "") as [|Hrole];
    [done|].
  destruct (ParseRoles _) as [[|role [|? ?]]|] eqn:Hroles; cbn in Hrun; try done.
  destruct (String.eqb_spec (extension (Extensions cert) CertExtensionAuthority) "")
    as [|Hauthority]; [done|].
  injection Hrun as <-. exists cert, signer. cbn. rewrite Hprincipals.
  do 6 (split; [done|]). split.
  { cbn in Hempty. apply orb_false_elim in Hempty as [Hp _].
    by apply String.eqb_neq in Hp. }
  do 6 (split; [done|]).
  rewrite bool_decide_eq_true_2; [done|left].
Qed.

Lemma splitDot_cons s : exists part parts, splitDot s = part :: parts.
Proof.
  induction s as [|c s (part & parts & IH)]; cbn; [by eexists _, _|].
  destruct (Ascii.eqb c "."); [by eexists _, _|]. rewrite IH. by eexists _, _.
Qed.

Lemma splitDot_noDot s : noDot s = true -> splitDot s = [s].
Proof.
  induction s as [|c s IH]; cbn; [done|].
  destruct (Ascii.eqb c "."); cbn; [done|]. by intros ->%IH.
Qed.

Lemma splitDot_dot h rest :
  noDot h = true -> splitDot (h +:+ String "." rest) = h :: splitDot rest.
Proof.
  induction h as [|c h IH]; [done|].
  change (String c h +:+ String "." rest) with (String c (h +:+ String "." rest)).
  cbn [splitDot noDot].
  destruct (Ascii.eqb c "."); cbn [negb andb]; [done|]. by intros ->%IH.
Qed.

(** X29. [HostID] is the part of the host UUID before its first dot: for a
    host UUID [h.rest] in which [h] has no dot the result is [h]; and a host
    UUID without a dot is rejected with BadParameter. *)
Theorem HostID_first_part id :
  (forall h rest, noDot h = true -> HostUUID id = h +:+ "." +:+ rest -> HostID id = Ok h) /\
  (noDot (HostUUID id) = true -> exists msg, HostID id = Err (BadParameter msg)).
Proof.
  unfold HostID. split.
  - intros h rest Hno ->.
    change (h +:+ "." +:+ rest) with (h +:+ String "." rest).
    rewrite (splitDot_dot _ _ Hno).
    by destruct (splitDot_cons rest) as (part & parts & ->).
  - intros Hno. rewrite (splitDot_noDot _ Hno). by eexists.
Qed.

End IdentityContentFacts.

Section IdentityContentExamples.
#[local] Existing Instance Scenario.constants.
#[local] Existing Instance Scenario.crypto.

Lemma TLSConfig_contents_witness :
  exists i tlsConfig,
    ReadTLSIdentityFromKeyPair "RSA PRIVATE KEY kkkkkkk" "node-tls-cert" ["ca-tls-cert"]
      = Ok i /\
    TLSConfig i [49199] = Ok tlsConfig /\
    RootCAs tlsConfig = [Scenario.caX509] /\ ClientCAs tlsConfig = [Scenario.caX509] /\
    ServerName tlsConfig = "example.com.teleport.cluster.local".
Proof.
  assert (Hrun : exists i tlsConfig,
    ReadTLSIdentityFromKeyPair "RSA PRIVATE KEY kkkkkkk" "node-tls-cert" ["ca-tls-cert"]
      = Ok i /\
    TLSConfig i [49199] = Ok tlsConfig /\ RootCAs tlsConfig = [Scenario.caX509] /\
    ClusterName i = "example.com").
  { eexists _, _. repeat split; vm_compute; reflexivity. }
  destruct Hrun as (i & tlsConfig & Hread & Htls & Hroots & Hcluster).
  destruct (TLSConfig_contents i [49199] tlsConfig Htls) as (_ & _ & _ & _ & _ & Hclient & Hname).
  exists i, tlsConfig. split; [exact Hread|]. split; [exact Htls|]. split; [exact Hroots|].
  split; [by rewrite Hclient|]. rewrite Hname, Hcluster. reflexivity.
Defined.

Lemma ReadTLSIdentityFromKeyPair_identity_witness :
  exists i,
    ReadTLSIdentityFromKeyPair "RSA PRIVATE KEY kkkkkkk" "node-tls-cert" ["ca-tls-cert"]
      = Ok i /\
    ClusterName i ≠ "" /\ KeySigner i = None /\
    (exists tlsConfig, TLSConfig i DefaultCipherSuites = Ok tlsConfig) /\
    isErr (HasPrincipals i []) = true.
Proof.
  assert (Hrun : exists i,
    ReadTLSIdentityFromKeyPair "RSA PRIVATE KEY kkkkkkk" "node-tls-cert" ["ca-tls-cert"]
      = Ok i).
  { eexists. vm_compute. reflexivity. }
  destruct Hrun as (i & Hrun).
  destruct (ReadTLSIdentityFromKeyPair_identity _ _ _ i Hrun)
    as (_ & _ & _ & _ & Hcluster & _ & _ & _ & _ & Hsigner & _ & Htls & Hprincipals).
  exists i. split; [exact Hrun|]. split; [exact Hcluster|]. split; [exact Hsigner|].
  split; [exact Htls|]. apply Hprincipals.
Defined.

Lemma ReadSSHIdentityFromKeyPair_identity_witness :
  exists i,
    ReadSSHIdentityFromKeyPair "RSA PRIVATE KEY kkkkkkk" "node-cert" = Ok i /\
    HostUUID (ID i) ≠ "" /\ ClusterName i ≠ "" /\
    HasPrincipals i [HostUUID (ID i)] = Ok true /\
    HostID (ID i) = Ok "00000000-0000-0000-0000-000000000000".
Proof.
  assert (Hrun : exists i,
    ReadSSHIdentityFromKeyPair "RSA PRIVATE KEY kkkkkkk" "node-cert" = Ok i /\
    HostID (ID i) = Ok "00000000-0000-0000-0000-000000000000").
  { eexists. split; vm_compute; reflexivity. }
  destruct Hrun as (i & Hrun & Hhost).
  destruct (ReadSSHIdentityFromKeyPair_identity _ _ i Hrun)
    as (cert & signer & _ & _ & _ & _ & _ & _ & Huuid & _ & _ & Hcluster & _ & _ & _ & Hhas).
  exists i. by repeat split.
Defined.

(** The host UUID of a node of [example.com], and a bare UUID. *)
Lemma HostID_first_part_witness :
  HostID {| idRole := "Node"; HostUUID := "0000-0000.example.com"; NodeName := "node" |}
    = Ok "0000-0000" /\
  exists msg, HostID {| idRole := "Node"; HostUUID := "0000-0000"; NodeName := "node" |}
              = Err (BadParameter msg).
Proof.
  split.
  - apply (proj1 (HostID_first_part
                    {| idRole := "Node"; HostUUID := "0000-0000.example.com";
                       NodeName := "node" |}) "0000-0000" "example.com"); reflexivity.
  - apply (proj2 (HostID_first_part
                    {| idRole := "Node"; HostUUID := "0000-0000"; NodeName := "node" |})).
    reflexivity.
Defined.

End IdentityContentExamples.
